(** * NBS extraction pipeline: a shallow embedding of [nbs_pipeline.py]

    The development follows [NBSDataPipeline]: the entry validator
    ([validate_entry]), the dataset writer ([save_data]), the loader
    ([load_existing_data]) and the incremental directory processor
    ([process_directory]).  It goes on with what surrounds the
    processor: the download loops and the metadata documents of the two
    scrapers ([html_extractor_oppla.py], [unacity_scraper.py]), whose
    output the processor reads, and the two callers ([main] of
    [nbs_pipeline.py] and [process_first_200_unacity.py]).

    Python strings are modelled by [string]; a character stands for the
    code point of the same number, so the strings covered are those whose
    code points are below 256.  Python dictionaries are association lists
    in insertion order (the order decides both [str] of a dictionary and
    the column order of a table); the first binding of a key is the live
    one.  Floating-point values are left out of the value universe. *)

From Stdlib Require Import ZArith List String Ascii Bool Arith Lia.
From Stdlib Require Import DecimalString DecimalZ.
Import ListNotations.
Open Scope string_scope.
Set Warnings "-register-all".

(* ===================================================================== *)
(** ** Exceptions and results *)

Inductive exn : Type :=
| AttributeError
| TypeError
| KeyError (key : string)
| ValueError (msg : string)
| ZeroDivisionError
| OSError.

Inductive result (A : Type) : Type :=
| Ok (a : A)
| Raise (e : exn).
Arguments Ok {A} a.
Arguments Raise {A} e.

Definition is_ok {A} (r : result A) : bool :=
  match r with Ok _ => true | Raise _ => false end.

Definition rbind {A B} (r : result A) (k : A -> result B) : result B :=
  match r with Ok a => k a | Raise e => Raise e end.

(* ===================================================================== *)
(** ** Python string primitives *)

Module Py.

(** [str.isspace] on one character: the code points 9-13, 28-32, 133
    and 160. *)
Definition is_space (c : ascii) : bool :=
  let n := nat_of_ascii c in
  (((9 <=? n) && (n <=? 13)) || ((28 <=? n) && (n <=? 32))
   || (n =? 133) || (n =? 160))%nat.

Fixpoint lstrip (s : string) : string :=
  match s with
  | EmptyString => EmptyString
  | String c s' => if is_space c then lstrip s' else s
  end.

Fixpoint rstrip (s : string) : string :=
  match s with
  | EmptyString => EmptyString
  | String c s' =>
      match rstrip s' with
      | EmptyString => if is_space c then EmptyString else String c EmptyString
      | r => String c r
      end
  end.

(** [s.strip()] *)
Definition strip (s : string) : string := rstrip (lstrip s).

(** [str.lower] on one character: A-Z, and the upper-case letters
    192-222 other than the multiplication sign 215. *)
Definition lower_char (c : ascii) : ascii :=
  let n := nat_of_ascii c in
  if (((65 <=? n) && (n <=? 90))
      || ((192 <=? n) && (n <=? 222) && negb (n =? 215)))%nat
  then ascii_of_nat (n + 32) else c.

(** [s.lower()] *)
Fixpoint lower (s : string) : string :=
  match s with
  | EmptyString => EmptyString
  | String c s' => String (lower_char c) (lower s')
  end.

(** [s.split(sep)] for a one-character separator. *)
Fixpoint split (sep : ascii) (s : string) : list string :=
  match s with
  | EmptyString => [EmptyString]
  | String c s' =>
      if Ascii.eqb c sep then EmptyString :: split sep s'
      else match split sep s' with
           | h :: t => String c h :: t
           | [] => [String c EmptyString]
           end
  end.

(** [sep.join(l)] *)
Definition join (sep : string) (l : list string) : string :=
  String.concat sep l.

Definition nonempty (s : string) : bool :=
  match s with EmptyString => false | String _ _ => true end.

(** [x in xs] for strings. *)
Definition str_in (x : string) (xs : list string) : bool :=
  existsb (String.eqb x) xs.

(** [needle in hay] on strings: substring test. *)
Fixpoint is_substring (needle hay : string) : bool :=
  if String.prefix needle hay then true
  else match hay with
       | EmptyString => false
       | String _ hay' => is_substring needle hay'
       end.

(** *** Values a JSON document decodes to *)

Inductive value : Type :=
| VNone
| VBool (b : bool)
| VInt (z : Z)
| VStr (s : string)
| VList (l : list value)
| VDict (d : list (string * value)).

Definition dict : Type := list (string * value).

(** Truth value of an object ([if v:]). *)
Definition truthy (v : value) : bool :=
  match v with
  | VNone => false
  | VBool b => b
  | VInt z => negb (Z.eqb z 0)
  | VStr s => nonempty s
  | VList l => match l with [] => false | _ => true end
  | VDict d => match d with [] => false | _ => true end
  end.

Definition squote : ascii := ascii_of_nat 39.
Definition dquote : ascii := ascii_of_nat 34.
Definition backslash : ascii := ascii_of_nat 92.

Fixpoint has_char (c : ascii) (s : string) : bool :=
  match s with
  | EmptyString => false
  | String c' s' => Ascii.eqb c c' || has_char c s'
  end.

Definition hex_digit (n : nat) : ascii :=
  if (n <? 10)%nat then ascii_of_nat (48 + n) else ascii_of_nat (87 + n).

(** The escape [\xHH] of a code point. *)
Definition hex_escape (n : nat) : string :=
  String backslash (String "x"%char
    (String (hex_digit (n / 16)) (String (hex_digit (n mod 16)) EmptyString))).

(** One character of [repr] of a string delimited by [quote]. *)
Definition repr_char (quote c : ascii) : string :=
  let n := nat_of_ascii c in
  if Ascii.eqb c quote || Ascii.eqb c backslash
  then String backslash (String c EmptyString)
  else if (n =? 9)%nat then String backslash "t"
  else if (n =? 10)%nat then String backslash "n"
  else if (n =? 13)%nat then String backslash "r"
  else if ((n <? 32) || (n =? 127))%nat then hex_escape n
  else if (n <? 127)%nat then String c EmptyString
  else if ((n <=? 160) || (n =? 173))%nat then hex_escape n
  else String c EmptyString.

Fixpoint repr_chars (quote : ascii) (s : string) : string :=
  match s with
  | EmptyString => EmptyString
  | String c s' => repr_char quote c ++ repr_chars quote s'
  end.

(** [repr(s)] of a string: single quotes unless the string has a single
    quote and no double quote. *)
Definition str_repr (s : string) : string :=
  let quote := if has_char squote s && negb (has_char dquote s)
               then dquote else squote in
  String quote (repr_chars quote s ++ String quote EmptyString).

(** The decimal numeral of an integer: what [str(z)] returns when it
    returns.  The interpreter refuses to convert an integer with more
    digits than its limit, 4300 by default (CPython 3.11, and the
    security releases of the earlier versions), and raises [ValueError];
    see [int_str_ok] and [str_ok] below.  The indices, page numbers and
    status codes formatted by the scrapers stay far below the limit. *)
Definition int_str (z : Z) : string := NilZero.string_of_int (Z.to_int z).

Definition int_max_str_digits : nat := 4300.

(** Whether [str(z)] returns: the digits of [z], without its sign, are
    at most [int_max_str_digits]. *)
Definition int_str_ok (z : Z) : bool :=
  (String.length (int_str (Z.abs z)) <=? int_max_str_digits)%nat.

(** [repr(v)] *)
Fixpoint py_repr (v : value) : string :=
  match v with
  | VNone => "None"
  | VBool true => "True"
  | VBool false => "False"
  | VInt z => int_str z
  | VStr s => str_repr s
  | VList l => "[" ++ join ", " (map py_repr l) ++ "]"
  | VDict d =>
      "{" ++ join ", "
               (map (fun kv => match kv with
                               | (k, x) => str_repr k ++ ": " ++ py_repr x
                               end) d) ++ "}"
  end.

(** [str(v)], when it returns (see [str_ok]). *)
Definition py_str (v : value) : string :=
  match v with
  | VStr s => s
  | _ => py_repr v
  end.

(** Whether [str(v)] and [repr(v)] return: every integer in [v] is
    within the limit of the conversion. *)
Fixpoint str_ok (v : value) : bool :=
  match v with
  | VInt z => int_str_ok z
  | VList l => forallb str_ok l
  | VDict d => forallb (fun kv => str_ok (snd kv)) d
  | _ => true
  end.

(** The exception of [str] and [repr] beyond the limit. *)
Definition limit_error : exn :=
  ValueError "Exceeds the limit (4300 digits) for integer string conversion; use sys.set_int_max_str_digits() to increase the limit".

(** [d.get(key)]: [None] when the key is absent. *)
Fixpoint dict_get (d : dict) (key : string) : option value :=
  match d with
  | [] => None
  | (k, x) :: d' => if String.eqb k key then Some x else dict_get d' key
  end.

Definition has_key (d : dict) (key : string) : bool :=
  match dict_get d key with Some _ => true | None => false end.

(** [d[key] = x]: replaces the binding in place, or appends a new one. *)
Fixpoint dict_set (d : dict) (key : string) (x : value) : dict :=
  match d with
  | [] => [(key, x)]
  | (k, y) :: d' =>
      if String.eqb k key then (k, x) :: d' else (k, y) :: dict_set d' key x
  end.

Definition keys (d : dict) : list string := map fst d.

(** Whether [hash(v)] succeeds: lists and dictionaries are unhashable. *)
Definition hashable (v : value) : bool :=
  match v with VList _ | VDict _ => false | _ => true end.

(** [a == b] on hashable values; [True == 1] and [False == 0]. *)
Definition py_eq (a b : value) : bool :=
  match a, b with
  | VNone, VNone => true
  | VStr s, VStr t => String.eqb s t
  | VBool x, VBool y => Bool.eqb x y
  | VInt x, VInt y => Z.eqb x y
  | VBool x, VInt y => Z.eqb (if x then 1 else 0) y
  | VInt x, VBool y => Z.eqb x (if y then 1 else 0)
  | _, _ => false
  end.

End Py.
Import Py.

(* ===================================================================== *)
(** ** The entry validator *)

Module Validator.

Inductive field_type : Type := TStr | TList.

(** [self.schema], in declaration order. *)
Definition schema : list (string * field_type) :=
  [ ("title", TStr); ("summary", TStr); ("status", TStr);
    ("location_name", TStr); ("country", TStr); ("scale", TStr);
    ("solution_types", TList); ("challenges_addressed", TList);
    ("health_linkages_primary", TList); ("impacts", TList);
    ("governance", TStr); ("url_source", TStr);
    ("environmental_context", TStr) ].

Definition schema_fields : list string := map fst schema.

Definition valid_status : list string :=
  ["planned"; "in-progress"; "completed"; "ongoing"; "unknown"].
Definition valid_scales : list string :=
  ["site"; "neighborhood"; "city"; "watershed"; "regional"; "unknown"].
Definition valid_env_contexts : list string :=
  ["urban"; "coastal"; "wetland"; "forest"; "agricultural"; "unknown"].

(** [value.lower()]: a method of strings only. *)
Definition lower_method (val : value) : result string :=
  match val with
  | VStr s => Ok (lower s)
  | _ => Raise AttributeError
  end.

(** [value.lower() if value.lower() in valid else 'unknown'] *)
Definition clean_enum (valid : list string) (val : value) : result value :=
  rbind (lower_method val) (fun low =>
    if str_in low valid
    then rbind (lower_method val) (fun low' => Ok (VStr low'))
    else Ok (VStr "unknown")).

(** The loop over the items of a list-typed field, with its two
    accumulators [cleaned_list] and [seen]. *)
Fixpoint clean_items (items : list value) (cleaned_list seen : list string)
  : list string :=
  match items with
  | [] => cleaned_list
  | item :: rest =>
      if truthy item && nonempty (strip (py_str item)) then
        let cleaned_item := lower (strip (py_str item)) in
        if negb (str_in cleaned_item seen)
        then clean_items rest (cleaned_list ++ [cleaned_item])
                         (cleaned_item :: seen)
        else clean_items rest cleaned_list seen
      else clean_items rest cleaned_list seen
  end.

Definition clean_list (val : value) : value :=
  match val with
  | VList items => VList (map VStr (clean_items items [] []))
  | _ => VList []
  end.

Definition clean_summary (val : value) : string :=
  let cleaned := strip (py_str val) in
  if (4 <? List.length (split "." cleaned))%nat then
    let sentences := firstn 4 (split "." cleaned) in
    join ". " (map strip sentences) ++ "."
  else cleaned.

Definition clean_string (val : value) : string :=
  if nonempty (strip (py_str val)) then strip (py_str val) else "unknown".

(** Whether the loop over the items of a list-typed field returns:
    [str(item)] is called on the items that are true values, and raises
    on an item that holds an integer beyond the limit. *)
Definition items_ok (val : value) : bool :=
  match val with
  | VList items => forallb (fun item => negb (truthy item) || str_ok item) items
  | _ => true
  end.

(** The [if]/[elif] chain of the loop body, for a value that is not
    [None].  The branches of the controlled fields call [value.lower()]
    and never [str]; the branch of the lists calls [str] on the items
    that are true values; the last two branches call [str(value)]. *)
Definition clean_field (field : string) (ft : field_type) (val : value)
  : result value :=
  if String.eqb field "status" then clean_enum valid_status val
  else if String.eqb field "scale" then clean_enum valid_scales val
  else if String.eqb field "environmental_context"
  then clean_enum valid_env_contexts val
  else match ft with
       | TList =>
           if items_ok val then Ok (clean_list val) else Raise limit_error
       | TStr =>
           if str_ok val then
             if String.eqb field "summary" then Ok (VStr (clean_summary val))
             else Ok (VStr (clean_string val))
           else Raise limit_error
       end.

Definition default_of (ft : field_type) : value :=
  match ft with TList => VList [] | TStr => VStr "unknown" end.

(** The loop [for field, field_type in self.schema.items()]. *)
Fixpoint validate_fields (fields : list (string * field_type))
    (entry cleaned : dict) : result dict :=
  match fields with
  | [] => Ok cleaned
  | (field, ft) :: rest =>
      match dict_get entry field with
      | None | Some VNone =>
          validate_fields rest entry (dict_set cleaned field (default_of ft))
      | Some val =>
          rbind (clean_field field ft val) (fun c =>
            validate_fields rest entry (dict_set cleaned field c))
      end
  end.

Definition validate_entry (entry : dict) : result dict :=
  validate_fields schema entry [].

(** *** The set-field rule in the specification's words

    Stringify, trim and lower-case each element; drop it if empty or
    already seen. *)
Fixpoint spec_items (items : list value) (seen : list string) : list string :=
  match items with
  | [] => []
  | item :: rest =>
      let e := lower (strip (py_str item)) in
      if nonempty e && negb (str_in e seen)
      then e :: spec_items rest (e :: seen)
      else spec_items rest seen
  end.

Definition spec_clean_list (val : value) : value :=
  match val with
  | VList items => VList (map VStr (spec_items items []))
  | _ => VList []
  end.

(** What a validated record looks like, field by field. *)
Definition is_clean_item (v : value) : bool :=
  match v with
  | VStr s => nonempty s && String.eqb (lower s) s && String.eqb (strip s) s
  | _ => false
  end.

Fixpoint no_dup_str (l : list string) : bool :=
  match l with
  | [] => true
  | x :: l' => negb (str_in x l') && no_dup_str l'
  end.

Definition str_of (v : value) : string :=
  match v with VStr s => s | _ => "" end.

Definition field_ok (field : string) (ft : field_type) (v : value) : bool :=
  match ft with
  | TList =>
      match v with
      | VList l => forallb is_clean_item l && no_dup_str (map str_of l)
      | _ => false
      end
  | TStr =>
      match v with
      | VStr s =>
          if String.eqb field "status" then str_in s valid_status
          else if String.eqb field "scale" then str_in s valid_scales
          else if String.eqb field "environmental_context"
          then str_in s valid_env_contexts
          else true
      | _ => false
      end
  end.

Definition record_ok (cleaned : dict) : bool :=
  forallb (fun fd => match dict_get cleaned (fst fd) with
                     | Some v => field_ok (fst fd) (snd fd) v
                     | None => false
                     end) schema.

End Validator.
Import Validator.

(* ===================================================================== *)
(** ** Files, the environment of a run, and the state it changes *)

Module Store.

(** A file that may hold a dataset: what is on disk at the output path. *)
Inductive file : Type :=
| Absent
| Unreadable
| CsvTable (rows : list dict)
| JsonDoc (rows : list dict)
| Workbook (rows : list dict).

(** The statistics document; the [success_rate] text, a formatted
    floating-point quotient, is not part of the model (the division that
    computes it is). *)
Record stats : Type := Stats {
  total_files : nat;
  processed_files : nat;
  processed_date : string;
  source_type : string
}.

(** An HTML file of the listing: [file_path.name] and [str(file_path)]. *)
Record html_file : Type := HtmlFile {
  name : string;
  path : string
}.

(** Everything a run takes from outside the program.

    - [read_back]: the records [pd.read_csv] gives for a file that
      [to_csv] wrote from the given records;
    - [prompt_head], [prompt_tail]: the fixed text of the prompt before
      and after the source text;
    - [listing]: [directory.glob('*.html')];
    - [metadata]: the decoded [download_metadata.json], [VNone] when the
      file is absent or cannot be decoded;
    - [parse_html]: the text of a file, or the exception reading it;
    - [chat_json]: the decoded reply to a prompt, or the exception of
      the service call or of [json.loads];
    - [io_ok]: whether the n-th write of the run succeeds;
    - [now]: the formatted time stamp. *)
Record env : Type := Env {
  read_back : list dict -> list dict;
  prompt_head : string;
  prompt_tail : string;
  listing : result (list html_file);
  metadata : value;
  parse_html : string -> result string;
  chat_json : string -> result value;
  io_ok : nat -> bool;
  now : string
}.

(** The state a run changes: the three files it writes (output dataset,
    field dictionary, statistics; three distinct paths), whether the
    output directory was created, the prompts sent to the service, the
    number of writes attempted, and the local list [entries]. *)
Record state : Type := State {
  output_file : file;
  dictionary_file : bool;
  stats_file : option stats;
  made_dirs : bool;
  llm_log : list string;
  clock : nat;
  entries : list dict
}.

Definition initial (f : file) : state :=
  State f false None false [] 0 [].

(** Computations that change the state and may raise; the state reached
    when an exception is raised is kept. *)
Definition M (A : Type) : Type := state -> result A * state.

Definition ret {A} (a : A) : M A := fun s => (Ok a, s).

Definition bind {A B} (m : M A) (k : A -> M B) : M B :=
  fun s => match m s with
           | (Ok a, s') => k a s'
           | (Raise e, s') => (Raise e, s')
           end.

Definition raise {A} (e : exn) : M A := fun s => (Raise e, s).

Definition lift {A} (r : result A) : M A := fun s => (r, s).

(** [try: body except Exception: print(...)] *)
Definition try_except (body : M unit) : M unit :=
  fun s => (Ok tt, snd (body s)).

End Store.
Import Store.

Declare Scope m_scope.
Delimit Scope m_scope with M.
Notation "x <- m ;; k" := (bind m (fun x => k))
  (at level 61, m at next level, right associativity) : m_scope.
Notation "m ;;; k" := (bind m (fun _ => k))
  (at level 61, right associativity) : m_scope.

(* ===================================================================== *)
(** ** The dataset writer and the loader *)

Module Writer.

Local Open Scope m_scope.

(** One write to the file system: it succeeds or raises [OSError],
    as [io_ok] says for the current write count.  A write that fails
    leaves its target as it was. *)
Definition attempt (E : env) (effect : state -> state) : M unit :=
  fun s =>
    let s' := State (output_file s) (dictionary_file s) (stats_file s)
                    (made_dirs s) (llm_log s) (S (clock s)) (entries s) in
    if io_ok E (clock s) then (Ok tt, effect s') else (Raise OSError, s').

Definition set_output (f : file) (s : state) : state :=
  State f (dictionary_file s) (stats_file s) (made_dirs s) (llm_log s)
        (clock s) (entries s).

Definition set_dictionary (s : state) : state :=
  State (output_file s) true (stats_file s) (made_dirs s) (llm_log s)
        (clock s) (entries s).

Definition set_made_dirs (s : state) : state :=
  State (output_file s) (dictionary_file s) (stats_file s) true (llm_log s)
        (clock s) (entries s).

Definition set_stats (st : stats) (s : state) : state :=
  State (output_file s) (dictionary_file s) (Some st) (made_dirs s)
        (llm_log s) (clock s) (entries s).

(** [os.path.dirname(output_path)] is non-empty exactly when the path
    has a slash. *)
Definition has_output_dir (output_path : string) : bool :=
  has_char "/"%char output_path.

Definition supported_formats : list string := ["csv"; "json"; "excel"].

Definition save_data (E : env) (df : list dict) (output_path : string)
    (format : string) : M unit :=
  (if has_output_dir output_path then attempt E set_made_dirs else ret tt) ;;;
  (if String.eqb format "csv" then attempt E (set_output (CsvTable df))
   else if String.eqb format "json" then attempt E (set_output (JsonDoc df))
   else if String.eqb format "excel"
   then attempt E (set_output (Workbook df))
   else raise (ValueError ("Unsupported format: " ++ format))) ;;;
  attempt E set_dictionary.

(** [pd.read_csv]: a JSON document or a workbook is not CSV text. *)
Definition read_csv (E : env) (f : file) : result (list dict) :=
  match f with
  | CsvTable rows => Ok (read_back E rows)
  | _ => Raise (ValueError "read_csv")
  end.

Definition exists_file (f : file) : bool :=
  match f with Absent => false | _ => true end.

(** The [try]/[except] of [load_existing_data]: an empty frame when the
    file is absent and when reading it raises. *)
Definition load_existing_data (E : env) (f : file) : list dict :=
  match (if exists_file f then read_csv E f else Ok []) with
  | Ok df => df
  | Raise _ => []
  end.

End Writer.
Import Writer.

(* ===================================================================== *)
(** ** The incremental directory processor *)

Module Processor.

Local Open Scope m_scope.

(** [key in c] for a string key. *)
Definition py_contains (key : string) (c : value) : result bool :=
  match c with
  | VDict d => Ok (has_key d key)
  | VList l => Ok (existsb (py_eq (VStr key)) l)
  | VStr s => Ok (is_substring key s)
  | _ => Raise TypeError
  end.

(** [c[key]] for a string key. *)
Definition py_getitem (c : value) (key : string) : result value :=
  match c with
  | VDict d =>
      match dict_get d key with
      | Some x => Ok x
      | None => Raise (KeyError key)
      end
  | _ => Raise TypeError
  end.

(** [c[key] = x] for a string key. *)
Definition py_setitem (c : value) (key : string) (x : value) : result value :=
  match c with
  | VDict d => Ok (VDict (dict_set d key x))
  | _ => Raise TypeError
  end.

(** The items a [for] loop over [c] visits. *)
Definition py_iter (c : value) : result (list value) :=
  match c with
  | VList l => Ok l
  | VDict d => Ok (map VStr (keys d))
  | VStr s =>
      Ok (map (fun ch => VStr (String ch EmptyString)) (list_ascii_of_string s))
  | _ => Raise TypeError
  end.

(** [c.get(key, default)]: a method of dictionaries only. *)
Definition py_get (c : value) (key : string) (default : value)
  : result value :=
  match c with
  | VDict d =>
      Ok (match dict_get d key with Some x => x | None => default end)
  | _ => Raise AttributeError
  end.

(** The inner loop over [metadata['successful_files']]. *)
Fixpoint find_link (items : list value) (file_name : string) : result value :=
  match items with
  | [] => Ok (VStr "unknown")
  | entry :: rest =>
      rbind (py_get entry "filename" VNone) (fun fn =>
        if py_eq fn (VStr file_name)
        then py_get entry "link" (VStr "unknown")
        else find_link rest file_name)
  end.

(** The URL a file resolves to. *)
Definition resolve_url (metadata : value) (file_name : string)
  : result value :=
  if truthy metadata then
    rbind (py_contains "successful_files" metadata) (fun present =>
      if present : bool then
        rbind (py_getitem metadata "successful_files") (fun files =>
          rbind (py_iter files) (fun items => find_link items file_name))
      else Ok (VStr "unknown"))
  else Ok (VStr "unknown").

(** [url != 'unknown' and url in existing_urls] *)
Definition url_known (url : value) (existing_urls : list value)
  : result bool :=
  if negb (py_eq url (VStr "unknown")) then
    if hashable url then Ok (existsb (py_eq url) existing_urls)
    else Raise TypeError
  else Ok false.

(** [set(existing_df['url_source'].tolist())]; cells of rows that lack
    the column are not-a-number values, equal to no URL, and are left
    out. *)
Fixpoint cells (df : list dict) (column : string) : list value :=
  match df with
  | [] => []
  | row :: df' =>
      match dict_get row column with
      | Some x => x :: cells df' column
      | None => cells df' column
      end
  end.

Definition has_column (df : list dict) (column : string) : bool :=
  existsb (fun row => has_key row column) df.

Definition url_set (df : list dict) : result (list value) :=
  if has_column df "url_source" then
    if forallb hashable (cells df "url_source")
    then Ok (cells df "url_source")
    else Raise TypeError
  else Raise (KeyError "url_source").

Definition is_empty {A} (l : list A) : bool :=
  match l with [] => true | _ => false end.

Definition create_extraction_prompt (E : env) (text_content : string)
  : string :=
  prompt_head E ++ text_content ++ prompt_tail E.

Definition log_prompt (prompt : string) (s : state) : state :=
  State (output_file s) (dictionary_file s) (stats_file s) (made_dirs s)
        (llm_log s ++ [prompt]) (clock s) (entries s).

(** [extract_info_with_llm]: every exception gives [None]. *)
Definition extract_info_with_llm (E : env) (prompt : string) : M value :=
  fun s =>
    (Ok (match chat_json E prompt with Ok v => v | Raise _ => VNone end),
     log_prompt prompt s).

Definition append_entry (entry : dict) : M unit :=
  fun s =>
    (Ok tt,
     State (output_file s) (dictionary_file s) (stats_file s) (made_dirs s)
           (llm_log s) (clock s) (entries s ++ [entry])).

Definition get_entries : M (list dict) := fun s => (Ok (entries s), s).

Definition str_truthy (o : option string) : bool :=
  match o with Some s => nonempty s | None => false end.

(** The body of the [try] block for one file. *)
Definition process_file (E : env) (output_path : string)
    (source_type : option string) (existing_urls : list value)
    (file_path : html_file) : M unit :=
  url <- lift (resolve_url (metadata E) (name file_path)) ;;
  known <- lift (url_known url existing_urls) ;;
  if known : bool then ret tt
  else
    text_content <- lift (parse_html E (path file_path)) ;;
    if negb (nonempty text_content)
       || (String.length (strip text_content) <? 100)%nat
    then ret tt
    else
      extracted_info <-
        extract_info_with_llm E (create_extraction_prompt E text_content) ;;
      if truthy extracted_info then
        info1 <- lift (py_setitem extracted_info "url_source" url) ;;
        info2 <- lift (match source_type with
                       | Some st =>
                           if nonempty st
                           then py_setitem info1 "data_source" (VStr st)
                           else Ok info1
                       | None => Ok info1
                       end) ;;
        info3 <- lift (py_setitem info2 "source_file"
                                  (VStr (path file_path))) ;;
        validated_entry <-
          lift (match info3 with
                | VDict d => validate_entry d
                | _ => Raise AttributeError
                end) ;;
        append_entry validated_entry ;;;
        df <- get_entries ;;
        save_data E df output_path "csv"
      else ret tt.

(** The [for] loop over the listing. *)
Fixpoint process_files (E : env) (output_path : string)
    (source_type : option string) (existing_urls : list value)
    (html_files : list html_file) : M unit :=
  match html_files with
  | [] => ret tt
  | file_path :: rest =>
      try_except
        (process_file E output_path source_type existing_urls file_path) ;;;
      process_files E output_path source_type existing_urls rest
  end.

(** [df[column] = x] on every row. *)
Definition set_column (df : list dict) (column : string) (x : value)
  : list dict :=
  map (fun row => dict_set row column x) df.

(** The loop that adds missing schema columns to a frame with rows: a
    scalar is broadcast, an empty list does not match the length of the
    index. *)
Fixpoint ensure_fields (fields : list (string * field_type)) (df : list dict)
  : result (list dict) :=
  match fields with
  | [] => Ok df
  | (field, ft) :: rest =>
      if negb (has_column df field) then
        match ft with
        | TStr => ensure_fields rest (set_column df field (VStr "unknown"))
        | TList => Raise (ValueError "Length of values")
        end
      else ensure_fields rest df
  end.

Definition write_stats (E : env) (st : stats) : M unit :=
  try_except (attempt E (set_stats st)).

Definition set_entries (l : list dict) : M unit :=
  fun s =>
    (Ok tt,
     State (output_file s) (dictionary_file s) (stats_file s) (made_dirs s)
           (llm_log s) (clock s) l).

Definition get_output : M file := fun s => (Ok (output_file s), s).

Definition process_directory (E : env) (output_path : string)
    (source_type : option string) : M (list dict) :=
  out <- get_output ;;
  let existing_df := load_existing_data E out in
  existing_urls <-
    lift (if negb (is_empty existing_df) then url_set existing_df
          else Ok []) ;;
  set_entries (if negb (is_empty existing_df) then existing_df else []) ;;;
  html_files <- lift (listing E) ;;
  process_files E output_path source_type existing_urls html_files ;;;
  entries <- get_entries ;;
  if is_empty entries then ret []
  else
    df <- lift (ensure_fields schema entries) ;;
    let df1 := set_column df "processed_date" (VStr (now E)) in
    let df2 := if str_truthy source_type
               then set_column df1 "data_source"
                      (VStr (match source_type with
                             | Some st => st | None => "" end))
               else df1 in
    (if (List.length html_files =? 0)%nat then raise ZeroDivisionError
     else ret tt) ;;;
    write_stats E
      (Stats (List.length html_files) (List.length entries) (now E)
             (match source_type with
              | Some st => if nonempty st then st else "unknown"
              | None => "unknown" end)) ;;;
    ret df2.

End Processor.
Import Processor.

(* ===================================================================== *)
(** ** Concrete runs used by the examples and counterexamples *)

Module Scenario.

(** A page text of 130 characters, above the threshold of 100. *)
Definition long_text : string :=
  String.concat "" (repeat "nature based " 10).

Definition meta_entry (file_name link : string) : value :=
  VDict [("filename", VStr file_name); ("link", VStr link)].

Definition reply (title : string) : value :=
  VDict [("title", VStr title); ("status", VStr "Completed")].

Definition file_a : html_file := HtmlFile "a.html" "pages/a.html".
Definition file_b : html_file := HtmlFile "b.html" "pages/b.html".
Definition file_c : html_file := HtmlFile "c.html" "pages/c.html".

Definition url_a : string := "https://example.org/a".
Definition url_b : string := "https://example.org/b".
Definition url_c : string := "https://example.org/c".

Definition text_of (p : string) : string := long_text ++ p.

Definition prompt_of (p : string) : string := "Extract: " ++ text_of p ++ " End.".

(** Three pages with three different URLs; the service fails on the
    second page; every write succeeds. *)
Definition three_files : env :=
  Env (fun rows => rows) "Extract: " " End."
      (Ok [file_a; file_b; file_c])
      (VDict [("successful_files",
               VList [meta_entry "a.html" url_a; meta_entry "b.html" url_b;
                      meta_entry "c.html" url_c])])
      (fun p => Ok (text_of p))
      (fun prompt => if String.eqb prompt (prompt_of "pages/b.html")
                     then Raise OSError else Ok (reply prompt))
      (fun _ => true)
      "2024-01-01 00:00:00".


(** One page, whose URL is [url_a]. *)
Definition one_file : env :=
  Env (fun rows => rows) "Extract: " " End."
      (Ok [file_a])
      (VDict [("successful_files", VList [meta_entry "a.html" url_a])])
      (fun p => Ok (text_of p))
      (fun prompt => Ok (reply prompt))
      (fun _ => true)
      "2024-01-01 00:00:00".

(** A directory without HTML files. *)
Definition no_files : env :=
  Env (fun rows => rows) "Extract: " " End."
      (Ok [])
      VNone
      (fun p => Ok (text_of p))
      (fun prompt => Ok (reply prompt))
      (fun _ => true)
      "2024-01-01 00:00:00".

(** A record as the validator produces it, with the given URL. *)
Definition record_with (url : string) : dict :=
  match validate_entry [("title", VStr "Old"); ("url_source", VStr url)] with
  | Ok d => d
  | Raise _ => []
  end.

Definition run (E : env) (source_type : option string) (f : file)
  : result (list dict) * state :=
  process_directory E "out/nbs.csv" source_type (initial f).

Definition rows_of (f : file) : list dict :=
  match f with CsvTable rows => rows | _ => [] end.

Definition column_of (rows : list dict) (column : string) : list (option value) :=
  map (fun row => dict_get row column) rows.

End Scenario.
Import Scenario.

(* ===================================================================== *)
(** ** What one file contributes to a run *)

Module Outcome.

(** The value of one validated field of an entry. *)
Definition validated_field (entry : dict) (field : string)
  : result (option value) :=
  rbind (validate_entry entry) (fun cleaned => Ok (dict_get cleaned field)).

(** The value the validator stores for a field of the schema. *)
Definition stored (field : string) (ft : field_type) (entry : dict)
    (x : value) : Prop :=
  match dict_get entry field with
  | None | Some VNone => x = default_of ft
  | Some v => clean_field field ft v = Ok x
  end.

(** Whether the three controlled fields of an entry are strings, [None]
    or absent. *)
Definition string_enums (entry : dict) : bool :=
  forallb (fun f => match dict_get entry f with
                    | None | Some VNone | Some (VStr _) => true
                    | _ => false
                    end)
          ["status"; "scale"; "environmental_context"].


(** Whether the validator's calls of [str] on a field return: none
    for a controlled field, one for each true item of a list, one for
    the value of any other field; [None] and an absent key are not
    converted. *)
Definition printable (field : string) (ft : field_type) (o : option value)
  : bool :=
  match o with
  | None | Some VNone => true
  | Some val =>
      if String.eqb field "status" then true
      else if String.eqb field "scale" then true
      else if String.eqb field "environmental_context" then true
      else match ft with
           | TList => items_ok val
           | TStr => str_ok val
           end
  end.

Definition printable_fields (entry : dict) : bool :=
  forallb (fun ff => printable (fst ff) (snd ff) (dict_get entry (fst ff)))
          schema.

(** The items of a list that are true values. *)
Definition truthy_items (val : value) : value :=
  match val with
  | VList items => VList (filter truthy items)
  | _ => val
  end.

(** A sentence: free of periods and already trimmed. *)
Definition sentence (s : string) : Prop :=
  has_char "."%char s = false /\ strip s = s.

(** A string that does not start with white space. *)
Definition starts_clean (s : string) : Prop :=
  match s with
  | EmptyString => True
  | String c _ => is_space c = false
  end.

(** The entry passed to the validator for a reply, a URL and a file. *)
Definition tagged_entry (source_type : option string) (url : value)
    (file_path : html_file) (extracted_info : value) : result dict :=
  rbind (py_setitem extracted_info "url_source" url) (fun info1 =>
  rbind (match source_type with
         | Some st =>
             if nonempty st then py_setitem info1 "data_source" (VStr st)
             else Ok info1
         | None => Ok info1
         end) (fun info2 =>
  rbind (py_setitem info2 "source_file" (VStr (path file_path))) (fun info3 =>
    match info3 with
    | VDict d => Ok d
    | _ => Raise AttributeError
    end))).

(** What processing a file amounts to: no call to the service, or a call
    with a prompt that yields a record or nothing. *)
Inductive outcome : Type :=
| NoCall
| Call (prompt : string) (record : option dict).

Definition too_short (text_content : string) : bool :=
  negb (nonempty text_content)
  || (String.length (strip text_content) <? 100)%nat.

Definition reply_of (E : env) (prompt : string) : value :=
  match chat_json E prompt with Ok v => v | Raise _ => VNone end.

Definition file_outcome (E : env) (source_type : option string)
    (existing_urls : list value) (file_path : html_file) : outcome :=
  match resolve_url (metadata E) (name file_path) with
  | Raise _ => NoCall
  | Ok url =>
      match url_known url existing_urls with
      | Raise _ | Ok true => NoCall
      | Ok false =>
          match parse_html E (path file_path) with
          | Raise _ => NoCall
          | Ok text_content =>
              if too_short text_content then NoCall
              else
                let prompt := create_extraction_prompt E text_content in
                if truthy (reply_of E prompt) then
                  Call prompt
                    (match rbind (tagged_entry source_type url file_path
                                               (reply_of E prompt))
                                 validate_entry with
                     | Ok r => Some r
                     | Raise _ => None
                     end)
                else Call prompt None
          end
      end
  end.

(** The state change of an outcome. *)
Definition apply_outcome (E : env) (output_path : string) (o : outcome)
    (s : state) : state :=
  match o with
  | NoCall => s
  | Call prompt None => log_prompt prompt s
  | Call prompt (Some r) =>
      snd (save_data E (entries (log_prompt prompt s) ++ [r]) output_path "csv"
             (snd (append_entry r (log_prompt prompt s))))
  end.

(** One turn of the loop as a state change. *)
Definition step (E : env) (output_path : string)
    (source_type : option string) (existing_urls : list value) (s : state)
    (f : html_file) : state :=
  apply_outcome E output_path (file_outcome E source_type existing_urls f) s.

(** The URLs a run de-duplicates against, from the loaded dataset. *)
Definition loaded_urls (existing_df : list dict) : result (list value) :=
  if negb (is_empty existing_df) then url_set existing_df else Ok [].

(** The state in which the loop of a run starts. *)
Definition loop_start (E : env) (s : state) : state :=
  snd (set_entries (load_existing_data E (output_file s)) s).

Definition record_of (o : outcome) : list dict :=
  match o with Call _ (Some r) => [r] | _ => [] end.

Definition prompts_of (o : outcome) : list string :=
  match o with Call prompt _ => [prompt] | NoCall => [] end.

(** The records a listing adds to the dataset, in order of arrival. *)
Definition new_records (E : env) (source_type : option string)
    (existing_urls : list value) (html_files : list html_file) : list dict :=
  flat_map (fun f => record_of (file_outcome E source_type existing_urls f))
           html_files.

Definition with_listing (E : env) (l : result (list html_file)) : env :=
  Env (read_back E) (prompt_head E) (prompt_tail E) l (metadata E)
      (parse_html E) (chat_json E) (io_ok E) (now E).


End Outcome.
Import Outcome.

(* ===================================================================== *)
(** ** Further notions used by the properties of the validator *)

Module ValidatorNotions.

(** What the validator sees of a field: [None] and an absent key are
    alike. *)
Definition seen_value (entry : dict) (field : string) : option value :=
  match dict_get entry field with
  | Some VNone => None
  | other => other
  end.

(** A list item as the validator leaves it: not empty, trimmed and in
    lower case. *)
Definition clean_text (s : string) : Prop :=
  s <> EmptyString /\ lower s = s /\ strip s = s.

End ValidatorNotions.
Import ValidatorNotions.

(* ===================================================================== *)
(** ** Further notions used by the properties of the processor *)

Module ProcessorNotions.

(** The file a successful [save_data] leaves at the output path. *)
Definition written (format : string) (df : list dict) : file :=
  if String.eqb format "csv" then CsvTable df
  else if String.eqb format "json" then JsonDoc df
  else Workbook df.

(** Two states with the same file system: the same three files, the
    same directories and the same number of writes attempted. *)
Definition same_disk (s t : state) : Prop :=
  output_file t = output_file s
  /\ dictionary_file t = dictionary_file s
  /\ stats_file t = stats_file s
  /\ made_dirs t = made_dirs s
  /\ clock t = clock s.

(** [entry.get('filename')] of a metadata entry. *)
Definition filename_of (entry : dict) : value :=
  match dict_get entry "filename" with Some x => x | None => VNone end.

(** [entry.get('link', 'unknown')] of a metadata entry. *)
Definition link_of (entry : dict) : value :=
  match dict_get entry "link" with Some x => x | None => VStr "unknown" end.

(** The [url_source] the validator stores for a resolved URL. *)
Definition stored_url (url : value) : string :=
  match url with VNone => "unknown" | _ => clean_string url end.

End ProcessorNotions.
Import ProcessorNotions.

(* ===================================================================== *)
(** ** The scrapers: downloading the pages and writing the metadata

    [html_extractor_oppla.py] and [unacity_scraper.py] produce what the
    processor consumes: a directory of HTML files and the document
    [download_metadata.json].  The two download loops are the same code
    up to how a page is fetched; the loop is modelled once, over the
    fetch of a project. *)

Module Download.

(** [c.isalnum()] for a code point below 256: digits, letters, the
    ordinal indicators, the superscript digits, the micro sign, the
    vulgar fractions, and the letters from 192 on other than the
    multiplication and division signs. *)
Definition is_alnum (c : ascii) : bool :=
  let n := nat_of_ascii c in
  (((48 <=? n) && (n <=? 57)) || ((65 <=? n) && (n <=? 90))
   || ((97 <=? n) && (n <=? 122)) || (n =? 170)
   || ((178 <=? n) && (n <=? 179)) || (n =? 181)
   || ((185 <=? n) && (n <=? 186)) || ((188 <=? n) && (n <=? 190))
   || ((192 <=? n) && (n <=? 214)) || ((216 <=? n) && (n <=? 246))
   || (248 <=? n))%nat.

(** [c.isalnum() or c in (' ', '-', '_')] *)
Definition safe_char (c : ascii) : bool :=
  is_alnum c || Ascii.eqb c " " || Ascii.eqb c "-" || Ascii.eqb c "_".

(** [''.join(c for c in s if p(c))] *)
Fixpoint keep_chars (p : ascii -> bool) (s : string) : string :=
  match s with
  | EmptyString => EmptyString
  | String c s' => if p c then String c (keep_chars p s') else keep_chars p s'
  end.

(** [s.replace(a, b)] for one-character strings. *)
Fixpoint replace_char (a b : ascii) (s : string) : string :=
  match s with
  | EmptyString => EmptyString
  | String c s' =>
      String (if Ascii.eqb c a then b else c) (replace_char a b s')
  end.

(** [s[:n]] *)
Fixpoint take (n : nat) (s : string) : string :=
  match n, s with
  | S n', String c s' => String c (take n' s')
  | _, _ => EmptyString
  end.

Definition safe_title (title : string) : string :=
  take 80 (replace_char " " "_" (rstrip (keep_chars safe_char title))).

Fixpoint zeros (n : nat) : string :=
  match n with
  | O => EmptyString
  | S n' => String "0" (zeros n')
  end.

(** [f'{n:03d}'] for a natural number: at least three digits. *)
Definition format_03d (n : nat) : string :=
  let digits := int_str (Z.of_nat n) in
  zeros (3 - String.length digits) ++ digits.

(** [f'{i+1:03d}_{safe_title}.html'] *)
Definition make_filename (i : nat) (title : string) : string :=
  format_03d (i + 1) ++ "_" ++ safe_title title ++ ".html".

Fixpoint ends_with (c : ascii) (s : string) : bool :=
  match s with
  | EmptyString => false
  | String d EmptyString => Ascii.eqb d c
  | String _ s' => ends_with c s'
  end.

(** [os.path.join(a, b)] *)
Definition path_join (a b : string) : string :=
  match b with
  | String "/" _ => b
  | _ =>
      if nonempty a
      then if ends_with "/" a then a ++ b else a ++ "/" ++ b
      else b
  end.

(** A project as the extraction stage produces it: a dictionary with
    the keys [title] and [link]. *)
Record project : Type := Project {
  title : string;
  link : string
}.

Definition success_entry (p : project) (filename filepath : string) : value :=
  VDict [("title", VStr (title p)); ("link", VStr (link p));
         ("filename", VStr filename); ("filepath", VStr filepath)].

Definition failure_entry (p : project) (error : string) : value :=
  VDict [("title", VStr (title p)); ("link", VStr (link p));
         ("error", VStr error)].

(** The two lists of a download and the files written in full. *)
Record downloads : Type := Downloads {
  successful_downloads : list value;
  failed_downloads : list value;
  written_files : list (string * string)
}.

(** What a download takes from outside, besides the fetch of a page:
    whether the output directory is there or can be made, whether the
    file at a path can be written, and [str(e)] of an exception. *)
Record files : Type := Files {
  dir_ok : bool;
  write_ok : string -> bool;
  str_exn : exn -> string
}.

Section Loop.

Variable F : files.

(** The page of a project: its text, or the error its entry records. *)
Variable page : project -> string + string.

Variable output_dir : string.

(** The body of the loop for the project at index [i]. *)
Definition download_one (i : nat) (p : project) (d : downloads) : downloads :=
  match page p with
  | inl text =>
      let filename := make_filename i (title p) in
      let filepath := path_join output_dir filename in
      if write_ok F filepath
      then Downloads
             (successful_downloads d ++ [success_entry p filename filepath])
             (failed_downloads d)
             (written_files d ++ [(filepath, text)])
      else Downloads
             (successful_downloads d)
             (failed_downloads d ++ [failure_entry p (str_exn F OSError)])
             (written_files d)
  | inr error =>
      Downloads (successful_downloads d)
                (failed_downloads d ++ [failure_entry p error])
                (written_files d)
  end.

(** [for i, project in enumerate(projects_data)], from index [i]. *)
Fixpoint download_from (i : nat) (projects : list project) (d : downloads)
  : downloads :=
  match projects with
  | [] => d
  | p :: rest => download_from (S i) rest (download_one i p d)
  end.

Definition download (projects : list project) : result downloads :=
  if dir_ok F then Ok (download_from 0 projects (Downloads [] [] []))
  else Raise OSError.

End Loop.

(** [json.dump] of the metadata, then the reference sheet when it has
    rows; the value returned is the metadata. *)
Definition write_documents (F : files) (output_dir : string)
    (metadata : value) (rows : nat) : result value :=
  if write_ok F (path_join output_dir "download_metadata.json") then
    if (rows =? 0)%nat then Ok metadata
    else if write_ok F (path_join output_dir "project_list.csv")
         then Ok metadata
         else Raise OSError
  else Raise OSError.

End Download.
Import Download.

Module Oppla.

(** The outside of the Oppla extractor: [requests.get] (status code and
    text, or the exception of the request), [re.findall] with the
    pattern of the case-study paths, [str.title] (whose results leave
    the code points below 256), and [time.strftime]. *)
Record web : Type := Web {
  request : string -> result (nat * string);
  find_paths : string -> list string;
  title_case : string -> string;
  download_date : string
}.

(** [s.replace('\\/', '/')]: every backslash followed by a slash gives
    a slash, from left to right. *)
Fixpoint unescape_slashes (s : string) : string :=
  match s with
  | EmptyString => EmptyString
  | String c s' =>
      match s' with
      | String "/" rest =>
          if Ascii.eqb c backslash then String "/" (unescape_slashes rest)
          else String c (unescape_slashes s')
      | _ => String c (unescape_slashes s')
      end
  end.

(** [clean_path.split('/')[-1].replace('-', ' ').replace('_', ' ')
    .title()] *)
Definition title_of_path (W : web) (clean_path : string) : string :=
  title_case W
    (replace_char "_" " "
       (replace_char "-" " " (last (split "/" clean_path) EmptyString))).

(** The loop over the matches, with its list [case_studies] and its set
    [seen_urls]. *)
Fixpoint collect_case_studies (W : web) (matches : list string)
    (case_studies : list project) (seen_urls : list string) : list project :=
  match matches with
  | [] => case_studies
  | url_path :: rest =>
      let clean_path := unescape_slashes url_path in
      let full_url := "https://oppla.eu" ++ clean_path in
      if negb (str_in full_url seen_urls)
         && is_substring "/case-study/" clean_path
      then collect_case_studies W rest
             (case_studies ++ [Project (title_of_path W clean_path) full_url])
             (full_url :: seen_urls)
      else collect_case_studies W rest case_studies seen_urls
  end.

Definition extract_case_studies_from_oppla (W : web) : result (list project) :=
  rbind (request W "https://oppla.eu/case-study-finder") (fun response =>
    if negb (fst response =? 200)%nat then Ok []
    else Ok (collect_case_studies W (find_paths W (snd response)) [] [])).

(** The page of a project: the text of a response with status 200. *)
Definition fetch (W : web) (F : files) (p : project) : string + string :=
  match request W (link p) with
  | Ok (status, text) =>
      if (status =? 200)%nat then inl text
      else inr ("HTTP " ++ int_str (Z.of_nat status))
  | Raise e => inr (str_exn F e)
  end.

Definition download_raw_html (W : web) (F : files)
    (projects_data : list project) (output_dir : string) : result downloads :=
  download F (fetch W F) output_dir projects_data.

Definition metadata_of (W : web) (successful failed : list value) : dict :=
  [("total_projects",
    VInt (Z.of_nat (List.length successful + List.length failed)));
   ("successful_downloads", VInt (Z.of_nat (List.length successful)));
   ("failed_downloads", VInt (Z.of_nat (List.length failed)));
   ("download_date", VStr (download_date W));
   ("source_url", VStr "https://oppla.eu/case-study-finder");
   ("successful_files", VList successful);
   ("failed_files", VList failed)].

Definition save_metadata (W : web) (F : files) (successful failed : list value)
    (output_dir : string) : result value :=
  write_documents F output_dir (VDict (metadata_of W successful failed))
    (List.length successful + List.length failed).

End Oppla.

Module Unacity.

(** The outside of the Una.City scraper: [_get_page_content] (the page
    source, [None], or an exception), the anchors [h3.a] of the rows of
    a listing page (text and [href]) as the HTML parser gives them,
    [time.strftime], and the flag [cloudflare_solved]. *)
Record site : Type := Site {
  get_page_content : string -> result (option string);
  row_anchors : string -> result (list (string * option string));
  download_date : string;
  cloudflare_solved : bool
}.

Definition base_url : string := "https://una.city".

Definition output_dir : string := "raw_html_data".



(** [base_url + href if href.startswith('/') else href]; [href] is
    [None] for an anchor without the attribute. *)
Definition full_link (href : option string) : result string :=
  match href with
  | None => Raise AttributeError
  | Some relative_link =>
      Ok (if String.prefix "/" relative_link
          then base_url ++ relative_link else relative_link)
  end.

Fixpoint projects_of_anchors (anchors : list (string * option string))
    (projects : list project) : result (list project) :=
  match anchors with
  | [] => Ok projects
  | (text, href) :: rest =>
      rbind (full_link href) (fun l =>
        projects_of_anchors rest (projects ++ [Project text l]))
  end.

(** [get_projects_on_page]: every exception gives the empty list. *)
Definition get_projects_on_page (S : site) (page_num : nat) : list project :=
  match
    rbind (get_page_content S
             (base_url ++ "?page=" ++ int_str (Z.of_nat page_num)))
      (fun html_content =>
         match html_content with
         | None => Ok []
         | Some html =>
             if negb (nonempty html) then Ok []
             else rbind (row_anchors S html) (fun anchors =>
                    projects_of_anchors anchors [])
         end)
  with
  | Ok projects => projects
  | Raise _ => []
  end.

(** The [while True] loop of [extract_all_projects], from a page, with
    a bound on the number of pages requested. *)
Fixpoint extract_all_projects (S : site) (fuel page : nat)
    (all_projects : list project) : option (list project) :=
  match fuel with
  | O => None
  | Datatypes.S fuel' =>
      match get_projects_on_page S page with
      | [] => Some all_projects
      | projects =>
          extract_all_projects S fuel' (page + 1) (all_projects ++ projects)
      end
  end.

(** The page of a project: a page source that is not empty. *)
Definition fetch (S : site) (F : files) (p : project) : string + string :=
  match get_page_content S (link p) with
  | Ok (Some html_content) =>
      if nonempty html_content then inl html_content
      else inr "Failed to retrieve content"
  | Ok None => inr "Failed to retrieve content"
  | Raise e => inr (str_exn F e)
  end.

Definition download_html_files (S : site) (F : files)
    (projects_data : list project) : result downloads :=
  download F (fetch S F) output_dir projects_data.

Definition metadata_of (S : site) (successful failed : list value) : dict :=
  [("total_projects",
    VInt (Z.of_nat (List.length successful + List.length failed)));
   ("successful_downloads", VInt (Z.of_nat (List.length successful)));
   ("failed_downloads", VInt (Z.of_nat (List.length failed)));
   ("download_date", VStr (download_date S));
   ("source_url", VStr "https://una.city");
   ("method_used", VStr "Undetected ChromeDriver");
   ("cloudflare_bypassed", VBool (cloudflare_solved S));
   ("successful_files", VList successful);
   ("failed_files", VList failed)].

Definition save_metadata (S : site) (F : files) (successful failed : list value)
    : result value :=
  write_documents F output_dir (VDict (metadata_of S successful failed))
    (List.length successful + List.length failed).

End Unacity.

(* ===================================================================== *)
(** ** Notions used by the properties of the scrapers *)

Module ScraperNotions.

(** [entry.get('filename')] of an entry of a list of downloads. *)
Definition entry_filename (entry : value) : value :=
  match entry with VDict d => filename_of d | _ => VNone end.

(** The number a string of decimal digits stands for. *)
Definition number_of (digits : string) : option Z :=
  option_map (fun d => Z.of_int (Decimal.Pos d))
             (NilEmpty.uint_of_string digits).

(** The characters of a file name made by a download. *)
Definition name_char (c : ascii) : bool :=
  is_alnum c || Ascii.eqb c "-" || Ascii.eqb c "_" || Ascii.eqb c ".".

Fixpoint all_chars (p : ascii -> bool) (s : string) : bool :=
  match s with
  | EmptyString => true
  | String c s' => p c && all_chars p s'
  end.

(** The first page without projects. *)
Definition first_empty_page (S : Unacity.site) (k : nat) : Prop :=
  Unacity.get_projects_on_page S k = []
  /\ forall j, j < k -> Unacity.get_projects_on_page S j <> [].

End ScraperNotions.
Import ScraperNotions.

(* ===================================================================== *)
(** ** Concrete downloads used by the examples *)

Module ScraperScenario.

(** A file system that does not fail. *)
Definition reliable : files := Files true (fun _ => true) (fun _ => "error").

(** The finder page lists three paths, one of them twice; the page of
    the second case study answers 404. *)
Definition oppla_web : Oppla.web :=
  Oppla.Web
    (fun url =>
       if String.eqb url "https://oppla.eu/case-study/river-park"
       then Ok (404, "")
       else Ok (200, "<html>" ++ url ++ "</html>"))
    (fun _ => [String backslash "/case-study" ++ String backslash "/urban-wetland";
               String backslash "/case-study" ++ String backslash "/river-park";
               String backslash "/case-study" ++ String backslash "/urban-wetland";
               String backslash "/about"])
    (fun s => s)
    "2025-08-18 10:00:00".

(** Two projects with the same title and a project whose page is not
    found. *)
Definition three_projects : list project :=
  [Project "Urban Wetland: Phase 1/2" "https://oppla.eu/case-study/a";
   Project "River Park" "https://oppla.eu/case-study/river-park";
   Project "Urban Wetland: Phase 1/2" "https://oppla.eu/case-study/c"].

Definition downloaded : downloads :=
  match Oppla.download_raw_html oppla_web reliable three_projects
          "raw_html_data" with
  | Ok d => d
  | Raise _ => Downloads [] [] []
  end.

(** A site with two pages of projects; the third page has an anchor
    without [href]; a fourth page would have projects again. *)
Definition una_site : Unacity.site :=
  Unacity.Site
    (fun url => Ok (Some url))
    (fun html =>
       if String.eqb html "https://una.city?page=0"
       then Ok [("Green Roof", Some "/nbs/green-roof");
                ("Rain Garden", Some "https://una.city/nbs/rain-garden")]
       else if String.eqb html "https://una.city?page=1"
       then Ok [("Urban Forest", Some "/nbs/urban-forest")]
       else if String.eqb html "https://una.city?page=2"
       then Ok [("Pocket Park", Some "/nbs/pocket-park");
                ("Broken", None)]
       else Ok [("Later", Some "/nbs/later")])
    "2025-08-18 10:00:00"
    true.

End ScraperScenario.
Import ScraperScenario.

(* ===================================================================== *)
(** ** The callers of the processor

    [main] of [nbs_pipeline.py] runs the processor over three
    directories and combines the two datasets;
    [process_first_200_unacity.py] copies up to 200 files into one
    directory and runs the processor over it. *)

Module Callers.

(** What changes from one directory to the next: its listing, its
    metadata document and the time of the run. *)
Record directory : Type := Directory {
  dir_listing : result (list html_file);
  dir_metadata : value;
  dir_now : string
}.

Definition in_directory (E : env) (d : directory) : env :=
  Env (read_back E) (prompt_head E) (prompt_tail E) (dir_listing d)
      (dir_metadata d) (parse_html E) (chat_json E) (io_ok E) (dir_now d).

(** The files [main] reads and writes: three datasets with their field
    dictionaries and the statistics of three directories; the prompts
    sent and the number of writes attempted. *)
Record disk : Type := Disk {
  oppla_data : file;
  oppla_dictionary : bool;
  unacity_data : file;
  unacity_dictionary : bool;
  combined_data : file;
  combined_dictionary : bool;
  oppla_stats : option stats;
  unacity_stats_1 : option stats;
  unacity_stats_2 : option stats;
  prompts : list string;
  writes : nat
}.

(** The state of a run over one dataset and one directory. *)
Definition run_state (data : file) (dictionary : bool) (st : option stats)
    (d : disk) : state :=
  State data dictionary st false (prompts d) (writes d) [].

Definition after_oppla (d : disk) (s : state) : disk :=
  Disk (output_file s) (dictionary_file s) (unacity_data d)
       (unacity_dictionary d) (combined_data d) (combined_dictionary d)
       (stats_file s) (unacity_stats_1 d) (unacity_stats_2 d)
       (llm_log s) (clock s).

Definition after_unacity_1 (d : disk) (s : state) : disk :=
  Disk (oppla_data d) (oppla_dictionary d) (output_file s)
       (dictionary_file s) (combined_data d) (combined_dictionary d)
       (oppla_stats d) (stats_file s) (unacity_stats_2 d)
       (llm_log s) (clock s).

Definition after_unacity_2 (d : disk) (s : state) : disk :=
  Disk (oppla_data d) (oppla_dictionary d) (output_file s)
       (dictionary_file s) (combined_data d) (combined_dictionary d)
       (oppla_stats d) (unacity_stats_1 d) (stats_file s)
       (llm_log s) (clock s).

Definition after_combined (d : disk) (s : state) : disk :=
  Disk (oppla_data d) (oppla_dictionary d) (unacity_data d)
       (unacity_dictionary d) (output_file s) (dictionary_file s)
       (oppla_stats d) (unacity_stats_1 d) (unacity_stats_2 d)
       (llm_log s) (clock s).

Definition missing_key : exn :=
  ValueError "Please set the OPENAI_API_KEY environment variable".

(** [main] of [nbs_pipeline.py]; [pd.concat] of two frames is the rows
    of the first followed by the rows of the second. *)
Definition main (api_key : option string) (E : env)
    (oppla_dir unacity_dir_1 unacity_dir_2 : directory) (d : disk)
  : result unit * disk :=
  if negb (str_truthy api_key) then (Raise missing_key, d)
  else
    let run1 :=
      process_directory (in_directory E oppla_dir) "oppla_nbs_data.csv"
        (Some "oppla")
        (run_state (oppla_data d) (oppla_dictionary d) (oppla_stats d) d) in
    let d1 := after_oppla d (snd run1) in
    match fst run1 with
    | Raise e => (Raise e, d1)
    | Ok _ =>
        let run2 :=
          process_directory (in_directory E unacity_dir_1)
            "unacity_nbs_data.csv" (Some "unacity")
            (run_state (unacity_data d1) (unacity_dictionary d1)
                       (unacity_stats_1 d1) d1) in
        let d2 := after_unacity_1 d1 (snd run2) in
        match fst run2 with
        | Raise e => (Raise e, d2)
        | Ok _ =>
            let run3 :=
              process_directory (in_directory E unacity_dir_2)
                "unacity_nbs_data.csv" (Some "unacity")
                (run_state (unacity_data d2) (unacity_dictionary d2)
                           (unacity_stats_2 d2) d2) in
            let d3 := after_unacity_2 d2 (snd run3) in
            match fst run3 with
            | Raise e => (Raise e, d3)
            | Ok _ =>
                let oppla_df := load_existing_data E (oppla_data d3) in
                let unacity_df := load_existing_data E (unacity_data d3) in
                if negb (is_empty oppla_df) || negb (is_empty unacity_df)
                then
                  let all_data := (oppla_df ++ unacity_df)%list in
                  let saved :=
                    save_data E all_data "combined_nbs_data.csv" "csv"
                      (run_state (combined_data d3) (combined_dictionary d3)
                                 None d3) in
                  (fst saved, after_combined d3 (snd saved))
                else (Ok tt, d3)
            end
        end
    end.

End Callers.

Module First200.

(** [sorted(paths)]: strings in the order of their code points. *)
Fixpoint insert_sorted (x : string) (l : list string) : list string :=
  match l with
  | [] => [x]
  | y :: l' => if String.leb x y then x :: l else y :: insert_sorted x l'
  end.

Definition py_sorted (l : list string) : list string :=
  fold_right insert_sorted [] l.

(** [os.path.basename] *)
Definition basename (file_path : string) : string :=
  last (split "/" file_path) EmptyString.

(** [(files_1 + files_2)[:200]] of the two sorted listings. *)
Definition first_200_files (glob_1 glob_2 : list string) : list string :=
  firstn 200 (py_sorted glob_1 ++ py_sorted glob_2).

(** The files of the directory [Unacity/first_200_files]: names with
    their contents. *)
Definition folder : Type := list (string * string).

Fixpoint folder_get (d : folder) (file_name : string) : option string :=
  match d with
  | [] => None
  | (n, content) :: d' =>
      if String.eqb n file_name then Some content else folder_get d' file_name
  end.

Fixpoint folder_remove (d : folder) (file_name : string) : folder :=
  match d with
  | [] => []
  | (n, content) :: d' =>
      if String.eqb n file_name then folder_remove d' file_name
      else (n, content) :: folder_remove d' file_name
  end.

(** The outside of the copying: whether the directory can be made,
    whether a file can be removed, and the content [shutil.copy2] copies
    from a path, or its exception. *)
Record copier : Type := Copier {
  makedirs_ok : bool;
  remove_ok : string -> bool;
  read_source : string -> result string
}.

(** The loop that copies the files. *)
Fixpoint copy_files (C : copier) (paths : list string) (target : folder)
  : result unit * folder :=
  match paths with
  | [] => (Ok tt, target)
  | file_path :: rest =>
      let file_name := basename file_path in
      let target_path := path_join "Unacity/first_200_files" file_name in
      match
        (match folder_get target file_name with
         | Some _ =>
             if remove_ok C target_path
             then Ok (folder_remove target file_name)
             else Raise OSError
         | None => Ok target
         end)
      with
      | Raise e => (Raise e, target)
      | Ok target1 =>
          match read_source C file_path with
          | Raise e => (Raise e, target1)
          | Ok content =>
              copy_files C rest (target1 ++ [(file_name, content)])%list
          end
      end
  end.

(** [main] of [process_first_200_unacity.py]; [E_of] gives the
    environment of the run over the directory for the files it holds. *)
Definition main (api_key : option string) (C : copier)
    (glob_1 glob_2 : list string) (E_of : folder -> env) (target : folder)
    (s : state) : result unit * folder * state :=
  if negb (str_truthy api_key) then (Raise Callers.missing_key, target, s)
  else if negb (makedirs_ok C) then (Raise OSError, target, s)
  else
    let copied := copy_files C (first_200_files glob_1 glob_2) target in
    match fst copied with
    | Raise e => (Raise e, snd copied, s)
    | Ok _ =>
        let run :=
          process_directory (E_of (snd copied))
            "unacity_first_200_nbs_data.csv" (Some "unacity") s in
        (rbind (fst run) (fun _ => Ok tt), snd copied, snd run)
    end.

End First200.

(* ===================================================================== *)
(** ** Notions used by the properties of the callers *)

Module CallerNotions.

(** The last of the paths with a given base name. *)
Fixpoint last_named (paths : list string) (file_name : string)
  : option string :=
  match paths with
  | [] => None
  | file_path :: rest =>
      match last_named rest file_name with
      | Some q => Some q
      | None =>
          if String.eqb (First200.basename file_path) file_name then Some file_path
          else None
      end
  end.

(** The content copied from a path when the copy succeeds. *)
Definition content_of (C : First200.copier) (file_path : string)
  : option string :=
  match First200.read_source C file_path with
  | Ok content => Some content
  | Raise _ => None
  end.

End CallerNotions.
Import CallerNotions.

(* ===================================================================== *)
(** ** Concrete runs of the callers used by the examples *)

Module CallerScenario.

Definition empty_disk : Callers.disk :=
  Callers.Disk Absent false Absent false Absent false None None None [] 0.

(** The three directories hold the same page under the same metadata:
    the second Una.City run finds its URL in the dataset of the first. *)
Definition oppla_dir : Callers.directory :=
  Callers.Directory (Ok [file_a]) (metadata one_file) "2024-01-01 00:00:00".

Definition unacity_dir_1 : Callers.directory :=
  Callers.Directory (Ok [file_a]) (metadata one_file) "2024-01-02 00:00:00".

Definition unacity_dir_2 : Callers.directory :=
  Callers.Directory (Ok [file_a]) (metadata one_file) "2024-01-03 00:00:00".

Definition main_run : result unit * Callers.disk :=
  Callers.main (Some "sk-test") one_file oppla_dir unacity_dir_1 unacity_dir_2
               empty_disk.

(** Copies that do not fail; the content of a file is its path. *)
Definition copies : First200.copier :=
  First200.Copier true (fun _ => true) (fun p => Ok p).

Definition glob_1 : list string :=
  ["Unacity/raw_html_data_1/002_b.html"; "Unacity/raw_html_data_1/001_a.html"].

Definition glob_2 : list string :=
  ["Unacity/raw_html_data_2/001_a.html"].

Definition old_folder : First200.folder :=
  [("001_a.html", "old"); ("900_z.html", "stale")].

End CallerScenario.
Import CallerScenario.

(* ===================================================================== *)
(** * Properties *)


Example strip_flooding : strip " flooding " = "flooding".
Proof. reflexivity. Qed.

Example repr_nested :
  py_str (VList [VStr "a'b"; VInt (-12); VNone; VDict [("k", VBool true)]])
  = String "[" (String dquote "a'b") ++ String dquote ", -12, None, {'k': True}]".
Proof. reflexivity. Qed.

Example validate_empty :
  validate_entry [] =
  Ok [ ("title", VStr "unknown"); ("summary", VStr "unknown");
       ("status", VStr "unknown"); ("location_name", VStr "unknown");
       ("country", VStr "unknown"); ("scale", VStr "unknown");
       ("solution_types", VList []); ("challenges_addressed", VList []);
       ("health_linkages_primary", VList []); ("impacts", VList []);
       ("governance", VStr "unknown"); ("url_source", VStr "unknown");
       ("environmental_context", VStr "unknown") ].
Proof. reflexivity. Qed.

Example validate_flooding :
  rbind (validate_entry
           [("impacts", VList [VStr "Flooding"; VStr "flooding";
                               VStr " flooding "; VStr ""])])
        (fun c => Ok (dict_get c "impacts"))
  = Ok (Some (VList [VStr "flooding"])).
Proof. reflexivity. Qed.

Example validate_summary6 :
  rbind (validate_entry [("summary", VStr " A b. C. D. E. F. G. ")])
        (fun c => Ok (dict_get c "summary"))
  = Ok (Some (VStr "A b. C. D. E.")).
Proof. reflexivity. Qed.

Example validate_status_int :
  validate_entry [("status", VInt 5)] = Raise AttributeError.
Proof. reflexivity. Qed.

(* ===================================================================== *)
(** ** Facts about the string primitives *)

Section StringFacts.

Lemma lower_char_idem (c : ascii) : lower_char (lower_char c) = lower_char c.
Proof. destruct c as [[] [] [] [] [] [] [] []]; reflexivity. Qed.

Lemma is_space_lower_char (c : ascii) : is_space (lower_char c) = is_space c.
Proof. destruct c as [[] [] [] [] [] [] [] []]; reflexivity. Qed.

Lemma lower_idem (s : string) : lower (lower s) = lower s.
Proof.
  induction s as [|c s IH]; simpl; [reflexivity|].
  now rewrite lower_char_idem, IH.
Qed.

Lemma nonempty_lower (s : string) : nonempty (lower s) = nonempty s.
Proof. destruct s; reflexivity. Qed.

Lemma lstrip_lower (s : string) : lstrip (lower s) = lower (lstrip s).
Proof.
  induction s as [|c s IH]; simpl; [reflexivity|].
  rewrite is_space_lower_char. destruct (is_space c); [exact IH|reflexivity].
Qed.

Lemma rstrip_lower (s : string) : rstrip (lower s) = lower (rstrip s).
Proof.
  induction s as [|c s IH]; simpl; [reflexivity|].
  rewrite IH, is_space_lower_char.
  destruct (rstrip s); simpl; [destruct (is_space c)|]; reflexivity.
Qed.

Lemma strip_lower (s : string) : strip (lower s) = lower (strip s).
Proof. unfold strip. now rewrite lstrip_lower, rstrip_lower. Qed.

Lemma lstrip_starts_clean (s : string) : starts_clean (lstrip s).
Proof.
  induction s as [|c s IH]; simpl; [exact I|].
  destruct (is_space c) eqn:Hc; [exact IH|exact Hc].
Qed.

Lemma lstrip_fixed (s : string) : starts_clean s -> lstrip s = s.
Proof. destruct s as [|c s]; simpl; [reflexivity|]. now intros ->. Qed.

Lemma rstrip_starts_clean (s : string) :
  starts_clean s -> starts_clean (rstrip s).
Proof.
  destruct s as [|c s]; simpl; [exact (fun H => H)|].
  intros Hc. destruct (rstrip s); simpl; [rewrite Hc|]; exact Hc.
Qed.

Lemma rstrip_idem (s : string) : rstrip (rstrip s) = rstrip s.
Proof.
  induction s as [|c s IH]; simpl; [reflexivity|].
  destruct (rstrip s) as [|d r] eqn:Hr.
  - destruct (is_space c) eqn:Hc; simpl; [reflexivity|now rewrite Hc].
  - change (rstrip (String c (String d r))) with
      (match rstrip (String d r) with
       | EmptyString =>
           if is_space c then EmptyString else String c EmptyString
       | r' => String c r'
       end).
    now rewrite IH.
Qed.

Lemma strip_idem (s : string) : strip (strip s) = strip s.
Proof.
  unfold strip.
  rewrite (lstrip_fixed (rstrip (lstrip s))).
  - apply rstrip_idem.
  - apply rstrip_starts_clean, lstrip_starts_clean.
Qed.

Lemma length_lstrip (s : string) : String.length (lstrip s) <= String.length s.
Proof.
  induction s as [|c s IH]; simpl; [lia|].
  destruct (is_space c); simpl; lia.
Qed.

Lemma length_rstrip (s : string) : String.length (rstrip s) <= String.length s.
Proof.
  induction s as [|c s IH]; simpl; [lia|].
  destruct (rstrip s); simpl in *; [destruct (is_space c); simpl|]; lia.
Qed.

(** A trimmed string does not start with white space. *)
Lemma strip_fixed_starts_clean (s : string) : strip s = s -> starts_clean s.
Proof.
  destruct s as [|c s]; simpl; [exact (fun _ => I)|].
  unfold strip; simpl. destruct (is_space c) eqn:Hc; [|reflexivity].
  intros H. apply (f_equal String.length) in H. simpl in H.
  pose proof (length_rstrip (lstrip s)). pose proof (length_lstrip s). lia.
Qed.

Lemma strip_fixed_rstrip (s : string) : strip s = s -> rstrip s = s.
Proof.
  intros H. pose proof (strip_fixed_starts_clean s H) as Hs.
  unfold strip in H. now rewrite (lstrip_fixed s Hs) in H.
Qed.

Lemma rstrip_app (a b : string) :
  rstrip b <> EmptyString -> rstrip (a ++ b) = a ++ rstrip b.
Proof.
  intros Hb. induction a as [|c a IH]; simpl; [reflexivity|].
  rewrite IH. destruct (a ++ rstrip b) eqn:Hab; [|reflexivity].
  destruct a; simpl in Hab; [contradiction|discriminate].
Qed.

Lemma starts_clean_app (a b : string) :
  starts_clean a -> starts_clean b -> starts_clean (a ++ b).
Proof. destruct a; simpl; auto. Qed.

Lemma strip_space_cons (s : string) : strip (String " " s) = strip s.
Proof. reflexivity. Qed.

Lemma split_no_sep (sep : ascii) (a : string) :
  has_char sep a = false -> split sep a = [a].
Proof.
  induction a as [|c a IH]; simpl; [reflexivity|].
  rewrite Ascii.eqb_sym. destruct (Ascii.eqb c sep); simpl; [discriminate|].
  intros H. now rewrite (IH H).
Qed.

Lemma split_app_sep (sep : ascii) (a b : string) :
  has_char sep a = false ->
  split sep (a ++ String sep b) = a :: split sep b.
Proof.
  induction a as [|c a IH]; simpl.
  - now rewrite Ascii.eqb_refl.
  - rewrite Ascii.eqb_sym. destruct (Ascii.eqb c sep); simpl; [discriminate|].
    intros H. now rewrite (IH H).
Qed.

Lemma str_in_In (x : string) (l : list string) :
  str_in x l = true <-> In x l.
Proof.
  unfold str_in. rewrite existsb_exists. split.
  - intros [y [Hy Hxy]]. apply String.eqb_eq in Hxy. now subst.
  - intros H. exists x. split; [exact H|apply String.eqb_refl].
Qed.

Lemma string_app_assoc (a b c : string) : ((a ++ b) ++ c = a ++ (b ++ c))%string.
Proof. induction a as [|x a IH]; simpl; [reflexivity|now rewrite IH]. Qed.

End StringFacts.

(* ===================================================================== *)
(** ** Facts about dictionaries and the validator *)

Section ValidatorFacts.

Local Open Scope list_scope.

Lemma dict_get_set (d : dict) (k f : string) (x : value) :
  dict_get (dict_set d k x) f =
  if String.eqb k f then Some x else dict_get d f.
Proof.
  induction d as [|[k' y] d IH]; simpl.
  - reflexivity.
  - destruct (String.eqb_spec k' k) as [->|Hk]; simpl.
    + destruct (String.eqb k f); reflexivity.
    + rewrite IH. destruct (String.eqb_spec k' f) as [->|Hf].
      * destruct (String.eqb_spec k f) as [->|_]; [contradiction|reflexivity].
      * reflexivity.
Qed.

Lemma keys_set_new (d : dict) (k : string) (x : value) :
  ~ In k (keys d) -> keys (dict_set d k x) = keys d ++ [k].
Proof.
  induction d as [|[k' y] d IH]; simpl; [reflexivity|].
  intros H. destruct (String.eqb_spec k' k) as [->|Hk].
  - exfalso. apply H. now left.
  - simpl. f_equal. apply IH. intros Hin. apply H. now right.
Qed.

Lemma validate_fields_keys fields : forall entry acc cleaned,
  NoDup (map fst fields) ->
  (forall k, In k (map fst fields) -> ~ In k (keys acc)) ->
  validate_fields fields entry acc = Ok cleaned ->
  keys cleaned = keys acc ++ map fst fields.
Proof.
  induction fields as [|[field ft] rest IH]; simpl; intros entry acc cleaned Hnd Hdis H.
  - injection H as <-. now rewrite app_nil_r.
  - inversion Hnd as [|? ? Hnotin Hnd']; subst.
    assert (Hstep : forall x,
      validate_fields rest entry (dict_set acc field x) = Ok cleaned ->
      keys cleaned = keys acc ++ field :: map fst rest).
    { intros x Hx. apply IH in Hx; [|exact Hnd'|].
      - rewrite Hx, keys_set_new by (apply Hdis; now left).
        now rewrite <- app_assoc.
      - intros k Hk. rewrite keys_set_new by (apply Hdis; now left).
        intros Hin. apply in_app_or in Hin. destruct Hin as [Hin|[<-|[]]].
        + revert Hin. apply Hdis. now right.
        + contradiction. }
    destruct (dict_get entry field) as [v|]; [|now apply Hstep in H].
    destruct (clean_field field ft v) as [c|e] eqn:Hc.
    + destruct v; simpl in H; try (now apply Hstep in H).
    + destruct v; simpl in H; try discriminate. now apply Hstep in H.
Qed.

Lemma validate_fields_other fields : forall entry acc cleaned f,
  ~ In f (map fst fields) ->
  validate_fields fields entry acc = Ok cleaned ->
  dict_get cleaned f = dict_get acc f.
Proof.
  induction fields as [|[field ft] rest IH]; simpl; intros entry acc cleaned f Hnot H.
  - now injection H as <-.
  - assert (Hstep : forall x,
      validate_fields rest entry (dict_set acc field x) = Ok cleaned ->
      dict_get cleaned f = dict_get acc f).
    { intros x Hx. apply IH with (f := f) in Hx; [|tauto].
      rewrite Hx, dict_get_set.
      destruct (String.eqb_spec field f) as [->|_]; [tauto|reflexivity]. }
    destruct (dict_get entry field) as [v|]; [|now apply Hstep in H].
    destruct (clean_field field ft v) as [c|e] eqn:Hc.
    + destruct v; simpl in H; try (now apply Hstep in H).
    + destruct v; simpl in H; try discriminate. now apply Hstep in H.
Qed.

Lemma validate_fields_get fields : forall entry acc cleaned f ft,
  NoDup (map fst fields) ->
  In (f, ft) fields ->
  validate_fields fields entry acc = Ok cleaned ->
  exists x, dict_get cleaned f = Some x /\ stored f ft entry x.
Proof.
  induction fields as [|[field ft'] rest IH]; simpl;
    intros entry acc cleaned f ft Hnd Hin H; [contradiction|].
  inversion Hnd as [|? ? Hnotin Hnd']; subst.
  destruct Hin as [Heq|Hin].
  - injection Heq as -> ->.
    assert (Hstep : forall x,
      validate_fields rest entry (dict_set acc f x) = Ok cleaned ->
      dict_get cleaned f = Some x).
    { intros x Hx. apply validate_fields_other with (f := f) in Hx; [|exact Hnotin].
      now rewrite Hx, dict_get_set, String.eqb_refl. }
    unfold stored. destruct (dict_get entry f) as [v|].
    + destruct (clean_field f ft v) as [c|e] eqn:Hc.
      * destruct v; simpl in H;
          try (exists c; split; [apply Hstep; exact H|reflexivity]).
        exists (default_of ft); split; [apply Hstep; exact H|reflexivity].
      * destruct v; simpl in H; try discriminate.
        exists (default_of ft); split; [apply Hstep; exact H|reflexivity].
    + exists (default_of ft); split; [apply Hstep; exact H|reflexivity].
  - assert (Hstep : forall x,
      validate_fields rest entry (dict_set acc field x) = Ok cleaned ->
      exists x, dict_get cleaned f = Some x /\ stored f ft entry x).
    { intros x Hx. now apply IH with (acc := dict_set acc field x). }
    destruct (dict_get entry field) as [v|]; [|now apply Hstep in H].
    destruct (clean_field field ft' v) as [c|e] eqn:Hc.
    + destruct v; simpl in H; try (now apply Hstep in H).
    + destruct v; simpl in H; try discriminate. now apply Hstep in H.
Qed.

Lemma no_dup_str_NoDup (l : list string) : no_dup_str l = true -> NoDup l.
Proof.
  induction l as [|x l IH]; simpl; intros H; constructor.
  - apply andb_prop in H. destruct H as [H _].
    intros Hin. apply str_in_In in Hin. rewrite Hin in H. discriminate.
  - apply IH. apply andb_prop in H. tauto.
Qed.

Lemma schema_nodup : NoDup (map fst schema).
Proof. apply no_dup_str_NoDup. reflexivity. Qed.

Lemma validate_entry_keys entry cleaned :
  validate_entry entry = Ok cleaned -> keys cleaned = schema_fields.
Proof.
  unfold validate_entry, schema_fields. intros H.
  apply validate_fields_keys in H.
  - exact H.
  - exact schema_nodup.
  - intros k _ [].
Qed.

Lemma validate_entry_get entry cleaned f ft :
  In (f, ft) schema -> validate_entry entry = Ok cleaned ->
  exists x, dict_get cleaned f = Some x /\ stored f ft entry x.
Proof.
  unfold validate_entry. intros Hin H.
  exact (validate_fields_get _ _ _ _ _ _ schema_nodup Hin H).
Qed.

End ValidatorFacts.

(* ===================================================================== *)
(** ** The validator: list fields, well-formed output *)

(** The branch of [clean_field] taken for a field of the schema, and, in
    the branches that call [str], whether the call returns. *)
Ltac clean_field_case H :=
  unfold clean_field in H; cbn [String.eqb Ascii.eqb Bool.eqb] in H;
  try match type of H with
      | context [if items_ok ?v then _ else _] =>
          destruct (items_ok v) eqn:?; [|discriminate H]
      | context [if str_ok ?v then _ else _] =>
          destruct (str_ok v) eqn:?; [|discriminate H]
      end.

Section ValidatorOutput.

Local Open Scope list_scope.

(** The loop of the source computes the rule of the specification on the
    items that are true values. *)
Lemma clean_items_spec items : forall cleaned_list seen,
  clean_items items cleaned_list seen =
  cleaned_list ++ spec_items (filter truthy items) seen.
Proof.
  induction items as [|item rest IH]; simpl; intros acc seen.
  - now rewrite app_nil_r.
  - destruct (truthy item); simpl; [|apply IH].
    rewrite nonempty_lower.
    destruct (nonempty (strip (py_str item))); simpl; [|apply IH].
    destruct (str_in (lower (strip (py_str item))) seen); simpl; [apply IH|].
    rewrite IH, <- app_assoc. reflexivity.
Qed.

Lemma spec_items_fresh items : forall seen x,
  In x (spec_items items seen) -> str_in x seen = false.
Proof.
  induction items as [|item rest IH]; simpl; intros seen x Hin; [contradiction|].
  destruct (nonempty (lower (strip (py_str item)))); simpl in Hin.
  - destruct (str_in (lower (strip (py_str item))) seen) eqn:Hs; simpl in Hin.
    + now apply IH.
    + destruct Hin as [<-|Hin]; [exact Hs|].
      apply IH in Hin. simpl in Hin. apply orb_false_elim in Hin. tauto.
  - now apply IH.
Qed.

Lemma spec_items_no_dup items : forall seen,
  no_dup_str (spec_items items seen) = true.
Proof.
  induction items as [|item rest IH]; simpl; intros seen; [reflexivity|].
  destruct (nonempty (lower (strip (py_str item)))); simpl; [|apply IH].
  destruct (str_in (lower (strip (py_str item))) seen); simpl; [apply IH|].
  rewrite IH, andb_true_r.
  destruct (str_in (lower (strip (py_str item)))
              (spec_items rest (lower (strip (py_str item)) :: seen))) eqn:Hin;
    [|reflexivity].
  apply str_in_In, spec_items_fresh in Hin. simpl in Hin.
  now rewrite String.eqb_refl in Hin.
Qed.

Lemma spec_items_clean items : forall seen,
  forallb is_clean_item (map VStr (spec_items items seen)) = true.
Proof.
  induction items as [|item rest IH]; simpl; intros seen; [reflexivity|].
  destruct (nonempty (lower (strip (py_str item)))) eqn:Hne; simpl; [|apply IH].
  destruct (str_in (lower (strip (py_str item))) seen); simpl; [apply IH|].
  rewrite IH, andb_true_r, Hne, lower_idem, strip_lower, strip_idem.
  now rewrite !String.eqb_refl.
Qed.

Lemma map_str_of_VStr (l : list string) : map str_of (map VStr l) = l.
Proof. induction l as [|x l IH]; simpl; [reflexivity|now rewrite IH]. Qed.

Lemma clean_list_ok (val : value) (f : string) :
  field_ok f TList (clean_list val) = true.
Proof.
  destruct val; try reflexivity. simpl.
  rewrite clean_items_spec. simpl.
  now rewrite spec_items_clean, map_str_of_VStr, spec_items_no_dup.
Qed.

Lemma clean_enum_ok valid val x :
  clean_enum valid val = Ok x ->
  exists s, x = VStr s /\ (str_in s valid = true \/ s = "unknown"%string).
Proof.
  destruct val; try discriminate. unfold clean_enum, lower_method, rbind.
  destruct (str_in (lower s) valid) eqn:Hin; intros H; injection H as <-; eauto.
Qed.

Lemma stored_ok f ft entry x :
  In (f, ft) schema -> stored f ft entry x -> field_ok f ft x = true.
Proof.
  unfold stored. intros Hin Hst.
  assert (Hdef : field_ok f ft (default_of ft) = true).
  { simpl in Hin.
    repeat (destruct Hin as [Hin|Hin]; [injection Hin as <- <-; reflexivity|]).
    contradiction. }
  destruct (dict_get entry f) as [v|]; [|now subst].
  assert (Hv : clean_field f ft v = Ok x -> field_ok f ft x = true).
  { clear Hst Hdef. simpl in Hin.
    repeat (destruct Hin as [Hin|Hin];
            [injection Hin as <- <-; intros H; clean_field_case H;
             first [ injection H as <-;
                     first [reflexivity|apply clean_list_ok]
                   | apply clean_enum_ok in H;
                     destruct H as [s [-> [H| ->]]];
                     [exact H|reflexivity] ]|]).
    contradiction. }
  destruct v; try (now apply Hv). now subst.
Qed.

(** Every record the validator returns has the 13 schema keys, in schema
    order, and each value meets the constraint of its field. *)
Lemma validate_entry_record_ok entry cleaned :
  validate_entry entry = Ok cleaned ->
  keys cleaned = schema_fields /\ record_ok cleaned = true.
Proof.
  intros H. split; [now apply validate_entry_keys in H|].
  unfold record_ok. apply forallb_forall. intros [f ft] Hin. simpl.
  destruct (validate_entry_get _ _ _ _ Hin H) as [x [-> Hst]].
  exact (stored_ok _ _ _ _ Hin Hst).
Qed.

Lemma validate_fields_returns fields : forall entry acc,
  (forall f ft v, In (f, ft) fields -> dict_get entry f = Some v ->
                  v <> VNone -> is_ok (clean_field f ft v) = true) ->
  exists cleaned, validate_fields fields entry acc = Ok cleaned.
Proof.
  induction fields as [|[field ft] rest IH]; simpl; intros entry acc Hok; [eauto|].
  assert (Hrest : forall acc', exists cleaned,
            validate_fields rest entry acc' = Ok cleaned).
  { intros acc'. apply IH. intros f ft' v Hin. apply Hok. now right. }
  destruct (dict_get entry field) as [v|] eqn:Hget; [|apply Hrest].
  specialize (Hok field ft v (or_introl eq_refl) Hget).
  destruct v; try apply Hrest;
    (destruct (clean_field field ft _) as [c|e];
     [apply Hrest|discriminate Hok; discriminate]).
Qed.

Lemma clean_enum_returns valid s : is_ok (clean_enum valid (VStr s)) = true.
Proof.
  unfold clean_enum, lower_method, rbind. now destruct (str_in (lower s) valid).
Qed.

(** The validator returns whenever the three controlled fields hold
    strings (or nothing) and [str] returns on the values it is called
    on. *)
Lemma validate_entry_returns entry :
  string_enums entry = true ->
  printable_fields entry = true ->
  exists cleaned, validate_entry entry = Ok cleaned
                  /\ keys cleaned = schema_fields
                  /\ record_ok cleaned = true.
Proof.
  intros Hen Hpr.
  destruct (validate_fields_returns schema entry []) as [cleaned Hc].
  - intros f ft v Hin Hget Hv. unfold string_enums in Hen. simpl in Hen.
    unfold printable_fields in Hpr.
    pose proof (proj1 (forallb_forall _ _) Hpr (f, ft) Hin) as Hf.
    unfold printable in Hf. cbn [fst snd] in Hf. rewrite Hget in Hf.
    assert (Hf' : (if String.eqb f "status" then true
                   else if String.eqb f "scale" then true
                   else if String.eqb f "environmental_context" then true
                   else match ft with
                        | TList => items_ok v
                        | TStr => str_ok v
                        end) = true).
    { clear - Hf Hv. destruct v; try (now elim Hv); exact Hf. }
    clear Hf. simpl in Hin.
    repeat (destruct Hin as [Hin|Hin];
            [injection Hin as <- <-; unfold clean_field;
             cbn [String.eqb Ascii.eqb Bool.eqb];
             cbn [String.eqb Ascii.eqb Bool.eqb] in Hf';
             first [ rewrite Hf'; reflexivity
                   | rewrite Hget in Hen; destruct v;
                     first [ apply clean_enum_returns
                           | contradiction
                           | rewrite ?andb_false_r in Hen; discriminate ] ]|]).
    contradiction.
  - exists cleaned. split; [exact Hc|].
    exact (validate_entry_record_ok entry cleaned Hc).
Qed.

End ValidatorOutput.

(* ===================================================================== *)
(** ** The claims about the validator *)

Section ValidatorClaims.

Local Open Scope list_scope.

(** C1 (the code departs from the claim).  The validator raises on a
    mapping with a wrong-typed value: with the integer 5 under [status],
    the call [value.lower()] raises [AttributeError] instead of a record
    being returned. *)
Theorem validate_entry_raises_on_integer_status :
  validate_entry [("status", VInt 5)] = Raise AttributeError.
Proof. vm_compute. reflexivity. Qed.

(** C6, as stated, fails: for the one-element list holding the integer
    0, the rule of the specification keeps the text of the element while
    the validator returns the empty list. *)
Lemma integer_zero_item_is_dropped :
  ~ (forall val : value,
       validated_field [("impacts", val)] "impacts"
       = Ok (Some (spec_clean_list val))).
Proof.
  intros H. specialize (H (VList [VInt 0])). vm_compute in H. discriminate.
Qed.

Lemma list_field_stored entry field x :
  In (field, TList) schema -> stored field TList entry x ->
  x = match dict_get entry field with
      | Some val => spec_clean_list (truthy_items val)
      | None => VList []
      end.
Proof.
  unfold stored. intros Hin Hst.
  destruct (dict_get entry field) as [v|]; [|exact Hst].
  assert (Hc : forall y, clean_field field TList v = Ok y -> y = clean_list v).
  { simpl in Hin.
    repeat (destruct Hin as [Hin|Hin];
            [first [ discriminate Hin
                   | injection Hin as <-; intros y H; clean_field_case H;
                     now injection H as <- ]|]).
    contradiction. }
  destruct v; try (apply Hc in Hst; subst x; reflexivity); [exact Hst|].
  apply Hc in Hst. subst x. simpl.
  now rewrite clean_items_spec.
Qed.

(** C6, amended.  For every list-typed field the validator returns the
    empty list for a value that is not a list, and otherwise applies the
    rule of the specification (stringify, trim, lower-case, drop empty
    and already seen elements, in order of first occurrence) to the
    elements that are true values: [None], [False], 0, the empty string,
    list and mapping are dropped first.  In particular the four
    spellings of flooding validate to the single item [flooding]. *)
Theorem set_field_rule (entry cleaned : dict) (field : string) :
  In (field, TList) schema ->
  validate_entry entry = Ok cleaned ->
  dict_get cleaned field
  = Some (match dict_get entry field with
          | Some val => spec_clean_list (truthy_items val)
          | None => VList []
          end)
  /\ (forall val, (forall items, val <> VList items) ->
                  dict_get entry field = Some val ->
                  dict_get cleaned field = Some (VList []))
  /\ validated_field
       [(field, VList [VStr "Flooding"; VStr "flooding"; VStr " flooding ";
                       VStr ""])] field
     = Ok (Some (VList [VStr "flooding"])).
Proof.
  intros Hin H.
  destruct (validate_entry_get _ _ _ _ Hin H) as [x [Hget Hst]].
  apply list_field_stored in Hst; [|exact Hin]. subst x.
  split; [exact Hget|]. split.
  - intros val Hval Hv. rewrite Hget, Hv.
    destruct val; try reflexivity. now destruct (Hval l).
  - clear - Hin. simpl in Hin.
    repeat (destruct Hin as [Hin|Hin];
            [first [discriminate Hin
                   |injection Hin as <-; vm_compute; reflexivity]|]).
    contradiction.
Qed.

Lemma set_field_rule_witness :
  exists cleaned,
    validate_entry [("impacts", VList [VInt 0; VStr " Heat "; VStr "heat"])]
    = Ok cleaned
    /\ dict_get cleaned "impacts" = Some (VList [VStr "heat"]).
Proof.
  eexists. split; [vm_compute; reflexivity|].
  refine (proj1 (set_field_rule
                   [("impacts", VList [VInt 0; VStr " Heat "; VStr "heat"])]
                   _ "impacts" _ _)).
  - simpl. tauto.
  - vm_compute. reflexivity.
Defined.

Lemma summary_stored entry x val :
  stored "summary" TStr entry x -> dict_get entry "summary" = Some val ->
  val <> VNone -> x = VStr (clean_summary val).
Proof.
  unfold stored. intros Hst Hval Hne. rewrite Hval in Hst.
  destruct val; try contradiction; clean_field_case Hst;
    now injection Hst as <-.
Qed.

Lemma rstrip_app_fixed (a b : string) :
  rstrip b = b /\ b <> EmptyString ->
  rstrip (a ++ b)%string = (a ++ b)%string /\ (a ++ b)%string <> EmptyString.
Proof.
  intros [Hb Hne]. split.
  - rewrite rstrip_app; rewrite Hb; [reflexivity|exact Hne].
  - destruct a; simpl; [exact Hne|discriminate].
Qed.

Lemma split_first (s r : string) :
  has_char "." s = false ->
  split "." (s ++ ". " ++ r)%string = s :: split "." (String " " r).
Proof. intros H. exact (split_app_sep "." s (String " " r) H). Qed.

Lemma split_next (s r : string) :
  has_char "." s = false ->
  split "." (String " " (s ++ ". " ++ r))%string
  = String " " s :: split "." (String " " r).
Proof. intros H. exact (split_app_sep "." (String " " s) (String " " r) H). Qed.

Lemma split_last (s : string) :
  has_char "." s = false ->
  split "." (String " " (s ++ "."))%string = [String " " s; EmptyString].
Proof. intros H. exact (split_app_sep "." (String " " s) EmptyString H). Qed.

Lemma six_sentences (s1 s2 s3 s4 s5 s6 : string) :
  sentence s1 -> sentence s2 -> sentence s3 -> sentence s4 ->
  sentence s5 -> sentence s6 ->
  clean_summary
    (VStr (s1 ++ ". " ++ s2 ++ ". " ++ s3 ++ ". " ++ s4 ++ ". " ++ s5
              ++ ". " ++ s6 ++ "."))%string
  = (s1 ++ ". " ++ s2 ++ ". " ++ s3 ++ ". " ++ s4 ++ ".")%string.
Proof.
  intros [D1 T1] [D2 T2] [D3 T3] [D4 T4] [D5 T5] [D6 T6].
  unfold clean_summary. cbn [py_str].
  set (whole := (s1 ++ ". " ++ s2 ++ ". " ++ s3 ++ ". " ++ s4 ++ ". " ++ s5
                    ++ ". " ++ s6 ++ ".")%string).
  assert (Hstrip : strip whole = whole).
  { unfold strip. rewrite lstrip_fixed.
    - unfold whole. apply rstrip_app_fixed.
      do 10 apply rstrip_app_fixed. split; [reflexivity|discriminate].
    - unfold whole. apply starts_clean_app.
      + now apply strip_fixed_starts_clean.
      + reflexivity. }
  rewrite Hstrip.
  assert (Hsplit : split "." whole
                   = [s1; String " " s2; String " " s3; String " " s4;
                      String " " s5; String " " s6; EmptyString]).
  { unfold whole.
    rewrite (split_first s1) by exact D1.
    rewrite (split_next s2) by exact D2.
    rewrite (split_next s3) by exact D3.
    rewrite (split_next s4) by exact D4.
    rewrite (split_next s5) by exact D5.
    rewrite (split_last s6) by exact D6.
    reflexivity. }
  rewrite Hsplit. cbn [List.length Nat.ltb Nat.leb firstn map].
  rewrite !strip_space_cons, T1, T2, T3, T4.
  unfold join. cbn [concat]. now rewrite !string_app_assoc.
Qed.

(** C7.  The validator stringifies and trims the summary; when the
    trimmed text splits at periods into more than 4 segments, it keeps
    the first 4, each trimmed, and joins them with a period and a space,
    with a closing period; otherwise the trimmed text is kept.  In
    particular six sentences, written one after the other with a period
    and a space between them and a closing period, validate to the first
    four written the same way. *)
Theorem summary_rule (entry cleaned : dict) (val : value) :
  validate_entry entry = Ok cleaned ->
  dict_get entry "summary" = Some val -> val <> VNone ->
  let trimmed := strip (py_str val) in
  let segments := split "." trimmed in
  (List.length segments <= 4 ->
   dict_get cleaned "summary" = Some (VStr trimmed))
  /\ (4 < List.length segments ->
      dict_get cleaned "summary"
      = Some (VStr (join ". " (map strip (firstn 4 segments)) ++ ".")))
  /\ (forall s1 s2 s3 s4 s5 s6 : string,
        sentence s1 -> sentence s2 -> sentence s3 -> sentence s4 ->
        sentence s5 -> sentence s6 ->
        val = VStr (s1 ++ ". " ++ s2 ++ ". " ++ s3 ++ ". " ++ s4 ++ ". "
                       ++ s5 ++ ". " ++ s6 ++ ".")%string ->
        dict_get cleaned "summary"
        = Some (VStr (s1 ++ ". " ++ s2 ++ ". " ++ s3 ++ ". " ++ s4 ++ "."))).
Proof.
  intros H Hval Hne trimmed segments.
  assert (Hin : In ("summary", TStr) schema) by (simpl; tauto).
  destruct (validate_entry_get _ _ _ _ Hin H) as [x [Hget Hst]].
  apply (summary_stored _ _ _ Hst Hval) in Hne. subst x. rewrite Hget.
  unfold clean_summary. fold trimmed. fold segments.
  repeat split.
  - intros Hlen. apply Nat.ltb_ge in Hlen. now rewrite Hlen.
  - intros Hlen. apply Nat.ltb_lt in Hlen. now rewrite Hlen.
  - intros s1 s2 s3 s4 s5 s6 S1 S2 S3 S4 S5 S6 ->.
    pose proof (six_sentences s1 s2 s3 s4 s5 s6 S1 S2 S3 S4 S5 S6) as Hsix.
    unfold clean_summary in Hsix. now rewrite <- Hsix.
Qed.

Lemma summary_rule_witness :
  exists cleaned,
    validate_entry
      [("summary", VStr "One. Two. Three. Four. Five. Six.")] = Ok cleaned
    /\ dict_get cleaned "summary" = Some (VStr "One. Two. Three. Four.").
Proof.
  eexists. split; [vm_compute; reflexivity|].
  refine (proj2 (proj2 (summary_rule
            [("summary", VStr "One. Two. Three. Four. Five. Six.")] _
            (VStr "One. Two. Three. Four. Five. Six.") _ _ _))
          "One" "Two" "Three" "Four" "Five" "Six" _ _ _ _ _ _ _);
    try (split; reflexivity); try reflexivity; try discriminate.
Defined.

End ValidatorClaims.

(* ===================================================================== *)
(** ** Facts about the writer and the processing loop *)

Section ProcessorFacts.

Local Open Scope list_scope.

Arguments validate_entry : simpl never.

Variable E : env.
Variable output_path : string.
Variable source_type : option string.

(** The body of the loop, with its [try]/[except], is the state change
    of the outcome of the file; no exception leaves it. *)
Lemma process_file_outcome (existing_urls : list value) (f : html_file)
    (s : state) :
  try_except (process_file E output_path source_type existing_urls f) s
  = (Ok tt,
     apply_outcome E output_path
       (file_outcome E source_type existing_urls f) s).
Proof.
  unfold try_except. f_equal.
  unfold process_file, file_outcome, bind, lift, ret.
  destruct (resolve_url (metadata E) (name f)) as [url|e]; [|reflexivity].
  destruct (url_known url existing_urls) as [[|]|e]; try reflexivity.
  destruct (parse_html E (path f)) as [text|e]; [|reflexivity].
  fold (too_short text). destruct (too_short text); [reflexivity|].
  unfold extract_info_with_llm, tagged_entry.
  fold (reply_of E (create_extraction_prompt E text)).
  destruct (truthy (reply_of E (create_extraction_prompt E text)));
    [|reflexivity].
  destruct (py_setitem (reply_of E (create_extraction_prompt E text))
                       "url_source" url) as [info1|e]; [|reflexivity].
  cbn [rbind snd].
  destruct (match source_type with
            | Some st =>
                if nonempty st then py_setitem info1 "data_source" (VStr st)
                else Ok info1
            | None => Ok info1
            end) as [info2|e]; [|reflexivity].
  cbn [rbind snd].
  destruct (py_setitem info2 "source_file" (VStr (path f))) as [info3|e];
    [|reflexivity].
  cbn [rbind snd].
  destruct info3; try reflexivity.
  cbn [rbind]. destruct (validate_entry d) as [r|e]; reflexivity.
Qed.

Local Abbreviation step := (Outcome.step E output_path source_type).

(** No exception leaves the loop: it returns for every listing, every
    metadata document and every behaviour of the parser, the service and
    the file system. *)
Lemma process_files_fold (existing_urls : list value)
    (html_files : list html_file) : forall s,
  process_files E output_path source_type existing_urls html_files s
  = (Ok tt, fold_left (step existing_urls) html_files s).
Proof.
  induction html_files as [|f rest IH]; intros s; [reflexivity|].
  cbn [process_files fold_left]. unfold bind at 1.
  rewrite process_file_outcome. apply IH.
Qed.

(** *** The writer *)

Lemma attempt_frame (effect : state -> state) (s : state) :
  (forall t, entries (effect t) = entries t) ->
  (forall t, llm_log (effect t) = llm_log t) ->
  entries (snd (attempt E effect s)) = entries s
  /\ llm_log (snd (attempt E effect s)) = llm_log s.
Proof.
  intros He Hl. unfold attempt. destruct (io_ok E (clock s)); simpl.
  - now rewrite He, Hl.
  - tauto.
Qed.

Lemma save_data_frame (df : list dict) (format : string) (s : state) :
  entries (snd (save_data E df output_path format s)) = entries s
  /\ llm_log (snd (save_data E df output_path format s)) = llm_log s
  /\ stats_file (snd (save_data E df output_path format s)) = stats_file s.
Proof.
  unfold save_data, bind, ret, raise, attempt.
  repeat match goal with
         | |- context [if ?b then _ else _] => destruct b; simpl
         end; tauto.
Qed.


Lemma save_csv_reliable (df : list dict) (s : state) :
  (forall n, io_ok E n = true) ->
  fst (save_data E df output_path "csv" s) = Ok tt
  /\ output_file (snd (save_data E df output_path "csv" s)) = CsvTable df.
Proof.
  intros Hio. unfold save_data, bind, ret, raise, attempt.
  destruct (has_output_dir output_path); simpl; rewrite ?Hio; simpl;
    rewrite ?Hio; simpl; rewrite ?Hio; simpl; tauto.
Qed.

(** *** One step of the loop *)

Lemma step_entries (existing_urls : list value) (s : state) (f : html_file) :
  entries (step existing_urls s f)
  = entries s ++ record_of (file_outcome E source_type existing_urls f).
Proof.
  unfold step, apply_outcome.
  destruct (file_outcome E source_type existing_urls f) as [|prompt [r|]];
    simpl; rewrite ?app_nil_r; try reflexivity.
  now rewrite (proj1 (save_data_frame _ _ _)).
Qed.

Lemma step_llm_log (existing_urls : list value) (s : state) (f : html_file) :
  llm_log (step existing_urls s f)
  = llm_log s ++ prompts_of (file_outcome E source_type existing_urls f).
Proof.
  unfold step, apply_outcome.
  destruct (file_outcome E source_type existing_urls f) as [|prompt [r|]];
    simpl; rewrite ?app_nil_r; try reflexivity.
  now rewrite (proj1 (proj2 (save_data_frame _ _ _))).
Qed.

Lemma step_stats (existing_urls : list value) (s : state) (f : html_file) :
  stats_file (step existing_urls s f) = stats_file s.
Proof.
  unfold step, apply_outcome.
  destruct (file_outcome E source_type existing_urls f) as [|prompt [r|]];
    simpl; try reflexivity.
  now rewrite (proj2 (proj2 (save_data_frame _ _ _))).
Qed.


Lemma step_output_reliable (existing_urls : list value) (s : state)
    (f : html_file) :
  (forall n, io_ok E n = true) ->
  output_file (step existing_urls s f)
  = match record_of (file_outcome E source_type existing_urls f) with
    | [] => output_file s
    | rs => CsvTable (entries s ++ rs)
    end.
Proof.
  intros Hio. unfold step, apply_outcome.
  destruct (file_outcome E source_type existing_urls f) as [|prompt [r|]];
    simpl; try reflexivity.
  exact (proj2 (save_csv_reliable _ _ Hio)).
Qed.

(** *** The whole loop *)

Lemma loop_entries (existing_urls : list value) (html_files : list html_file) :
  forall s,
  entries (fold_left (step existing_urls) html_files s)
  = entries s ++ new_records E source_type existing_urls html_files.
Proof.
  induction html_files as [|f rest IH]; intros s; simpl.
  - now rewrite app_nil_r.
  - rewrite IH, step_entries, <- app_assoc. reflexivity.
Qed.

Lemma loop_llm_log (existing_urls : list value) (html_files : list html_file) :
  forall s,
  llm_log (fold_left (step existing_urls) html_files s)
  = llm_log s
    ++ flat_map (fun f => prompts_of
                            (file_outcome E source_type existing_urls f))
                html_files.
Proof.
  induction html_files as [|f rest IH]; intros s; simpl.
  - now rewrite app_nil_r.
  - rewrite IH, step_llm_log, <- app_assoc. reflexivity.
Qed.

Lemma loop_stats (existing_urls : list value) (html_files : list html_file) :
  forall s,
  stats_file (fold_left (step existing_urls) html_files s) = stats_file s.
Proof.
  induction html_files as [|f rest IH]; intros s; simpl; [reflexivity|].
  now rewrite IH, step_stats.
Qed.


Lemma loop_output_reliable (existing_urls : list value)
    (html_files : list html_file) :
  (forall n, io_ok E n = true) ->
  forall s,
  output_file (fold_left (step existing_urls) html_files s)
  = match new_records E source_type existing_urls html_files with
    | [] => output_file s
    | rs => CsvTable (entries s ++ rs)
    end.
Proof.
  intros Hio. induction html_files as [|f rest IH]; intros s; simpl;
    [reflexivity|].
  unfold new_records. simpl. fold (new_records E source_type existing_urls rest).
  rewrite IH, step_entries, (step_output_reliable _ _ _ Hio).
  destruct (record_of (file_outcome E source_type existing_urls f)) as [|r rs];
    simpl.
  - now rewrite app_nil_r.
  - destruct (new_records E source_type existing_urls rest) as [|r' rs'].
    + now rewrite app_nil_r.
    + now rewrite <- app_assoc.
Qed.

End ProcessorFacts.

(* ===================================================================== *)
(** ** The whole run *)

Section RunFacts.

Local Open Scope list_scope.

Arguments validate_entry : simpl never.

Lemma set_entries_same (l : list dict) :
  (if negb (is_empty l) then l else []) = l.
Proof. now destruct l. Qed.

(** The part of a run after the loop changes neither the dataset file
    nor the records nor the prompts sent. *)
Lemma process_directory_run (E : env) (output_path : string)
    (source_type : option string) (s : state) (existing_urls : list value)
    (html_files : list html_file) :
  loaded_urls (load_existing_data E (output_file s)) = Ok existing_urls ->
  listing E = Ok html_files ->
  let s1 := fold_left (step E output_path source_type existing_urls)
                      html_files (loop_start E s) in
  let s2 := snd (process_directory E output_path source_type s) in
  output_file s2 = output_file s1 /\ entries s2 = entries s1
  /\ llm_log s2 = llm_log s1.
Proof.
  intros Hurls Hlist s1 s2. subst s2.
  unfold process_directory, bind, get_output, lift.
  unfold loaded_urls in Hurls. rewrite Hurls, set_entries_same.
  fold (loop_start E s).
  destruct (set_entries (load_existing_data E (output_file s)) s)
    as [r0 s0] eqn:Hset.
  assert (Hs0 : s0 = loop_start E s) by (unfold loop_start; now rewrite Hset).
  assert (Hr0 : r0 = Ok tt) by (unfold set_entries in Hset; congruence).
  subst r0 s0. rewrite Hlist, process_files_fold. fold s1.
  unfold get_entries, ret, raise.
  destruct (is_empty (entries s1)); [simpl; tauto|].
  destruct (ensure_fields schema (entries s1)); [|simpl; tauto].
  destruct (List.length html_files =? 0)%nat; [simpl; tauto|].
  unfold write_stats, try_except, attempt.
  destruct (io_ok E (clock s1)); simpl; tauto.
Qed.

Lemma file_outcome_listing (E : env) (l : result (list html_file))
    (source_type : option string) (existing_urls : list value)
    (f : html_file) :
  file_outcome (with_listing E l) source_type existing_urls f
  = file_outcome E source_type existing_urls f.
Proof. reflexivity. Qed.

Lemma fold_step_listing (E : env) (l : result (list html_file))
    (output_path : string) (source_type : option string)
    (existing_urls : list value) (html_files : list html_file) : forall s,
  fold_left (step (with_listing E l) output_path source_type existing_urls)
            html_files s
  = fold_left (step E output_path source_type existing_urls) html_files s.
Proof.
  induction html_files as [|f rest IH]; intros s; simpl; [reflexivity|].
  rewrite IH. reflexivity.
Qed.

Lemma py_eq_hashable (a b : value) : py_eq a b = true -> hashable a = true.
Proof. destruct a; simpl; try reflexivity; discriminate. Qed.

Lemma url_known_true (url : value) (existing_urls : list value) :
  py_eq url (VStr "unknown") = false ->
  existsb (py_eq url) existing_urls = true ->
  url_known url existing_urls = Ok true.
Proof.
  intros Hne Hin. unfold url_known. rewrite Hne. simpl.
  apply existsb_exists in Hin. destruct Hin as [u [Hu Heq]].
  rewrite (py_eq_hashable _ _ Heq).
  f_equal. apply existsb_exists. eauto.
Qed.

End RunFacts.

(* ===================================================================== *)
(** ** The claims about the processor and the writer *)

Section ProcessorClaims.

Local Open Scope list_scope.

Arguments validate_entry : simpl never.

(** C5.  A file whose resolved URL is not [unknown] and is among the
    [url_source] values of the dataset loaded at the start of the run is
    skipped: processing it sends no prompt to the service and changes
    nothing, and the run ends with the same prompts sent, the same
    records and the same dataset file as the run over the listing
    without that file. *)
Theorem known_url_is_skipped (E : env) (output_path : string)
    (source_type : option string) (s : state) (existing_urls : list value)
    (before after : list html_file) (f : html_file) (url : value) :
  loaded_urls (load_existing_data E (output_file s)) = Ok existing_urls ->
  resolve_url (metadata E) (name f) = Ok url ->
  py_eq url (VStr "unknown") = false ->
  existsb (py_eq url) existing_urls = true ->
  (forall t,
     process_file E output_path source_type existing_urls f t = (Ok tt, t))
  /\ let with_f :=
       snd (process_directory (with_listing E (Ok (before ++ f :: after)))
                              output_path source_type s) in
     let without_f :=
       snd (process_directory (with_listing E (Ok (before ++ after)))
                              output_path source_type s) in
     llm_log with_f = llm_log without_f
     /\ entries with_f = entries without_f
     /\ output_file with_f = output_file without_f.
Proof.
  intros Hurls Hurl Hne Hin.
  pose proof (url_known_true url existing_urls Hne Hin) as Hknown.
  split.
  - intros t. unfold process_file, bind, lift, ret.
    now rewrite Hurl, Hknown.
  - intros with_f without_f.
    destruct (process_directory_run
                (with_listing E (Ok (before ++ f :: after))) output_path
                source_type s existing_urls (before ++ f :: after)
                Hurls eq_refl) as [Ho1 [He1 Hl1]].
    destruct (process_directory_run
                (with_listing E (Ok (before ++ after))) output_path
                source_type s existing_urls (before ++ after)
                Hurls eq_refl) as [Ho2 [He2 Hl2]].
    fold with_f in Ho1, He1, Hl1. fold without_f in Ho2, He2, Hl2.
    rewrite Ho1, He1, Hl1, Ho2, He2, Hl2, !fold_step_listing.
    assert (Hskip : forall t,
      fold_left (step E output_path source_type existing_urls)
                (before ++ f :: after) t
      = fold_left (step E output_path source_type existing_urls)
                  (before ++ after) t).
    { intros t. rewrite !fold_left_app. simpl. f_equal.
      unfold step, file_outcome. now rewrite Hurl, Hknown. }
    change (loop_start (with_listing E (Ok (before ++ f :: after))) s)
      with (loop_start E s).
    change (loop_start (with_listing E (Ok (before ++ after))) s)
      with (loop_start E s).
    now rewrite Hskip.
Qed.

Lemma known_url_is_skipped_witness :
  llm_log (snd (process_directory (with_listing one_file (Ok [file_a]))
                  "out/nbs.csv" (Some "oppla")
                  (initial (CsvTable [record_with url_a]))))
  = llm_log (snd (process_directory (with_listing one_file (Ok []))
                    "out/nbs.csv" (Some "oppla")
                    (initial (CsvTable [record_with url_a])))).
Proof.
  exact (proj1 (proj2 (known_url_is_skipped one_file "out/nbs.csv"
                         (Some "oppla")
                         (initial (CsvTable [record_with url_a]))
                         [VStr url_a] [] [] file_a (VStr url_a)
                         eq_refl eq_refl eq_refl eq_refl))).
Defined.



End ProcessorClaims.

Section LoaderClaims.

Local Open Scope list_scope.

Arguments validate_entry : simpl never.

Lemma loaded_urls_nil : loaded_urls [] = Ok [].
Proof. reflexivity. Qed.



End LoaderClaims.

Section RunClaims.

Local Open Scope list_scope.

(** C3 (the code departs from the claim).  In the run over three pages
    with source type [oppla] from an absent dataset, the two records
    written to the dataset have the 13 schema keys and nothing else: the
    [data_source] and [source_file] set on the reply are dropped by the
    validator, and [processed_date] is only put on the returned frame. *)
Theorem persisted_records_lack_provenance :
  let s := snd (run three_files (Some "oppla") Absent) in
  map keys (rows_of (output_file s)) = [schema_fields; schema_fields]
  /\ column_of (rows_of (output_file s)) "data_source" = [None; None]
  /\ column_of (rows_of (output_file s)) "source_file" = [None; None]
  /\ column_of (rows_of (output_file s)) "processed_date" = [None; None].
Proof. vm_compute. repeat split. Qed.

(** C4 (the code departs from the claim).  With one record already in
    the dataset and one page whose URL is that record's, no prompt is
    sent and no record is produced in the run, yet the statistics report
    one processed file out of one: the count is the length of the whole
    record list, loaded records included. *)
Theorem processed_files_counts_loaded_records :
  let s := snd (run one_file (Some "oppla") (CsvTable [record_with url_a])) in
  llm_log s = []
  /\ new_records one_file (Some "oppla") [VStr url_a] [file_a] = []
  /\ stats_file s = Some (Stats 1 1 "2024-01-01 00:00:00" "oppla").
Proof. vm_compute. repeat split. Qed.

(** The scenario of the specification does come out as stated: three
    pages from an empty dataset, the service failing on the second. *)
Example three_files_scenario :
  let s := snd (run three_files (Some "oppla") Absent) in
  column_of (rows_of (output_file s)) "url_source"
  = [Some (VStr url_a); Some (VStr url_c)]
  /\ stats_file s = Some (Stats 3 2 "2024-01-01 00:00:00" "oppla").
Proof. vm_compute. repeat split. Qed.

(** C8 (the code departs from the claim).  With a record already in the
    dataset and a directory that lists without error but has no HTML
    file, the run raises [ZeroDivisionError] to its caller: the success
    rate divides by the number of files. *)
Theorem empty_listing_raises_division_by_zero :
  listing no_files = Ok []
  /\ fst (run no_files (Some "oppla") (CsvTable [record_with url_a]))
     = Raise ZeroDivisionError.
Proof. vm_compute. repeat split. Qed.

End RunClaims.

(* ===================================================================== *)
(** ** De-duplication across runs *)

Section Dedup.

Local Open Scope list_scope.

Arguments validate_entry : simpl never.









(** A record added by a file is a record the validator returned. *)
Lemma outcome_record_validated (E : env) (source_type : option string)
    (existing_urls : list value) (f : html_file) (r : dict) :
  In r (record_of (file_outcome E source_type existing_urls f)) ->
  exists d, validate_entry d = Ok r.
Proof.
  unfold file_outcome.
  destruct (resolve_url (metadata E) (name f)) as [url|e]; [|contradiction].
  destruct (url_known url existing_urls) as [[|]|e]; try contradiction.
  destruct (parse_html E (path f)) as [text|e]; [|contradiction].
  destruct (too_short text); [contradiction|].
  destruct (truthy (reply_of E (create_extraction_prompt E text)));
    [|contradiction].
  destruct (tagged_entry source_type url f
              (reply_of E (create_extraction_prompt E text))) as [d|e];
    [|contradiction].
  cbn [rbind]. destruct (validate_entry d) as [r'|e] eqn:Hv; [|contradiction].
  simpl. intros [<-|[]]. eauto.
Qed.



(** Every record a run adds has the schema keys and no other. *)
Lemma new_records_schema_keys (E : env) (source_type : option string)
    (existing_urls : list value) (html_files : list html_file) (r : dict) :
  In r (new_records E source_type existing_urls html_files) ->
  keys r = schema_fields.
Proof.
  unfold new_records. rewrite in_flat_map. intros [f [_ Hr]].
  apply outcome_record_validated in Hr. destruct Hr as [d Hd].
  exact (validate_entry_keys d r Hd).
Qed.







End Dedup.

Section DedupClaims.

Local Open Scope list_scope.

Arguments validate_entry : simpl never.





End DedupClaims.

(* ===================================================================== *)
(** ** What holds of the loop and of the statistics in general *)

Section LoopGuarantees.

Local Open Scope list_scope.

Arguments validate_entry : simpl never.


(** Whether or not the body raises on a file, the loop goes on with the
    files after it, from the state the body left. *)
Lemma loop_goes_on_after_any_file (E : env) (output_path : string)
    (source_type : option string) (existing_urls : list value)
    (f : html_file) (rest : list html_file) (s : state) :
  process_files E output_path source_type existing_urls (f :: rest) s
  = process_files E output_path source_type existing_urls rest
      (snd (process_file E output_path source_type existing_urls f s)).
Proof. reflexivity. Qed.

(** When a run writes its statistics, [total_files] is the number of
    files listed and [processed_files] the number of records loaded plus
    the number of records added. *)
Lemma statistics_written (E : env) (output_path : string)
    (source_type : option string) (s : state) (existing_urls : list value)
    (html_files : list html_file) (st : stats) :
  loaded_urls (load_existing_data E (output_file s)) = Ok existing_urls ->
  listing E = Ok html_files ->
  stats_file s = None ->
  stats_file (snd (process_directory E output_path source_type s)) = Some st ->
  total_files st = List.length html_files
  /\ processed_files st
     = List.length (load_existing_data E (output_file s))
       + List.length (new_records E source_type existing_urls html_files).
Proof.
  intros Hurls Hlist Hnone.
  unfold process_directory, bind, get_output, lift.
  unfold loaded_urls in Hurls. rewrite Hurls, set_entries_same.
  destruct (set_entries (load_existing_data E (output_file s)) s)
    as [r0 s0] eqn:Hset.
  assert (Hs0 : s0 = loop_start E s) by (unfold loop_start; now rewrite Hset).
  assert (Hr0 : r0 = Ok tt) by (unfold set_entries in Hset; congruence).
  subst r0 s0. rewrite Hlist, process_files_fold.
  set (s1 := fold_left (step E output_path source_type existing_urls)
                       html_files (loop_start E s)).
  assert (Hst1 : stats_file s1 = None)
    by (unfold s1; rewrite loop_stats; exact Hnone).
  assert (Hen1 : List.length (entries s1)
                 = List.length (load_existing_data E (output_file s))
                   + List.length (new_records E source_type existing_urls
                                              html_files)).
  { unfold s1. rewrite loop_entries, length_app. reflexivity. }
  unfold get_entries, ret, raise.
  destruct (is_empty (entries s1)); [simpl; congruence|].
  destruct (ensure_fields schema (entries s1)); [|simpl; congruence].
  destruct (List.length html_files =? 0)%nat; [simpl; congruence|].
  unfold write_stats, try_except, attempt.
  destruct (io_ok E (clock s1)); simpl; [|congruence].
  intros H. injection H as <-. simpl. split; [reflexivity|exact Hen1].
Qed.

End LoopGuarantees.

(* ===================================================================== *)
(** * Further properties of the validator *)

Section ValidatorCoverage.

Local Open Scope list_scope.

Arguments validate_entry : simpl never.

Lemma enum_stored entry f valid x :
  (clean_field f TStr = clean_enum valid) ->
  str_in "unknown" valid = true ->
  stored f TStr entry x ->
  exists s, x = VStr s /\ In s valid.
Proof.
  unfold stored. intros Hf Hunk Hst.
  assert (Hdef : exists s, VStr "unknown" = VStr s /\ In s valid)
    by (exists "unknown"%string; split; [reflexivity|now apply str_in_In]).
  destruct (dict_get entry f) as [v|]; [|subst x; exact Hdef].
  rewrite Hf in Hst.
  assert (Hv : clean_enum valid v = Ok x -> exists s, x = VStr s /\ In s valid).
  { intros H. apply clean_enum_ok in H. destruct H as [s [-> [H| ->]]].
    - exists s. split; [reflexivity|now apply str_in_In].
    - exact Hdef. }
  destruct v; try (now apply Hv). subst x. exact Hdef.
Qed.

Lemma spec_items_clean_text items : forall seen x,
  In x (spec_items items seen) -> clean_text x.
Proof.
  induction items as [|item rest IH]; simpl; intros seen x Hin; [contradiction|].
  destruct (nonempty (lower (strip (py_str item)))) eqn:Hne; simpl in Hin;
    [|now apply IH in Hin].
  destruct (str_in (lower (strip (py_str item))) seen); simpl in Hin;
    [now apply IH in Hin|].
  destruct Hin as [<-|Hin]; [|now apply IH in Hin].
  repeat split.
  - intros H. rewrite H in Hne. discriminate.
  - apply lower_idem.
  - now rewrite strip_lower, strip_idem.
Qed.

(** Whenever the validator returns, the record has the 13 schema keys
    in schema order; the three controlled fields hold a member of their
    closed sets; every list field holds pairwise distinct strings that
    are not empty, trimmed and in lower case; every other field holds a
    string. *)
Theorem validated_record_is_well_formed (entry cleaned : dict) :
  validate_entry entry = Ok cleaned ->
  keys cleaned = schema_fields
  /\ (exists s, dict_get cleaned "status" = Some (VStr s) /\ In s valid_status)
  /\ (exists s, dict_get cleaned "scale" = Some (VStr s) /\ In s valid_scales)
  /\ (exists s, dict_get cleaned "environmental_context" = Some (VStr s)
                /\ In s valid_env_contexts)
  /\ (forall f, In (f, TList) schema ->
        exists l, dict_get cleaned f = Some (VList (map VStr l))
                  /\ NoDup l /\ forall x, In x l -> clean_text x)
  /\ (forall f, In (f, TStr) schema ->
        exists s, dict_get cleaned f = Some (VStr s)).
Proof.
  intros H.
  assert (Henum : forall f valid,
            In (f, TStr) schema -> clean_field f TStr = clean_enum valid ->
            str_in "unknown" valid = true ->
            exists s, dict_get cleaned f = Some (VStr s) /\ In s valid).
  { intros f valid Hin Hf Hunk.
    destruct (validate_entry_get _ _ _ _ Hin H) as [x [Hget Hst]].
    destruct (enum_stored _ _ _ _ Hf Hunk Hst) as [s [-> Hs]]. eauto. }
  split; [exact (validate_entry_keys _ _ H)|].
  split; [apply Henum; [simpl; tauto|reflexivity|reflexivity]|].
  split; [apply Henum; [simpl; tauto|reflexivity|reflexivity]|].
  split; [apply Henum; [simpl; tauto|reflexivity|reflexivity]|].
  split.
  - intros f Hin.
    destruct (validate_entry_get _ _ _ _ Hin H) as [x [Hget Hst]].
    apply list_field_stored in Hst; [|exact Hin]. rewrite Hget, Hst.
    destruct (dict_get entry f) as [v|].
    + destruct (truthy_items v) as [| | | |items|]; simpl;
        try (exists []; split; [reflexivity|];
             split; [constructor|contradiction]).
      exists (spec_items items []). split; [reflexivity|]. split.
      * apply no_dup_str_NoDup, spec_items_no_dup.
      * intros y Hy. exact (spec_items_clean_text _ _ _ Hy).
    + exists []. split; [reflexivity|]. split; [constructor|contradiction].
  - intros f Hin.
    destruct (validate_entry_get _ _ _ _ Hin H) as [x [Hget Hst]].
    pose proof (stored_ok _ _ _ _ Hin Hst) as Hok.
    destruct x; try discriminate. eauto.
Qed.

Lemma validated_record_is_well_formed_witness :
  exists s, dict_get (record_with "https://example.org/a") "status"
            = Some (VStr s) /\ In s valid_status.
Proof.
  exact (proj1 (proj2 (validated_record_is_well_formed
                          [("title", VStr "Old");
                           ("url_source", VStr "https://example.org/a")]
                          (record_with "https://example.org/a") eq_refl))).
Defined.

End ValidatorCoverage.

Section ValidatorErrors.

Local Open Scope list_scope.

Arguments validate_entry : simpl never.












Lemma validate_fields_agree fields : forall e1 e2 acc,
  (forall f, In f (map fst fields) -> seen_value e1 f = seen_value e2 f) ->
  validate_fields fields e1 acc = validate_fields fields e2 acc.
Proof.
  induction fields as [|[field ft] rest IH]; simpl; intros e1 e2 acc H;
    [reflexivity|].
  assert (Hrest : forall acc', validate_fields rest e1 acc'
                               = validate_fields rest e2 acc').
  { intros acc'. apply IH. intros f Hf. apply H. now right. }
  specialize (H field (or_introl eq_refl)). unfold seen_value in H.
  destruct (dict_get e1 field) as [v1|], (dict_get e2 field) as [v2|].
  - destruct v1, v2; try discriminate; try apply Hrest;
      injection H as <-;
      (destruct (clean_field field ft _); simpl; [apply Hrest|reflexivity]).
  - destruct v1; try discriminate. apply Hrest.
  - destruct v2; try discriminate. apply Hrest.
  - apply Hrest.
Qed.

(** The validator looks at the 13 schema keys only, and takes [None]
    for an absent key: two entries that agree on those keys, up to
    [None] standing for absence, have the same result, whatever other
    keys they hold. *)
Theorem validate_entry_ignores_other_keys (e1 e2 : dict) :
  (forall f, In f schema_fields -> seen_value e1 f = seen_value e2 f) ->
  validate_entry e1 = validate_entry e2.
Proof. intros H. unfold validate_entry. now apply validate_fields_agree. Qed.

Lemma validate_entry_ignores_other_keys_witness :
  validate_entry [("title", VStr "Park"); ("source_file", VStr "a.html");
                  ("country", VNone)]
  = validate_entry [("title", VStr "Park")].
Proof.
  apply validate_entry_ignores_other_keys.
  intros f Hf. simpl in Hf.
  repeat (destruct Hf as [<-|Hf]; [reflexivity|]). contradiction.
Defined.

End ValidatorErrors.

Section ValidatorIdempotence.

Local Open Scope list_scope.

Arguments validate_entry : simpl never.

Lemma has_char_lstrip (c : ascii) (s : string) :
  has_char c s = false -> has_char c (lstrip s) = false.
Proof.
  induction s as [|d s IH]; simpl; [reflexivity|].
  intros H. apply orb_false_elim in H. destruct H as [Hd Hs].
  destruct (is_space d); [now apply IH|]. simpl. now rewrite Hd, Hs.
Qed.

Lemma has_char_rstrip (c : ascii) (s : string) :
  has_char c s = false -> has_char c (rstrip s) = false.
Proof.
  induction s as [|d s IH]; simpl; [reflexivity|].
  intros H. apply orb_false_elim in H. destruct H as [Hd Hs].
  specialize (IH Hs).
  destruct (rstrip s); simpl in *.
  - destruct (is_space d); simpl; [reflexivity|now rewrite Hd].
  - now rewrite Hd, IH.
Qed.

Lemma has_char_strip (c : ascii) (s : string) :
  has_char c s = false -> has_char c (strip s) = false.
Proof. intros H. now apply has_char_rstrip, has_char_lstrip. Qed.

Lemma split_segments_no_sep (sep : ascii) (s : string) :
  forall seg, In seg (split sep s) -> has_char sep seg = false.
Proof.
  induction s as [|c s IH]; simpl; intros seg Hin.
  - destruct Hin as [<-|[]]. reflexivity.
  - destruct (Ascii.eqb c sep) eqn:Hc.
    + destruct Hin as [<-|Hin]; [reflexivity|now apply IH].
    + destruct (split sep s) as [|h t] eqn:Hs.
      * destruct Hin as [<-|[]]. simpl. rewrite Ascii.eqb_sym, Hc. reflexivity.
      * destruct Hin as [<-|Hin].
        -- simpl. rewrite Ascii.eqb_sym, Hc. apply IH. now left.
        -- apply IH. now right.
Qed.

Lemma sentence_strip (seg : string) :
  has_char "." seg = false -> sentence (strip seg).
Proof.
  intros H. split; [now apply has_char_strip|apply strip_idem].
Qed.

Lemma four_sentences (s1 s2 s3 s4 : string) :
  sentence s1 -> sentence s2 -> sentence s3 -> sentence s4 ->
  let whole := (s1 ++ ". " ++ s2 ++ ". " ++ s3 ++ ". " ++ s4 ++ ".")%string in
  strip whole = whole
  /\ split "." whole
     = [s1; String " " s2; String " " s3; String " " s4; EmptyString].
Proof.
  intros [D1 T1] [D2 T2] [D3 T3] [D4 T4] whole. split.
  - unfold strip. rewrite lstrip_fixed.
    + unfold whole. apply rstrip_app_fixed.
      do 6 apply rstrip_app_fixed. split; [reflexivity|discriminate].
    + unfold whole. apply starts_clean_app.
      * now apply strip_fixed_starts_clean.
      * reflexivity.
  - unfold whole.
    rewrite (split_first s1) by exact D1.
    rewrite (split_next s2) by exact D2.
    rewrite (split_next s3) by exact D3.
    rewrite (split_last s4) by exact D4.
    reflexivity.
Qed.

Lemma clean_summary_four (s1 s2 s3 s4 : string) :
  sentence s1 -> sentence s2 -> sentence s3 -> sentence s4 ->
  clean_summary (VStr (s1 ++ ". " ++ s2 ++ ". " ++ s3 ++ ". " ++ s4 ++ "."))
  = (s1 ++ ". " ++ s2 ++ ". " ++ s3 ++ ". " ++ s4 ++ ".")%string.
Proof.
  intros S1 S2 S3 S4.
  destruct (four_sentences s1 s2 s3 s4 S1 S2 S3 S4) as [Hstrip Hsplit].
  unfold clean_summary. cbn [py_str]. rewrite Hstrip, Hsplit.
  cbn [List.length Nat.ltb Nat.leb firstn map].
  destruct S1 as [_ T1], S2 as [_ T2], S3 as [_ T3], S4 as [_ T4].
  rewrite !strip_space_cons, T1, T2, T3, T4.
  unfold join. cbn [concat]. now rewrite !string_app_assoc.
Qed.

(** The truncated form of a summary: four sentences, each closed by a
    period. *)
Lemma clean_summary_shape (val : value) :
  (List.length (split "." (strip (py_str val))) <= 4
   /\ clean_summary val = strip (py_str val))
  \/ (exists s1 s2 s3 s4,
        sentence s1 /\ sentence s2 /\ sentence s3 /\ sentence s4
        /\ clean_summary val
           = (s1 ++ ". " ++ s2 ++ ". " ++ s3 ++ ". " ++ s4 ++ ".")%string).
Proof.
  unfold clean_summary.
  destruct (4 <? List.length (split "." (strip (py_str val))))%nat eqn:Hlen.
  - right. apply Nat.ltb_lt in Hlen.
    pose proof (split_segments_no_sep "." (strip (py_str val))) as Hseg.
    destruct (split "." (strip (py_str val)))
      as [|a [|b [|c [|d rest]]]]; simpl in Hlen; try lia.
    exists (strip a), (strip b), (strip c), (strip d).
    repeat split;
      try (apply has_char_strip, Hseg; simpl; tauto);
      try apply strip_idem.
    cbn [firstn map]. unfold join. cbn [concat].
    now rewrite !string_app_assoc.
  - left. apply Nat.ltb_ge in Hlen. split; [exact Hlen|reflexivity].
Qed.

Lemma clean_summary_fixed (val : value) :
  clean_summary (VStr (clean_summary val)) = clean_summary val.
Proof.
  destruct (clean_summary_shape val)
    as [[Hlen ->]|[s1 [s2 [s3 [s4 [S1 [S2 [S3 [S4 ->]]]]]]]]].
  - unfold clean_summary. cbn [py_str]. rewrite strip_idem.
    apply Nat.ltb_ge in Hlen. now rewrite Hlen.
  - now apply clean_summary_four.
Qed.

Lemma clean_string_fixed (val : value) :
  clean_string (VStr (clean_string val)) = clean_string val.
Proof.
  unfold clean_string at 2 3.
  destruct (nonempty (strip (py_str val))) eqn:Hne; [|reflexivity].
  unfold clean_string. cbn [py_str]. now rewrite strip_idem, Hne.
Qed.

Lemma spec_items_fixed (l : list string) : forall seen,
  (forall x, In x l -> clean_text x /\ str_in x seen = false) ->
  NoDup l ->
  spec_items (filter truthy (map VStr l)) seen = l.
Proof.
  induction l as [|x l IH]; intros seen Hl Hnd; [reflexivity|].
  inversion Hnd as [|? ? Hnotin Hnd']; subst.
  destruct (Hl x (or_introl eq_refl)) as [[Hne [Hlow Hstrip]] Hfresh].
  cbn [map filter truthy].
  assert (Hx : nonempty x = true) by (destruct x; [contradiction|reflexivity]).
  rewrite Hx. cbn [spec_items py_str]. rewrite Hstrip, Hlow, Hx, Hfresh.
  cbn [negb andb]. f_equal. apply IH; [|exact Hnd'].
  intros y Hy. destruct (Hl y (or_intror Hy)) as [Hc Hf]. split; [exact Hc|].
  simpl. rewrite Hf, orb_false_r. apply String.eqb_neq.
  intros ->. contradiction.
Qed.

Lemma clean_list_fixed (val : value) :
  clean_list (clean_list val) = clean_list val.
Proof.
  destruct val; try reflexivity. cbn [clean_list]. f_equal. f_equal.
  rewrite !clean_items_spec. cbn [app].
  apply spec_items_fixed.
  - intros x Hx. split; [exact (spec_items_clean_text _ _ _ Hx)|reflexivity].
  - apply no_dup_str_NoDup, spec_items_no_dup.
Qed.

Lemma clean_enum_fixed (valid : list string) (val x : value) :
  str_in "unknown" valid = true ->
  clean_enum valid val = Ok x -> clean_enum valid x = Ok x.
Proof.
  intros Hunk. destruct val; try discriminate.
  unfold clean_enum, lower_method, rbind.
  destruct (str_in (lower s) valid) eqn:Hin; intros H; injection H as <-.
  - now rewrite lower_idem, Hin.
  - change (lower "unknown") with "unknown"%string. now rewrite Hunk.
Qed.

Lemma clean_field_kind f ft :
  In (f, ft) schema ->
  (exists valid, str_in "unknown" valid = true
                 /\ forall v, clean_field f ft v = clean_enum valid v)
  \/ (forall v, clean_field f ft v
                = if items_ok v then Ok (clean_list v) else Raise limit_error)
  \/ (forall v, clean_field f ft v
                = if str_ok v then Ok (VStr (clean_summary v))
                  else Raise limit_error)
  \/ (forall v, clean_field f ft v
                = if str_ok v then Ok (VStr (clean_string v))
                  else Raise limit_error).
Proof.
  intros Hin. simpl in Hin.
  repeat (destruct Hin as [Hin|Hin];
    [injection Hin as <- <-;
     first
       [ left; exists valid_status; split; [reflexivity|]; intros v;
         unfold clean_field; cbn [String.eqb Ascii.eqb Bool.eqb];
         match goal with |- ?a = ?b => constr_eq a b; reflexivity end
       | left; exists valid_scales; split; [reflexivity|]; intros v;
         unfold clean_field; cbn [String.eqb Ascii.eqb Bool.eqb];
         match goal with |- ?a = ?b => constr_eq a b; reflexivity end
       | left; exists valid_env_contexts; split; [reflexivity|]; intros v;
         unfold clean_field; cbn [String.eqb Ascii.eqb Bool.eqb];
         match goal with |- ?a = ?b => constr_eq a b; reflexivity end
       | right; left; intros v;
         unfold clean_field; cbn [String.eqb Ascii.eqb Bool.eqb];
         match goal with |- ?a = ?b => constr_eq a b; reflexivity end
       | right; right; left; intros v;
         unfold clean_field; cbn [String.eqb Ascii.eqb Bool.eqb];
         match goal with |- ?a = ?b => constr_eq a b; reflexivity end
       | right; right; right; intros v;
         unfold clean_field; cbn [String.eqb Ascii.eqb Bool.eqb];
         match goal with |- ?a = ?b => constr_eq a b; reflexivity end ]|]).
  contradiction.
Qed.

Lemma str_ok_map_VStr (l : list string) : forallb str_ok (map VStr l) = true.
Proof. induction l as [|x l IH]; simpl; [reflexivity|exact IH]. Qed.

Lemma items_ok_clean_list (val : value) : items_ok (clean_list val) = true.
Proof.
  destruct val; try reflexivity. cbn [clean_list items_ok].
  induction (clean_items l [] []) as [|x xs IH]; simpl; [reflexivity|].
  now rewrite orb_true_r.
Qed.

(** What the validator stored for a field is left as it is when
    validated again. *)
Lemma stored_fixed f ft entry x :
  In (f, ft) schema -> stored f ft entry x ->
  clean_field f ft x = Ok x /\ x <> VNone.
Proof.
  unfold stored. intros Hin Hst.
  assert (Hdef : clean_field f ft (default_of ft) = Ok (default_of ft)
                 /\ default_of ft <> VNone).
  { simpl in Hin.
    repeat (destruct Hin as [Hin|Hin];
            [injection Hin as <- <-;
             split; [vm_compute; reflexivity|discriminate]|]).
    contradiction. }
  destruct (dict_get entry f) as [v|]; [|now subst].
  assert (Hv : clean_field f ft v = Ok x ->
               clean_field f ft x = Ok x /\ x <> VNone).
  { clear Hst Hdef.
    destruct (clean_field_kind f ft Hin)
      as [[valid [Hunk He]]|[Hl|[Hs|Hs]]].
    - rewrite !He. intros H. split.
      + exact (clean_enum_fixed _ _ _ Hunk H).
      + apply clean_enum_ok in H. destruct H as [s [-> _]]. discriminate.
    - rewrite !Hl. destruct (items_ok v); [|discriminate].
      intros H. injection H as <-. split.
      + now rewrite items_ok_clean_list, clean_list_fixed.
      + destruct v; discriminate.
    - rewrite !Hs. destruct (str_ok v); [|discriminate].
      intros H. injection H as <-. split; [|discriminate].
      cbn [str_ok]. now rewrite clean_summary_fixed.
    - rewrite !Hs. destruct (str_ok v); [|discriminate].
      intros H. injection H as <-. split; [|discriminate].
      cbn [str_ok]. now rewrite clean_string_fixed. }
  destruct v; try (now apply Hv). now subst.
Qed.

Lemma dict_get_app_notin (d1 d2 : dict) (f : string) :
  ~ In f (keys d1) -> dict_get (d1 ++ d2) f = dict_get d2 f.
Proof.
  induction d1 as [|[k x] d1 IH]; simpl; intros H; [reflexivity|].
  destruct (String.eqb_spec k f) as [->|_]; [tauto|]. apply IH. tauto.
Qed.

Lemma dict_set_new (d : dict) (k : string) (x : value) :
  ~ In k (keys d) -> dict_set d k x = d ++ [(k, x)].
Proof.
  induction d as [|[k' y] d IH]; simpl; intros H; [reflexivity|].
  destruct (String.eqb_spec k' k) as [->|_]; [tauto|]. f_equal. apply IH. tauto.
Qed.

Lemma validate_fields_fixed fields : forall done todo,
  keys todo = map fst fields ->
  NoDup (keys done ++ keys todo) ->
  (forall f ft, In (f, ft) fields ->
     exists x, dict_get (done ++ todo) f = Some x
               /\ clean_field f ft x = Ok x /\ x <> VNone) ->
  validate_fields fields (done ++ todo) done = Ok (done ++ todo).
Proof.
  induction fields as [|[f ft] rest IH]; intros done todo Hkeys Hnd Hfix.
  - destruct todo; [|discriminate]. now rewrite app_nil_r.
  - destruct todo as [|[k y] todo']; [discriminate|].
    simpl in Hkeys. injection Hkeys as -> Hkeys'.
    assert (Hnot : ~ In f (keys done)).
    { intros Hin. apply NoDup_remove_2 in Hnd. apply Hnd.
      apply in_or_app. now left. }
    destruct (Hfix f ft (or_introl eq_refl)) as [x [Hget [Hclean Hne]]].
    rewrite dict_get_app_notin in Hget by exact Hnot.
    simpl in Hget. rewrite String.eqb_refl in Hget. injection Hget as <-.
    cbn [validate_fields].
    rewrite (dict_get_app_notin done ((f, y) :: todo') f Hnot).
    cbn [dict_get]. rewrite String.eqb_refl.
    assert (Hnext : validate_fields rest (done ++ (f, y) :: todo')
                      (dict_set done f y)
                    = Ok (done ++ (f, y) :: todo')).
    { rewrite (dict_set_new done f y Hnot).
      replace (done ++ (f, y) :: todo')
        with ((done ++ [(f, y)]) ++ todo') by now rewrite <- app_assoc.
      apply IH.
      - exact Hkeys'.
      - unfold keys in *. rewrite map_app, <- app_assoc. exact Hnd.
      - intros g gt Hg. rewrite <- app_assoc. apply Hfix. now right. }
    destruct y; try contradiction; rewrite Hclean; exact Hnext.
Qed.

(** Validation is idempotent: a record the validator returned is
    returned unchanged when validated again. *)
Theorem validate_entry_idempotent (entry cleaned : dict) :
  validate_entry entry = Ok cleaned -> validate_entry cleaned = Ok cleaned.
Proof.
  intros H. unfold validate_entry.
  apply (validate_fields_fixed schema [] cleaned).
  - exact (validate_entry_keys _ _ H).
  - simpl. rewrite (validate_entry_keys _ _ H). exact schema_nodup.
  - intros f ft Hin.
    destruct (validate_entry_get _ _ _ _ Hin H) as [x [Hget Hst]].
    exists x. split; [exact Hget|]. exact (stored_fixed _ _ _ _ Hin Hst).
Qed.

Lemma validate_entry_idempotent_witness :
  validate_entry (record_with "https://example.org/a")
  = Ok (record_with "https://example.org/a").
Proof.
  exact (validate_entry_idempotent
           [("title", VStr "Old"); ("url_source", VStr "https://example.org/a")]
           (record_with "https://example.org/a") eq_refl).
Defined.

(** A validated summary splits at periods into at most 5 segments, that
    is, it has at most 4 periods. *)
Theorem validated_summary_has_at_most_four_periods (entry cleaned : dict) :
  validate_entry entry = Ok cleaned ->
  exists s, dict_get cleaned "summary" = Some (VStr s)
            /\ List.length (split "." s) <= 5.
Proof.
  intros H.
  assert (Hin : In ("summary", TStr) schema) by (simpl; tauto).
  destruct (validate_entry_get _ _ _ _ Hin H) as [x [Hget Hst]].
  assert (Hx : x = VStr "unknown" \/ exists v, x = VStr (clean_summary v)).
  { unfold stored in Hst. destruct (dict_get entry "summary") as [v|];
      [|now left].
    destruct v;
      try (right; clean_field_case Hst; injection Hst as <-; eauto).
    now left. }
  destruct Hx as [->|[v ->]].
  - exists "unknown"%string. split; [exact Hget|]. simpl. lia.
  - exists (clean_summary v). split; [exact Hget|].
    destruct (clean_summary_shape v)
      as [[Hlen ->]|[s1 [s2 [s3 [s4 [S1 [S2 [S3 [S4 ->]]]]]]]]].
    + lia.
    + rewrite (proj2 (four_sentences s1 s2 s3 s4 S1 S2 S3 S4)). simpl. lia.
Qed.

Lemma validated_summary_has_at_most_four_periods_witness :
  exists s, dict_get (record_with "https://example.org/a") "summary"
            = Some (VStr s)
            /\ List.length (split "." s) <= 5.
Proof.
  exact (validated_summary_has_at_most_four_periods
           [("title", VStr "Old"); ("url_source", VStr "https://example.org/a")]
           (record_with "https://example.org/a") eq_refl).
Defined.

End ValidatorIdempotence.

(* ===================================================================== *)
(** * Further properties of the processor and the writer *)

Section ProcessorCoverage.

Local Open Scope list_scope.

Arguments validate_entry : simpl never.

Lemma py_eq_str (v : value) (s : string) :
  py_eq v (VStr s) = true -> v = VStr s.
Proof.
  destruct v; simpl; try discriminate. intros H.
  apply String.eqb_eq in H. now subst.
Qed.

Lemma find_link_first_match (pre post : list value) (e : dict)
    (file_name : string) :
  (forall x, In x pre ->
     exists e', x = VDict e' /\ filename_of e' <> VStr file_name) ->
  filename_of e = VStr file_name ->
  find_link (pre ++ VDict e :: post) file_name = Ok (link_of e).
Proof.
  intros Hpre He. induction pre as [|x pre IH]; simpl.
  - fold (filename_of e). rewrite He. simpl. rewrite String.eqb_refl.
    reflexivity.
  - destruct (Hpre x (or_introl eq_refl)) as [e' [-> Hne]]. simpl.
    fold (filename_of e').
    destruct (py_eq (filename_of e') (VStr file_name)) eqn:Heq.
    + apply py_eq_str in Heq. contradiction.
    + apply IH. intros y Hy. apply Hpre. now right.
Qed.

(** The URL of a file is the [link] of the first metadata entry whose
    [filename] is the name of the file (['unknown'] when that entry has
    no link); later entries with the same file name are not looked at. *)
Theorem resolve_url_first_match (d e : dict) (pre post : list value)
    (file_name : string) :
  dict_get d "successful_files" = Some (VList (pre ++ VDict e :: post)) ->
  (forall x, In x pre ->
     exists e', x = VDict e' /\ filename_of e' <> VStr file_name) ->
  filename_of e = VStr file_name ->
  resolve_url (VDict d) file_name = Ok (link_of e).
Proof.
  intros Hget Hpre He. unfold resolve_url.
  assert (Ht : truthy (VDict d) = true)
    by (destruct d; [discriminate|reflexivity]).
  rewrite Ht. unfold py_contains, py_getitem, has_key. rewrite Hget.
  cbn [rbind py_iter]. now apply find_link_first_match.
Qed.

Lemma resolve_url_first_match_witness :
  resolve_url
    (VDict [("successful_files",
             VList ([meta_entry "b.html" url_b]
                    ++ VDict [("filename", VStr "a.html"); ("link", VStr url_a)]
                    :: [meta_entry "a.html" url_c]))])
    "a.html"
  = Ok (VStr url_a).
Proof.
  apply (resolve_url_first_match
           [("successful_files",
             VList ([meta_entry "b.html" url_b]
                    ++ VDict [("filename", VStr "a.html"); ("link", VStr url_a)]
                    :: [meta_entry "a.html" url_c]))]
           [("filename", VStr "a.html"); ("link", VStr url_a)]
           [meta_entry "b.html" url_b] [meta_entry "a.html" url_c] "a.html").
  - reflexivity.
  - intros x [<-|[]].
    exists [("filename", VStr "b.html"); ("link", VStr url_b)].
    split; [reflexivity|discriminate].
  - reflexivity.
Defined.

Lemma find_link_no_match (items : list value) (file_name : string) :
  (forall x, In x items ->
     exists e', x = VDict e' /\ filename_of e' <> VStr file_name) ->
  find_link items file_name = Ok (VStr "unknown").
Proof.
  intros Hall. induction items as [|x items IH]; simpl; [reflexivity|].
  destruct (Hall x (or_introl eq_refl)) as [e' [-> Hne]]. simpl.
  fold (filename_of e').
  destruct (py_eq (filename_of e') (VStr file_name)) eqn:Heq.
  - apply py_eq_str in Heq. contradiction.
  - apply IH. intros y Hy. apply Hall. now right.
Qed.

(** *** The record of a file *)

Lemma tagged_entry_url (source_type : option string) (url : value)
    (f : html_file) (info : value) (d : dict) :
  tagged_entry source_type url f info = Ok d ->
  dict_get d "url_source" = Some url.
Proof.
  unfold tagged_entry. destruct info; try discriminate.
  cbn [py_setitem rbind].
  destruct source_type as [st|]; [destruct (nonempty st)|];
    cbn [py_setitem rbind]; intros H; injection H as <-;
    rewrite !dict_get_set; reflexivity.
Qed.

Lemma outcome_record_url (E : env) (source_type : option string)
    (existing_urls : list value) (f : html_file) (r : dict) :
  In r (record_of (file_outcome E source_type existing_urls f)) ->
  exists url, resolve_url (metadata E) (name f) = Ok url
              /\ dict_get r "url_source" = Some (VStr (stored_url url)).
Proof.
  unfold file_outcome.
  destruct (resolve_url (metadata E) (name f)) as [url|e]; [|contradiction].
  destruct (url_known url existing_urls) as [[|]|e]; try contradiction.
  destruct (parse_html E (path f)) as [text|e]; [|contradiction].
  destruct (too_short text); [contradiction|].
  destruct (truthy (reply_of E (create_extraction_prompt E text)));
    [|contradiction].
  destruct (tagged_entry source_type url f
              (reply_of E (create_extraction_prompt E text))) as [d|e] eqn:Ht;
    [|contradiction].
  cbn [rbind]. destruct (validate_entry d) as [r'|e] eqn:Hv; [|contradiction].
  simpl. intros [<-|[]]. exists url. split; [reflexivity|].
  assert (Hin : In ("url_source", TStr) schema) by (simpl; tauto).
  destruct (validate_entry_get _ _ _ _ Hin Hv) as [x [Hget Hst]].
  rewrite Hget. f_equal. unfold stored in Hst.
  rewrite (tagged_entry_url _ _ _ _ _ Ht) in Hst.
  destruct url;
    try (clean_field_case Hst; injection Hst as <-; reflexivity).
  now subst.
Qed.

(** The [url_source] of every record a run adds is the URL the metadata
    gives for its file, as the validator stores it; what the service
    replied for [url_source] is overwritten.  The file is one of the
    listing. *)
Theorem record_url_is_the_resolved_url (E : env)
    (source_type : option string) (existing_urls : list value)
    (html_files : list html_file) (r : dict) :
  In r (new_records E source_type existing_urls html_files) ->
  exists f url,
    In f html_files
    /\ resolve_url (metadata E) (name f) = Ok url
    /\ dict_get r "url_source" = Some (VStr (stored_url url)).
Proof.
  unfold new_records. rewrite in_flat_map. intros [f [Hf Hr]].
  destruct (outcome_record_url _ _ _ _ _ Hr) as [url [Hu Hg]].
  exists f, url. auto.
Qed.

Lemma record_url_is_the_resolved_url_witness :
  exists f url,
    In f [file_a]
    /\ resolve_url (metadata one_file) (name f) = Ok url
    /\ dict_get
         (match validate_entry
                  [("title", VStr (prompt_of "pages/a.html"));
                   ("status", VStr "Completed");
                   ("url_source", VStr url_a);
                   ("source_file", VStr "pages/a.html")] with
          | Ok d => d
          | Raise _ => []
          end) "url_source"
       = Some (VStr (stored_url url)).
Proof.
  apply (record_url_is_the_resolved_url one_file None [] [file_a]).
  vm_compute. left. reflexivity.
Defined.

(** *** The length threshold and the prompts *)

(** A page whose text has fewer than 100 characters once trimmed changes
    nothing: no prompt is sent, no record is added, nothing is written. *)
Theorem short_page_is_skipped (E : env) (output_path : string)
    (source_type : option string) (existing_urls : list value)
    (f : html_file) (text : string) (s : state) :
  parse_html E (path f) = Ok text ->
  (String.length (strip text) < 100)%nat ->
  snd (process_file E output_path source_type existing_urls f s) = s.
Proof.
  intros Hparse Hlen. unfold process_file, bind, lift, ret.
  destruct (resolve_url (metadata E) (name f)) as [url|e]; [|reflexivity].
  destruct (url_known url existing_urls) as [[|]|e]; try reflexivity.
  rewrite Hparse. apply Nat.ltb_lt in Hlen. rewrite Hlen, orb_true_r.
  reflexivity.
Qed.

Lemma short_page_is_skipped_witness :
  snd (process_file
         (Env (fun rows => rows) "Extract: " " End." (Ok [file_a]) VNone
              (fun _ => Ok "   too short   ") (fun p => Ok (reply p))
              (fun _ => true) "2024-01-01 00:00:00")
         "out/nbs.csv" None [] file_a (initial Absent))
  = initial Absent.
Proof.
  apply (short_page_is_skipped _ "out/nbs.csv" None [] file_a
           "   too short   " (initial Absent)).
  - reflexivity.
  - vm_compute. lia.
Defined.

Lemma outcome_prompt (E : env) (source_type : option string)
    (existing_urls : list value) (f : html_file) (p : string) :
  In p (prompts_of (file_outcome E source_type existing_urls f)) ->
  exists text,
    parse_html E (path f) = Ok text
    /\ (100 <= String.length (strip text))%nat
    /\ p = create_extraction_prompt E text.
Proof.
  unfold file_outcome.
  destruct (resolve_url (metadata E) (name f)) as [url|e]; [|contradiction].
  destruct (url_known url existing_urls) as [[|]|e]; try contradiction.
  destruct (parse_html E (path f)) as [text|e]; [|contradiction].
  unfold too_short.
  destruct (negb (nonempty text)); [contradiction|]. cbn [orb].
  destruct (String.length (strip text) <? 100)%nat eqn:Hlen; [contradiction|].
  apply Nat.ltb_ge in Hlen.
  destruct (truthy (reply_of E (create_extraction_prompt E text)));
    simpl; intros [<-|[]]; eauto.
Qed.

(** Every prompt the loop sends to the service is the prompt built from
    the text of a listed file, and that text has at least 100 characters
    once trimmed. *)
Theorem every_prompt_comes_from_a_long_page (E : env) (output_path : string)
    (source_type : option string) (existing_urls : list value)
    (html_files : list html_file) (s : state) (p : string) :
  In p (llm_log (snd (process_files E output_path source_type existing_urls
                                    html_files s))) ->
  In p (llm_log s)
  \/ exists f text,
       In f html_files
       /\ parse_html E (path f) = Ok text
       /\ (100 <= String.length (strip text))%nat
       /\ p = (prompt_head E ++ text ++ prompt_tail E)%string.
Proof.
  rewrite process_files_fold. cbn [snd]. rewrite loop_llm_log, in_app_iff.
  intros [H|H]; [now left|right].
  apply in_flat_map in H. destruct H as [f [Hf Hp]].
  destruct (outcome_prompt _ _ _ _ _ Hp) as [text [Ht [Hl ->]]].
  exists f, text. auto.
Qed.

Lemma every_prompt_comes_from_a_long_page_witness :
  In (prompt_of "pages/a.html") (llm_log (initial Absent))
  \/ exists f text,
       In f [file_a]
       /\ parse_html one_file (path f) = Ok text
       /\ (100 <= String.length (strip text))%nat
       /\ prompt_of "pages/a.html"
          = (prompt_head one_file ++ text ++ prompt_tail one_file)%string.
Proof.
  apply (every_prompt_comes_from_a_long_page one_file "out/nbs.csv" None []
           [file_a] (initial Absent)).
  vm_compute. left. reflexivity.
Defined.

(** The service is called at most once for each listed file. *)
Theorem at_most_one_call_per_file (E : env) (output_path : string)
    (source_type : option string) (existing_urls : list value)
    (html_files : list html_file) (s : state) :
  List.length (llm_log (snd (process_files E output_path source_type
                                           existing_urls html_files s)))
  <= List.length (llm_log s) + List.length html_files.
Proof.
  rewrite process_files_fold. cbn [snd]. rewrite loop_llm_log, length_app.
  apply Nat.add_le_mono_l.
  induction html_files as [|f rest IH]; simpl; [lia|].
  rewrite length_app.
  destruct (file_outcome E source_type existing_urls f); simpl; lia.
Qed.

(** *** Files without a URL *)

(** Files whose URL resolves to ['unknown'] (no metadata document, or no
    entry for the file) are never skipped: what they add does not depend
    on the URLs already in the dataset. *)
Theorem unresolved_files_are_never_skipped (E : env)
    (source_type : option string) (existing_urls : list value)
    (html_files : list html_file) :
  (forall f, In f html_files ->
     resolve_url (metadata E) (name f) = Ok (VStr "unknown")) ->
  new_records E source_type existing_urls html_files
  = new_records E source_type [] html_files.
Proof.
  intros Hall. unfold new_records.
  induction html_files as [|f rest IH]; [reflexivity|].
  cbn [flat_map]. rewrite IH by (intros g Hg; apply Hall; now right).
  f_equal. unfold file_outcome.
  rewrite (Hall f (or_introl eq_refl)). reflexivity.
Qed.

Lemma unresolved_files_are_never_skipped_witness :
  new_records no_files None [VStr "unknown"; VStr url_a] [file_a]
  = new_records no_files None [] [file_a].
Proof.
  apply (unresolved_files_are_never_skipped no_files None
           [VStr "unknown"; VStr url_a] [file_a]).
  intros f [<-|[]]. reflexivity.
Defined.

End ProcessorCoverage.

Section RunCoverage.

Local Open Scope list_scope.

Arguments validate_entry : simpl never.

(** *** The writer *)

Lemma save_data_returns (E : env) (df : list dict)
    (output_path format : string) (s : state) :
  fst (save_data E df output_path format s) = Ok tt ->
  In format supported_formats
  /\ output_file (snd (save_data E df output_path format s))
     = written format df
  /\ dictionary_file (snd (save_data E df output_path format s)) = true
  /\ (has_output_dir output_path = true ->
      made_dirs (snd (save_data E df output_path format s)) = true).
Proof.
  unfold save_data, written, supported_formats, bind, ret, raise, attempt.
  destruct (String.eqb format "csv") eqn:Hc;
    [|destruct (String.eqb format "json") eqn:Hj;
      [|destruct (String.eqb format "excel") eqn:Hx]];
    rewrite ?String.eqb_eq in *;
    destruct (has_output_dir output_path); cbn [fst snd clock];
    repeat match goal with
           | |- context [io_ok E ?n] => destruct (io_ok E n)
           end;
    cbn; intros H; try discriminate; subst; intuition (auto; discriminate).
Qed.

(** When [save_data] returns, the format was one of the three supported
    ones, the file at the output path holds the frame in that format,
    the field dictionary is written, and the directory of the output
    path exists when the path names one. *)
Theorem save_data_success (E : env) (df : list dict)
    (output_path format : string) (s : state) :
  fst (save_data E df output_path format s) = Ok tt ->
  In format supported_formats
  /\ output_file (snd (save_data E df output_path format s))
     = written format df
  /\ dictionary_file (snd (save_data E df output_path format s)) = true
  /\ (has_output_dir output_path = true ->
      made_dirs (snd (save_data E df output_path format s)) = true).
Proof. apply save_data_returns. Qed.

Lemma save_data_success_witness :
  In "json" supported_formats
  /\ output_file (snd (save_data one_file [record_with url_a] "out/nbs.json"
                                 "json" (initial Absent)))
     = written "json" [record_with url_a]
  /\ dictionary_file (snd (save_data one_file [record_with url_a]
                                     "out/nbs.json" "json" (initial Absent)))
     = true
  /\ (has_output_dir "out/nbs.json" = true ->
      made_dirs (snd (save_data one_file [record_with url_a] "out/nbs.json"
                                "json" (initial Absent))) = true).
Proof.
  apply (save_data_success one_file [record_with url_a] "out/nbs.json" "json"
           (initial Absent)).
  reflexivity.
Defined.

Lemma save_csv_dictionary (E : env) (df : list dict) (output_path : string)
    (s : state) :
  (forall n, io_ok E n = true) ->
  dictionary_file (snd (save_data E df output_path "csv" s)) = true.
Proof.
  intros Hio. unfold save_data, bind, ret, raise, attempt.
  destruct (has_output_dir output_path); simpl; rewrite ?Hio; simpl;
    rewrite ?Hio; simpl; rewrite ?Hio; reflexivity.
Qed.

Lemma save_data_dictionary_kept (E : env) (df : list dict)
    (output_path format : string) (s : state) :
  dictionary_file s = true ->
  dictionary_file (snd (save_data E df output_path format s)) = true.
Proof.
  intros Hd. unfold save_data, bind, ret, raise, attempt.
  repeat match goal with
         | |- context [if ?b then _ else _] => destruct b; simpl
         end; auto.
Qed.

(** *** The checkpoint *)

Lemma step_dictionary (E : env) (output_path : string)
    (source_type : option string) (existing_urls : list value) (s : state)
    (f : html_file) :
  (forall n, io_ok E n = true) ->
  dictionary_file (step E output_path source_type existing_urls s f)
  = match record_of (file_outcome E source_type existing_urls f) with
    | [] => dictionary_file s
    | _ => true
    end.
Proof.
  intros Hio. unfold step, apply_outcome.
  destruct (file_outcome E source_type existing_urls f) as [|prompt [r|]];
    simpl; try reflexivity.
  now apply save_csv_dictionary.
Qed.

Lemma step_dictionary_kept (E : env) (output_path : string)
    (source_type : option string) (existing_urls : list value) (s : state)
    (f : html_file) :
  dictionary_file s = true ->
  dictionary_file (step E output_path source_type existing_urls s f) = true.
Proof.
  intros Hd. unfold step, apply_outcome.
  destruct (file_outcome E source_type existing_urls f) as [|prompt [r|]];
    simpl; try exact Hd.
  now apply save_data_dictionary_kept.
Qed.

Lemma loop_dictionary_kept (E : env) (output_path : string)
    (source_type : option string) (existing_urls : list value)
    (html_files : list html_file) : forall s,
  dictionary_file s = true ->
  dictionary_file (fold_left (step E output_path source_type existing_urls)
                             html_files s) = true.
Proof.
  induction html_files as [|f rest IH]; intros s Hd; simpl; [exact Hd|].
  apply IH. now apply step_dictionary_kept.
Qed.

Lemma loop_dictionary (E : env) (output_path : string)
    (source_type : option string) (existing_urls : list value)
    (html_files : list html_file) :
  (forall n, io_ok E n = true) ->
  new_records E source_type existing_urls html_files <> [] ->
  forall s,
  dictionary_file (fold_left (step E output_path source_type existing_urls)
                             html_files s) = true.
Proof.
  intros Hio. induction html_files as [|f rest IH]; intros Hne s.
  - now contradiction Hne.
  - cbn [fold_left].
    destruct (record_of (file_outcome E source_type existing_urls f))
      as [|r rs] eqn:Hr.
    + apply IH. unfold new_records in Hne. cbn [flat_map] in Hne.
      now rewrite Hr in Hne.
    + apply loop_dictionary_kept. rewrite (step_dictionary _ _ _ _ _ _ Hio).
      now rewrite Hr.
Qed.

(** With a file system that does not fail, once the loop has added a
    record the dataset file holds exactly the records gathered so far,
    loaded and new, and the field dictionary is written.  As the loop
    over a listing goes through the loop over each of its prefixes, this
    holds after every file. *)
Theorem checkpoint_holds_all_records (E : env) (output_path : string)
    (source_type : option string) (existing_urls : list value)
    (html_files : list html_file) (s : state) :
  (forall n, io_ok E n = true) ->
  new_records E source_type existing_urls html_files <> [] ->
  output_file (snd (process_files E output_path source_type existing_urls
                                  html_files s))
  = CsvTable (entries (snd (process_files E output_path source_type
                                          existing_urls html_files s)))
  /\ dictionary_file (snd (process_files E output_path source_type
                                         existing_urls html_files s)) = true.
Proof.
  intros Hio Hne. rewrite process_files_fold. cbn [snd]. split.
  - rewrite (loop_output_reliable _ _ _ _ _ Hio), loop_entries.
    destruct (new_records E source_type existing_urls html_files);
      [contradiction|reflexivity].
  - now apply loop_dictionary.
Qed.

Lemma checkpoint_holds_all_records_witness :
  output_file (snd (process_files three_files "out/nbs.csv" None []
                                  [file_a; file_b] (initial Absent)))
  = CsvTable (entries (snd (process_files three_files "out/nbs.csv" None []
                                          [file_a; file_b] (initial Absent))))
  /\ dictionary_file (snd (process_files three_files "out/nbs.csv" None []
                                         [file_a; file_b] (initial Absent)))
     = true.
Proof.
  apply (checkpoint_holds_all_records three_files "out/nbs.csv" None []
           [file_a; file_b] (initial Absent)).
  - reflexivity.
  - vm_compute. discriminate.
Defined.

(** The loop over a listing is the loop over a prefix followed by the
    loop over the rest. *)
Lemma process_files_app (E : env) (output_path : string)
    (source_type : option string) (existing_urls : list value)
    (pre post : list html_file) (s : state) :
  snd (process_files E output_path source_type existing_urls (pre ++ post) s)
  = snd (process_files E output_path source_type existing_urls post
           (snd (process_files E output_path source_type existing_urls
                               pre s))).
Proof.
  rewrite !process_files_fold. cbn [snd]. apply fold_left_app.
Qed.

(** *** Files that add nothing *)

Lemma save_nothing_same_disk (E : env) (output_path : string)
    (source_type : option string) (existing_urls : list value) (s : state)
    (f : html_file) :
  record_of (file_outcome E source_type existing_urls f) = [] ->
  same_disk s (step E output_path source_type existing_urls s f).
Proof.
  unfold step, apply_outcome, same_disk.
  destruct (file_outcome E source_type existing_urls f) as [|prompt [r|]];
    simpl; try discriminate; tauto.
Qed.

Lemma loop_nothing_same_disk (E : env) (output_path : string)
    (source_type : option string) (existing_urls : list value)
    (html_files : list html_file) : forall s,
  new_records E source_type existing_urls html_files = [] ->
  same_disk s (fold_left (step E output_path source_type existing_urls)
                         html_files s).
Proof.
  induction html_files as [|f rest IH]; intros s Hnil.
  - unfold same_disk. simpl. tauto.
  - unfold new_records in Hnil. cbn [flat_map] in Hnil.
    apply app_eq_nil in Hnil. destruct Hnil as [Hf Hrest].
    cbn [fold_left].
    pose proof (save_nothing_same_disk E output_path source_type
                  existing_urls s f Hf) as H1.
    pose proof (IH (step E output_path source_type existing_urls s f) Hrest)
      as H2.
    unfold same_disk in *. intuition congruence.
Qed.

(** A run that loads nothing and adds nothing returns the empty frame
    and writes nothing: no dataset, no dictionary, no statistics, not
    even an attempt.  This includes the run over an empty directory with
    no dataset yet, where the success rate is never computed. *)
Theorem run_without_records_writes_nothing (E : env) (output_path : string)
    (source_type : option string) (s : state)
    (html_files : list html_file) :
  listing E = Ok html_files ->
  load_existing_data E (output_file s) = [] ->
  new_records E source_type [] html_files = [] ->
  fst (process_directory E output_path source_type s) = Ok []
  /\ same_disk s (snd (process_directory E output_path source_type s)).
Proof.
  intros Hlist Hload Hnil.
  unfold process_directory, bind, get_output, lift.
  rewrite Hload. cbn [is_empty negb]. cbv beta iota delta [set_entries].
  rewrite Hlist, process_files_fold.
  set (s0 := State (output_file s) (dictionary_file s) (stats_file s)
                   (made_dirs s) (llm_log s) (clock s) []).
  pose proof (loop_nothing_same_disk E output_path source_type [] html_files
                s0 Hnil) as Hsame.
  pose proof (loop_entries E output_path source_type [] html_files s0) as Hen.
  rewrite Hnil in Hen. cbn [entries s0 app] in Hen.
  unfold get_entries. rewrite Hen. cbn [is_empty ret fst snd].
  split; [reflexivity|]. unfold same_disk in *. exact Hsame.
Qed.

Lemma run_without_records_writes_nothing_witness :
  fst (process_directory no_files "out/nbs.csv" None (initial Absent)) = Ok []
  /\ same_disk (initial Absent)
       (snd (process_directory no_files "out/nbs.csv" None (initial Absent))).
Proof.
  apply (run_without_records_writes_nothing no_files "out/nbs.csv" None
           (initial Absent) []); reflexivity.
Defined.

(** *** A dataset without the URL column *)

(** When the dataset at the output path has rows but no [url_source]
    column, the run raises [KeyError] before it lists the directory; no
    file is processed and nothing is written. *)
Theorem dataset_without_url_column_stops_the_run (E : env)
    (output_path : string) (source_type : option string) (s : state) :
  load_existing_data E (output_file s) <> [] ->
  has_column (load_existing_data E (output_file s)) "url_source" = false ->
  process_directory E output_path source_type s
  = (Raise (KeyError "url_source"), s).
Proof.
  intros Hne Hcol. unfold process_directory, bind, get_output, lift.
  destruct (load_existing_data E (output_file s)) as [|row rows] eqn:Hload;
    [contradiction|].
  cbn [is_empty negb]. unfold url_set. rewrite Hcol. reflexivity.
Qed.

Lemma dataset_without_url_column_stops_the_run_witness :
  process_directory one_file "out/nbs.csv" None
    (initial (CsvTable [[("title", VStr "Old")]]))
  = (Raise (KeyError "url_source"),
     initial (CsvTable [[("title", VStr "Old")]])).
Proof.
  apply (dataset_without_url_column_stops_the_run one_file "out/nbs.csv" None
           (initial (CsvTable [[("title", VStr "Old")]]))).
  - discriminate.
  - reflexivity.
Defined.

(** *** The returned frame *)

Lemma set_column_get (df : list dict) (c : string) (x : value) (row : dict) :
  In row (set_column df c x) -> dict_get row c = Some x.
Proof.
  unfold set_column. rewrite in_map_iff. intros [r [<- _]].
  now rewrite dict_get_set, String.eqb_refl.
Qed.

Lemma set_column_other (df : list dict) (c c' : string) (x y : value) :
  c <> c' ->
  (forall row, In row df -> dict_get row c' = Some y) ->
  forall row, In row (set_column df c x) -> dict_get row c' = Some y.
Proof.
  intros Hne Hall row. unfold set_column. rewrite in_map_iff.
  intros [r [<- Hr]]. rewrite dict_get_set.
  destruct (String.eqb_spec c c') as [->|_]; [contradiction|now apply Hall].
Qed.

(** Every row of the frame a run returns carries the time stamp of the
    run in [processed_date] and, when a source type was given, that
    source type in [data_source]; this holds for the rows loaded from
    the dataset as well as for the new ones. *)
Theorem returned_frame_is_stamped (E : env) (output_path : string)
    (source_type : option string) (s : state) (df : list dict) (row : dict) :
  fst (process_directory E output_path source_type s) = Ok df ->
  In row df ->
  dict_get row "processed_date" = Some (VStr (now E))
  /\ (forall st, source_type = Some st -> nonempty st = true ->
        dict_get row "data_source" = Some (VStr st)).
Proof.
  unfold process_directory, bind, get_output, lift.
  destruct (if negb (is_empty (load_existing_data E (output_file s)))
            then url_set (load_existing_data E (output_file s))
            else Ok []) as [existing_urls|e]; [|discriminate].
  cbv beta iota delta [set_entries].
  destruct (listing E) as [html_files|e]; [|discriminate].
  rewrite process_files_fold.
  match goal with
  | |- context [fold_left ?step ?l ?s0] => set (s1 := fold_left step l s0)
  end.
  unfold get_entries, ret, raise.
  destruct (is_empty (entries s1)).
  - cbn [fst]. intros H. injection H as <-. contradiction.
  - destruct (ensure_fields schema (entries s1)) as [df0|e];
      [|discriminate].
    destruct (List.length html_files =? 0)%nat; [discriminate|].
    unfold write_stats, try_except. cbn [fst].
    intros H. injection H as <-. intros Hrow. split.
    + destruct (str_truthy source_type).
      * revert row Hrow. apply set_column_other; [discriminate|].
        intros row. apply set_column_get.
      * now apply set_column_get in Hrow.
    + intros st -> Hst. cbn [str_truthy] in Hrow. rewrite Hst in Hrow.
      now apply set_column_get in Hrow.
Qed.

Lemma returned_frame_is_stamped_witness :
  dict_get (dict_set (dict_set (record_with url_a) "processed_date"
                               (VStr "2024-01-01 00:00:00"))
                     "data_source" (VStr "oppla"))
           "processed_date"
  = Some (VStr (now one_file))
  /\ (forall st, Some "oppla"%string = Some st -> nonempty st = true ->
        dict_get (dict_set (dict_set (record_with url_a) "processed_date"
                                     (VStr "2024-01-01 00:00:00"))
                           "data_source" (VStr "oppla"))
                 "data_source"
        = Some (VStr st)).
Proof.
  apply (returned_frame_is_stamped one_file "out/nbs.csv" (Some "oppla"%string)
           (initial (CsvTable [record_with url_a]))
           [dict_set (dict_set (record_with url_a) "processed_date"
                               (VStr "2024-01-01 00:00:00"))
                     "data_source" (VStr "oppla")]).
  - vm_compute. reflexivity.
  - left. reflexivity.
Defined.

(** *** Witnesses of the loop guarantees *)

Lemma statistics_written_witness :
  total_files (Stats 3 2 "2024-01-01 00:00:00" "unknown")
  = List.length [file_a; file_b; file_c]
  /\ processed_files (Stats 3 2 "2024-01-01 00:00:00" "unknown")
     = List.length (load_existing_data three_files
                      (output_file (initial Absent)))
       + List.length (new_records three_files None []
                                  [file_a; file_b; file_c]).
Proof.
  apply (statistics_written three_files "out/nbs.csv" None (initial Absent) []
           [file_a; file_b; file_c]
           (Stats 3 2 "2024-01-01 00:00:00" "unknown"));
    vm_compute; reflexivity.
Defined.

Lemma new_records_schema_keys_witness :
  keys (match validate_entry
                [("title", VStr (prompt_of "pages/a.html"));
                 ("status", VStr "Completed");
                 ("url_source", VStr url_a);
                 ("data_source", VStr "oppla");
                 ("source_file", VStr "pages/a.html")] with
        | Ok d => d
        | Raise _ => []
        end)
  = schema_fields.
Proof.
  apply (new_records_schema_keys one_file (Some "oppla"%string) [] [file_a]).
  vm_compute. left. reflexivity.
Defined.

End RunCoverage.

(* ===================================================================== *)
(** * Properties of the scrapers *)

Section FileNames.

Lemma all_chars_app (p : ascii -> bool) (a b : string) :
  all_chars p (a ++ b) = all_chars p a && all_chars p b.
Proof.
  induction a as [|c a IH]; simpl; [reflexivity|].
  now rewrite IH, andb_assoc.
Qed.

Lemma all_chars_no_char (sep : ascii) (s : string) :
  all_chars (fun c => negb (Ascii.eqb sep c)) s = true ->
  has_char sep s = false.
Proof.
  induction s as [|c s IH]; simpl; [reflexivity|].
  intros H. apply andb_prop in H. destruct H as [Hc Hs].
  apply negb_true_iff in Hc. now rewrite Hc, (IH Hs).
Qed.

Lemma all_chars_weaken (p q : ascii -> bool) (s : string) :
  (forall c, p c = true -> q c = true) ->
  all_chars p s = true -> all_chars q s = true.
Proof.
  intros Hpq. induction s as [|c s IH]; simpl; [reflexivity|].
  intros H. apply andb_prop in H. destruct H as [Hc Hs].
  now rewrite (Hpq c Hc), (IH Hs).
Qed.

Lemma digits_chars (p : ascii -> bool) (d : Decimal.uint) :
  (forall c, In c ["0"; "1"; "2"; "3"; "4"; "5"; "6"; "7"; "8"; "9"]%char ->
             p c = true) ->
  all_chars p (NilEmpty.string_of_uint d) = true.
Proof.
  intros Hp. induction d; simpl; rewrite ?IHd, ?andb_true_r;
    try reflexivity; apply Hp; simpl; tauto.
Qed.

Lemma zeros_chars (p : ascii -> bool) (k : nat) :
  p "0"%char = true -> all_chars p (zeros k) = true.
Proof. intros Hp. induction k; simpl; [reflexivity|now rewrite Hp]. Qed.

(** The decimal digits of a natural number. *)
Lemma int_str_uint (n : nat) :
  exists u, int_str (Z.of_nat n) = NilEmpty.string_of_uint u
            /\ Z.of_int (Decimal.Pos u) = Z.of_nat n.
Proof.
  unfold int_str. pose proof (DecimalZ.of_to (Z.of_nat n)) as Hof.
  destruct (Z.of_nat n) as [|q|q] eqn:Hz.
  - exists (Decimal.D0 Decimal.Nil). split; reflexivity.
  - change (Z.to_int (Z.pos q)) with (Decimal.Pos (Pos.to_uint q)) in *.
    destruct (Pos.to_uint q) as [|u|u|u|u|u|u|u|u|u|u] eqn:Hu;
      try (eexists; split; [reflexivity|exact Hof]).
    discriminate Hof.
  - lia.
Qed.

Lemma number_of_zeros (k : nat) (s : string) :
  number_of (zeros k ++ s) = number_of s.
Proof.
  induction k as [|k IH]; [reflexivity|].
  unfold number_of in *. simpl.
  destruct (NilEmpty.uint_of_string (zeros k ++ s)) as [u|];
    destruct (NilEmpty.uint_of_string s) as [u'|]; simpl in *;
    try discriminate; try reflexivity.
  exact IH.
Qed.

Lemma number_of_format (n : nat) :
  number_of (format_03d n) = Some (Z.of_nat n).
Proof.
  unfold format_03d. rewrite number_of_zeros.
  destruct (int_str_uint n) as [u [-> Hu]].
  unfold number_of. rewrite NilEmpty.usu. simpl. now rewrite <- Hu.
Qed.

Lemma format_chars (p : ascii -> bool) (n : nat) :
  (forall c, In c ["0"; "1"; "2"; "3"; "4"; "5"; "6"; "7"; "8"; "9"]%char ->
             p c = true) ->
  all_chars p (format_03d n) = true.
Proof.
  intros Hp. unfold format_03d. rewrite all_chars_app.
  destruct (int_str_uint n) as [u [-> _]].
  rewrite zeros_chars by (apply Hp; simpl; tauto).
  now rewrite digits_chars.
Qed.

Lemma format_no_underscore (n : nat) : has_char "_" (format_03d n) = false.
Proof.
  apply all_chars_no_char, format_chars.
  intros c Hc. simpl in Hc.
  repeat (destruct Hc as [<-|Hc]; [reflexivity|]). contradiction.
Qed.

(** The index of a project can be read off the name of its file. *)
Lemma make_filename_index (i j : nat) (t u : string) :
  make_filename i t = make_filename j u -> i = j.
Proof.
  unfold make_filename. intros H.
  apply (f_equal (split "_")) in H.
  change (format_03d (i + 1) ++ "_" ++ safe_title t ++ ".html")
    with (format_03d (i + 1) ++ String "_" (safe_title t ++ ".html")) in H.
  change (format_03d (j + 1) ++ "_" ++ safe_title u ++ ".html")
    with (format_03d (j + 1) ++ String "_" (safe_title u ++ ".html")) in H.
  rewrite !split_app_sep in H by apply format_no_underscore.
  injection H as H _. apply (f_equal number_of) in H.
  rewrite !number_of_format in H. injection H as H. lia.
Qed.

Lemma keep_chars_all (p : ascii -> bool) (s : string) :
  all_chars p (keep_chars p s) = true.
Proof.
  induction s as [|c s IH]; simpl; [reflexivity|].
  destruct (p c) eqn:Hc; simpl; [now rewrite Hc|exact IH].
Qed.

Lemma rstrip_all (p : ascii -> bool) (s : string) :
  all_chars p s = true -> all_chars p (rstrip s) = true.
Proof.
  induction s as [|c s IH]; simpl; [reflexivity|].
  intros H. apply andb_prop in H. destruct H as [Hc Hs].
  specialize (IH Hs).
  destruct (rstrip s); simpl in *.
  - destruct (is_space c); simpl; [reflexivity|now rewrite Hc].
  - now rewrite Hc.
Qed.

Lemma take_all (p : ascii -> bool) (n : nat) : forall s,
  all_chars p s = true -> all_chars p (take n s) = true.
Proof.
  induction n as [|n IH]; intros [|c s]; simpl; try reflexivity.
  intros H. apply andb_prop in H. destruct H as [Hc Hs].
  now rewrite Hc, (IH s Hs).
Qed.

Lemma take_length (n : nat) : forall s, String.length (take n s) <= n.
Proof.
  induction n as [|n IH]; intros [|c s]; simpl; try lia.
  specialize (IH s). lia.
Qed.

Lemma safe_char_replaced (c : ascii) :
  safe_char c = true ->
  name_char (if Ascii.eqb c " " then "_"%char else c) = true.
Proof.
  destruct c as [[] [] [] [] [] [] [] []]; intros H;
    first [reflexivity | discriminate H].
Qed.

Lemma replace_space_all (s : string) :
  all_chars safe_char s = true ->
  all_chars name_char (replace_char " " "_" s) = true.
Proof.
  induction s as [|c s IH]; simpl; [reflexivity|].
  intros H. apply andb_prop in H. destruct H as [Hc Hs].
  now rewrite (safe_char_replaced c Hc), (IH Hs).
Qed.

Lemma safe_title_chars (t : string) :
  all_chars name_char (safe_title t) = true.
Proof.
  unfold safe_title. apply take_all, replace_space_all, rstrip_all,
    keep_chars_all.
Qed.

Lemma name_char_no_slash (s : string) :
  all_chars name_char s = true -> has_char "/" s = false.
Proof.
  intros H. apply all_chars_no_char.
  revert H. apply all_chars_weaken.
  intros c. destruct c as [[] [] [] [] [] [] [] []]; intros H;
    first [reflexivity | discriminate H].
Qed.

(** The name of a downloaded file is made of letters, digits, hyphens,
    underscores and the period of its extension: it holds no slash and
    no white space, whatever the title of the project; the part taken
    from the title has at most 80 characters. *)
Theorem downloaded_file_name_is_safe (i : nat) (t : string) :
  all_chars name_char (make_filename i t) = true
  /\ has_char "/" (make_filename i t) = false
  /\ String.length (safe_title t) <= 80.
Proof.
  assert (H : all_chars name_char (make_filename i t) = true).
  { unfold make_filename. rewrite !all_chars_app, safe_title_chars.
    rewrite format_chars; [reflexivity|].
    intros c Hc. simpl in Hc.
    repeat (destruct Hc as [<-|Hc]; [reflexivity|]). contradiction. }
  split; [exact H|]. split; [now apply name_char_no_slash|].
  apply take_length.
Qed.

End FileNames.

Section Downloads.

Local Open Scope list_scope.

Variable F : files.
Variable page : project -> string + string.
Variable output_dir : string.

Local Abbreviation download_one := (Download.download_one F page output_dir).
Local Abbreviation download_from := (Download.download_from F page output_dir).

Lemma download_one_count (i : nat) (p : project) (d : downloads) :
  List.length (successful_downloads (download_one i p d))
  + List.length (failed_downloads (download_one i p d))
  = S (List.length (successful_downloads d)
       + List.length (failed_downloads d)).
Proof.
  unfold Download.download_one. destruct (page p) as [text|error].
  - destruct (write_ok F _); simpl; rewrite length_app; simpl; lia.
  - simpl. rewrite length_app. simpl. lia.
Qed.

Lemma download_from_count (projects : list project) : forall i d,
  List.length (successful_downloads (download_from i projects d))
  + List.length (failed_downloads (download_from i projects d))
  = List.length (successful_downloads d) + List.length (failed_downloads d)
    + List.length projects.
Proof.
  induction projects as [|p rest IH]; intros i d; simpl; [lia|].
  rewrite IH, download_one_count. lia.
Qed.

Lemma download_one_written (i : nat) (p : project) (d : downloads)
    (x : string * string) :
  In x (written_files d) -> In x (written_files (download_one i p d)).
Proof.
  unfold Download.download_one. destruct (page p) as [text|error];
    [destruct (write_ok F _)|]; simpl; auto.
  intros H. apply in_or_app. now left.
Qed.

Lemma download_from_written (projects : list project) : forall i d x,
  In x (written_files d) -> In x (written_files (download_from i projects d)).
Proof.
  induction projects as [|p rest IH]; intros i d x H; simpl; [exact H|].
  apply IH. now apply download_one_written.
Qed.

(** Every entry of the list of successes comes from a project of the
    list, at its index; the file it names was written with the text of
    the page. *)
Lemma download_from_success (projects : list project) : forall i d e,
  In e (successful_downloads (download_from i projects d)) ->
  In e (successful_downloads d)
  \/ exists k p text,
       nth_error projects k = Some p
       /\ page p = inl text
       /\ e = success_entry p (make_filename (i + k) (title p))
                (path_join output_dir (make_filename (i + k) (title p)))
       /\ In (path_join output_dir (make_filename (i + k) (title p)), text)
             (written_files (download_from i projects d)).
Proof.
  induction projects as [|p rest IH]; intros i d e H; simpl in *; [now left|].
  destruct (IH (S i) (download_one i p d) e H)
    as [Hin|[k [q [text [Hk [Hp [He Hw]]]]]]].
  - unfold Download.download_one in Hin.
    destruct (page p) as [text|error] eqn:Hp; [|now left].
    destruct (write_ok F (path_join output_dir (make_filename i (title p))))
      eqn:Hw; [|now left].
    simpl in Hin. apply in_app_or in Hin. destruct Hin as [Hin|[<-|[]]];
      [now left|].
    right. exists 0, p, text. rewrite Nat.add_0_r.
    repeat split; try reflexivity; try exact Hp.
    apply download_from_written. unfold Download.download_one.
    rewrite Hp, Hw. simpl. apply in_or_app. right. now left.
  - right. exists (S k), q, text. rewrite Nat.add_succ_r.
    repeat split; assumption.
Qed.

Lemma download_one_names (i : nat) (p : project) (d : downloads) :
  NoDup (map entry_filename (successful_downloads d)) ->
  (forall e, In e (successful_downloads d) ->
     exists k t, k < i /\ entry_filename e = VStr (make_filename k t)) ->
  NoDup (map entry_filename (successful_downloads (download_one i p d)))
  /\ (forall e, In e (successful_downloads (download_one i p d)) ->
        exists k t, k < S i /\ entry_filename e = VStr (make_filename k t)).
Proof.
  intros Hnd Hlt.
  assert (Hweak : forall e, In e (successful_downloads d) ->
            exists k t, k < S i /\ entry_filename e = VStr (make_filename k t)).
  { intros e He. destruct (Hlt e He) as [k [t [Hk Hf]]].
    exists k, t. split; [lia|exact Hf]. }
  unfold Download.download_one.
  destruct (page p) as [text|error]; [|now split].
  destruct (write_ok F _); [|now split]. simpl. split.
  - rewrite map_app. simpl.
    apply NoDup_app; try assumption.
    + constructor; [intros []|constructor].
    + intros x Hx [Heq|[]]. apply in_map_iff in Hx.
      destruct Hx as [e [Hfe He]]. destruct (Hlt e He) as [k [t [Hk Hf]]].
      rewrite Hf in Hfe. rewrite <- Hfe in Heq.
      unfold entry_filename, filename_of in Heq. simpl in Heq.
      injection Heq as Heq. apply make_filename_index in Heq. lia.
  - intros e He. apply in_app_or in He. destruct He as [He|[<-|[]]].
    + now apply Hweak.
    + exists i, (title p). split; [lia|reflexivity].
Qed.

Lemma download_from_names (projects : list project) : forall i d,
  NoDup (map entry_filename (successful_downloads d)) ->
  (forall e, In e (successful_downloads d) ->
     exists k t, k < i /\ entry_filename e = VStr (make_filename k t)) ->
  NoDup (map entry_filename
           (successful_downloads (download_from i projects d))).
Proof.
  induction projects as [|p rest IH]; intros i d Hnd Hlt; simpl; [exact Hnd|].
  destruct (download_one_names i p d Hnd Hlt) as [Hnd' Hlt'].
  now apply IH.
Qed.

(** A download accounts for every project: each one is in exactly one of
    the two lists, so the lists together are as long as the list of
    projects, and that is the [total_projects] of both metadata
    documents. *)
Theorem download_accounts_for_every_project (projects : list project)
    (d : downloads) (W : Oppla.web) (S : Unacity.site) :
  download F page output_dir projects = Ok d ->
  List.length (successful_downloads d) + List.length (failed_downloads d)
  = List.length projects
  /\ dict_get (Oppla.metadata_of W (successful_downloads d)
                                 (failed_downloads d)) "total_projects"
     = Some (VInt (Z.of_nat (List.length projects)))
  /\ dict_get (Unacity.metadata_of S (successful_downloads d)
                                   (failed_downloads d)) "total_projects"
     = Some (VInt (Z.of_nat (List.length projects))).
Proof.
  unfold download. destruct (dir_ok F); [|discriminate].
  intros H. injection H as <-.
  pose proof (download_from_count projects 0 (Downloads [] [] [])) as Hc.
  simpl in Hc. split; [exact Hc|].
  split; simpl; now rewrite Hc.
Qed.

Lemma downloaded_file_names_are_distinct_aux (projects : list project)
    (d : downloads) :
  download F page output_dir projects = Ok d ->
  NoDup (map entry_filename (successful_downloads d)).
Proof.
  unfold download. destruct (dir_ok F); [|discriminate].
  intros H. injection H as <-.
  apply download_from_names; simpl; [constructor|intros e []].
Qed.

(** The files of a download have pairwise distinct names, also when two
    projects have the same title. *)
Theorem downloaded_file_names_are_distinct (projects : list project)
    (d : downloads) :
  download F page output_dir projects = Ok d ->
  NoDup (map entry_filename (successful_downloads d)).
Proof. apply downloaded_file_names_are_distinct_aux. Qed.

Lemma find_link_of_download (l : list value) (p : project)
    (filename filepath : string) :
  NoDup (map entry_filename l) ->
  (forall e, In e l -> exists d, e = VDict d) ->
  In (success_entry p filename filepath) l ->
  find_link l filename = Ok (VStr (link p)).
Proof.
  intros Hnd Hdict Hin.
  apply in_split in Hin. destruct Hin as [pre [post ->]].
  change (success_entry p filename filepath)
    with (VDict [("title", VStr (title p)); ("link", VStr (link p));
                 ("filename", VStr filename); ("filepath", VStr filepath)]).
  rewrite (find_link_first_match pre post _ filename); [reflexivity| |reflexivity].
  intros x Hx.
  destruct (Hdict x (in_or_app _ _ _ (or_introl Hx))) as [dx ->].
  exists dx. split; [reflexivity|]. intros Heq.
  rewrite map_app in Hnd. apply NoDup_remove_2 in Hnd. apply Hnd.
  apply in_or_app. left. apply in_map_iff. exists (VDict dx).
  split; [|exact Hx]. simpl. exact Heq.
Qed.

(** The metadata a scraper writes lets the processor find the URL of
    every downloaded file: each entry of the list of successes is the
    entry of a project of the list, its file was written with the text
    of the project's page, and the processor's lookup of the file name
    in the metadata document (of either scraper) gives the link of that
    project. *)
Theorem downloaded_file_resolves_to_its_link (projects : list project)
    (d : downloads) (W : Oppla.web) (S : Unacity.site) (e : value) :
  download F page output_dir projects = Ok d ->
  In e (successful_downloads d) ->
  exists i p text,
    nth_error projects i = Some p
    /\ page p = inl text
    /\ e = success_entry p (make_filename i (title p))
             (path_join output_dir (make_filename i (title p)))
    /\ In (path_join output_dir (make_filename i (title p)), text)
          (written_files d)
    /\ resolve_url (VDict (Oppla.metadata_of W (successful_downloads d)
                                             (failed_downloads d)))
                   (make_filename i (title p))
       = Ok (VStr (link p))
    /\ resolve_url (VDict (Unacity.metadata_of S (successful_downloads d)
                                               (failed_downloads d)))
                   (make_filename i (title p))
       = Ok (VStr (link p)).
Proof.
  intros Hd He.
  pose proof (downloaded_file_names_are_distinct_aux projects d Hd) as Hnd.
  unfold download in Hd. destruct (dir_ok F); [|discriminate].
  injection Hd as <-.
  assert (Hall : forall x,
            In x (successful_downloads
                    (download_from 0 projects (Downloads [] [] []))) ->
            exists dx, x = VDict dx).
  { intros x Hx. apply download_from_success in Hx.
    destruct Hx as [[]|[k [q [text [_ [_ [-> _]]]]]]]. eexists. reflexivity. }
  pose proof He as He'. apply download_from_success in He'.
  destruct He' as [[]|[k [p [text [Hk [Hp [-> Hw]]]]]]].
  simpl in Hw. exists k, p, text. simpl.
  repeat split; try assumption.
  - change (find_link
              (successful_downloads
                 (download_from 0 projects (Downloads [] [] [])))
              (make_filename k (title p)) = Ok (VStr (link p))).
    exact (find_link_of_download _ p _ _ Hnd Hall He).
  - change (find_link
              (successful_downloads
                 (download_from 0 projects (Downloads [] [] [])))
              (make_filename k (title p)) = Ok (VStr (link p))).
    exact (find_link_of_download _ p _ _ Hnd Hall He).
Qed.

End Downloads.

Section DownloadWitnesses.

Local Open Scope list_scope.

Example downloaded_scenario :
  map entry_filename (successful_downloads downloaded)
  = [VStr "001_Urban_Wetland_Phase_12.html";
     VStr "003_Urban_Wetland_Phase_12.html"]
  /\ List.length (failed_downloads downloaded) = 1.
Proof. vm_compute. split; reflexivity. Qed.

Lemma download_accounts_for_every_project_witness :
  List.length (successful_downloads downloaded)
  + List.length (failed_downloads downloaded)
  = List.length three_projects
  /\ dict_get (Oppla.metadata_of oppla_web (successful_downloads downloaded)
                                 (failed_downloads downloaded))
              "total_projects"
     = Some (VInt (Z.of_nat (List.length three_projects)))
  /\ dict_get (Unacity.metadata_of una_site (successful_downloads downloaded)
                                   (failed_downloads downloaded))
              "total_projects"
     = Some (VInt (Z.of_nat (List.length three_projects))).
Proof.
  apply (download_accounts_for_every_project reliable
           (Oppla.fetch oppla_web reliable) "raw_html_data" three_projects
           downloaded oppla_web una_site).
  vm_compute. reflexivity.
Defined.

Lemma downloaded_file_names_are_distinct_witness :
  NoDup (map entry_filename (successful_downloads downloaded)).
Proof.
  apply (downloaded_file_names_are_distinct reliable
           (Oppla.fetch oppla_web reliable) "raw_html_data" three_projects
           downloaded).
  vm_compute. reflexivity.
Defined.

Lemma downloaded_file_resolves_to_its_link_witness :
  exists i p text,
    nth_error three_projects i = Some p
    /\ Oppla.fetch oppla_web reliable p = inl text
    /\ success_entry
         (Project "Urban Wetland: Phase 1/2" "https://oppla.eu/case-study/c")
         "003_Urban_Wetland_Phase_12.html"
         "raw_html_data/003_Urban_Wetland_Phase_12.html"
       = success_entry p (make_filename i (title p))
           (path_join "raw_html_data" (make_filename i (title p)))
    /\ In (path_join "raw_html_data" (make_filename i (title p)), text)
          (written_files downloaded)
    /\ resolve_url
         (VDict (Oppla.metadata_of oppla_web (successful_downloads downloaded)
                                   (failed_downloads downloaded)))
         (make_filename i (title p))
       = Ok (VStr (link p))
    /\ resolve_url
         (VDict (Unacity.metadata_of una_site
                   (successful_downloads downloaded)
                   (failed_downloads downloaded)))
         (make_filename i (title p))
       = Ok (VStr (link p)).
Proof.
  apply (downloaded_file_resolves_to_its_link reliable
           (Oppla.fetch oppla_web reliable) "raw_html_data" three_projects
           downloaded oppla_web una_site).
  - vm_compute. reflexivity.
  - vm_compute. right. left. reflexivity.
Defined.

End DownloadWitnesses.

Section OpplaExtraction.

Local Open Scope list_scope.

Variable W : Oppla.web.

Local Abbreviation full_url m := ("https://oppla.eu" ++ Oppla.unescape_slashes m)%string.

Lemma collect_case_studies_links (ms : list string) :
  forall cs seen,
  (forall u, In u seen <-> In u (map link cs)) ->
  NoDup (map link cs) ->
  NoDup (map link (Oppla.collect_case_studies W ms cs seen))
  /\ (forall u, In u (map link cs) ->
        In u (map link (Oppla.collect_case_studies W ms cs seen)))
  /\ (forall p, In p (Oppla.collect_case_studies W ms cs seen) ->
        In p cs
        \/ exists m, In m ms
             /\ link p = full_url m
             /\ is_substring "/case-study/" (Oppla.unescape_slashes m) = true)
  /\ (forall m, In m ms ->
        is_substring "/case-study/" (Oppla.unescape_slashes m) = true ->
        In (full_url m)
           (map link (Oppla.collect_case_studies W ms cs seen))).
Proof.
  induction ms as [|m ms IH]; intros cs seen Hseen Hnd;
    cbn [Oppla.collect_case_studies].
  - split; [exact Hnd|]. split; [auto|]. split; [auto|]. intros m [].
  - destruct (str_in (full_url m) seen) eqn:Hin; cbn [negb andb].
    + destruct (IH cs seen Hseen Hnd) as [H1 [H2 [H3 H4]]].
      split; [exact H1|]. split; [exact H2|]. split.
      * intros p Hp. destruct (H3 p Hp) as [Hc|[m' [Hm' Hl]]]; [now left|].
        right. exists m'. split; [now right|exact Hl].
      * intros m' [<-|Hm'] Hsub; [|now apply H4].
        apply H2, Hseen, str_in_In, Hin.
    + destruct (is_substring "/case-study/" (Oppla.unescape_slashes m))
        eqn:Hsub.
      * assert (Hfresh : ~ In (full_url m) (map link cs)).
        { intros Hc. apply Hseen, str_in_In in Hc. congruence. }
        destruct (IH (cs ++ [Project (Oppla.title_of_path W
                                        (Oppla.unescape_slashes m))
                                     (full_url m)])
                     (full_url m :: seen)) as [H1 [H2 [H3 H4]]].
        { intros u. rewrite map_app, in_app_iff. cbn [map link In].
          rewrite (Hseen u). tauto. }
        { rewrite map_app. cbn [map link]. apply NoDup_app; try assumption.
          - constructor; [intros []|constructor].
          - intros x Hx [<-|[]]. contradiction. }
        split; [exact H1|]. split; [|split].
        -- intros u Hu. apply H2. rewrite map_app, in_app_iff. now left.
        -- intros p Hp. destruct (H3 p Hp) as [Hc|[m' [Hm' Hl]]].
           ++ apply in_app_or in Hc. destruct Hc as [Hc|[<-|[]]]; [now left|].
              right. exists m. cbn [link]. split; [now left|]. split; auto.
           ++ right. exists m'. split; [now right|exact Hl].
        -- intros m' [<-|Hm'] Hs; [|now apply H4].
           apply H2. rewrite map_app, in_app_iff. right. now left.
      * destruct (IH cs seen Hseen Hnd) as [H1 [H2 [H3 H4]]].
        split; [exact H1|]. split; [exact H2|]. split.
        -- intros p Hp. destruct (H3 p Hp) as [Hc|[m' [Hm' Hl]]]; [now left|].
           right. exists m'. split; [now right|exact Hl].
        -- intros m' [<-|Hm'] Hs; [congruence|now apply H4].
Qed.

(** The case studies taken from the finder page have pairwise distinct
    links, and their links are exactly the addresses of the matched
    paths that hold [/case-study/], each path with its escaped slashes
    undone and the host in front. *)
Theorem extracted_case_studies_are_distinct (case_studies : list project)
    (content : string) :
  Oppla.request W "https://oppla.eu/case-study-finder" = Ok (200, content) ->
  Oppla.extract_case_studies_from_oppla W = Ok case_studies ->
  NoDup (map link case_studies)
  /\ (forall u, In u (map link case_studies) <->
        exists m, In m (Oppla.find_paths W content)
          /\ u = full_url m
          /\ is_substring "/case-study/" (Oppla.unescape_slashes m) = true).
Proof.
  intros Hreq. unfold Oppla.extract_case_studies_from_oppla.
  rewrite Hreq. simpl. intros H. injection H as <-.
  destruct (collect_case_studies_links (Oppla.find_paths W content) [] [])
    as [H1 [_ [H3 H4]]]; [simpl; tauto|constructor|].
  split; [exact H1|]. intros u. split.
  - intros Hu. apply in_map_iff in Hu. destruct Hu as [p [<- Hp]].
    destruct (H3 p Hp) as [[]|Hm]. exact Hm.
  - intros [m [Hm [-> Hs]]]. now apply H4.
Qed.

End OpplaExtraction.

Section OpplaWitness.

Local Open Scope list_scope.

Lemma extracted_case_studies_are_distinct_witness :
  NoDup (map link
           [Project "urban wetland" "https://oppla.eu/case-study/urban-wetland";
            Project "river park" "https://oppla.eu/case-study/river-park"])
  /\ (forall u,
        In u (map link
                [Project "urban wetland"
                         "https://oppla.eu/case-study/urban-wetland";
                 Project "river park"
                         "https://oppla.eu/case-study/river-park"]) <->
        exists m,
          In m (Oppla.find_paths oppla_web
                  "<html>https://oppla.eu/case-study-finder</html>")
          /\ u = ("https://oppla.eu" ++ Oppla.unescape_slashes m)%string
          /\ is_substring "/case-study/" (Oppla.unescape_slashes m) = true).
Proof.
  apply (extracted_case_studies_are_distinct oppla_web).
  - reflexivity.
  - vm_compute. reflexivity.
Defined.

End OpplaWitness.

Section UnacityExtraction.

Local Open Scope list_scope.

Variable S : Unacity.site.

Lemma extract_all_projects_from (k : nat) : forall page acc fuel,
  Unacity.get_projects_on_page S (page + k) = [] ->
  (forall j, j < k -> Unacity.get_projects_on_page S (page + j) <> []) ->
  k < fuel ->
  Unacity.extract_all_projects S fuel page acc
  = Some (acc ++ flat_map (Unacity.get_projects_on_page S) (seq page k)).
Proof.
  induction k as [|k IH]; intros page acc fuel Hend Hbefore Hfuel;
    (destruct fuel as [|fuel]; [lia|]); simpl.
  - rewrite Nat.add_0_r in Hend. rewrite Hend. now rewrite app_nil_r.
  - pose proof (Hbefore 0 ltac:(lia)) as Hne. rewrite Nat.add_0_r in Hne.
    destruct (Unacity.get_projects_on_page S page) as [|p ps] eqn:Hpage;
      [contradiction|].
    rewrite (IH (page + 1) (acc ++ p :: ps) fuel).
    + rewrite <- app_assoc, Nat.add_1_r. reflexivity.
    + rewrite <- Hend. f_equal. lia.
    + intros j Hj. replace (page + 1 + j) with (page + Datatypes.S j) by lia.
      apply Hbefore. lia.
    + lia.
Qed.

(** The extraction ends at the first page that gives no project and
    returns the projects of the pages before it, in order; pages after
    it are not requested, whatever they hold. *)
Theorem extraction_stops_at_the_first_empty_page (k fuel : nat) :
  first_empty_page S k ->
  k < fuel ->
  Unacity.extract_all_projects S fuel 0 []
  = Some (flat_map (Unacity.get_projects_on_page S) (seq 0 k)).
Proof.
  intros [Hend Hbefore] Hfuel.
  exact (extract_all_projects_from k 0 [] fuel Hend Hbefore Hfuel).
Qed.

Lemma projects_of_anchors_raises (anchors : list (string * option string))
    (text : string) :
  In (text, None) anchors ->
  forall projects,
  Unacity.projects_of_anchors anchors projects = Raise AttributeError.
Proof.
  induction anchors as [|[t h] rest IH]; intros Hin projects; [contradiction|].
  simpl. destruct h as [r|]; [|reflexivity]. simpl.
  destruct Hin as [Heq|Hin]; [discriminate|]. now apply IH.
Qed.

(** A listing page with one anchor that has no [href] gives no project
    at all: the projects of its other rows are lost. *)
Theorem anchor_without_href_loses_the_page (page_num : nat)
    (html text : string) (anchors : list (string * option string)) :
  Unacity.get_page_content S
    (Unacity.base_url ++ "?page=" ++ int_str (Z.of_nat page_num))%string
  = Ok (Some html) ->
  Unacity.row_anchors S html = Ok anchors ->
  In (text, None) anchors ->
  Unacity.get_projects_on_page S page_num = [].
Proof.
  intros Hget Hrows Hin. unfold Unacity.get_projects_on_page.
  rewrite Hget. cbn [rbind]. destruct (nonempty html); [|reflexivity].
  cbn [negb]. rewrite Hrows. cbn [rbind].
  now rewrite (projects_of_anchors_raises anchors text Hin).
Qed.

End UnacityExtraction.

Section UnacityWitnesses.

Local Open Scope list_scope.

Lemma extraction_stops_at_the_first_empty_page_witness :
  Unacity.extract_all_projects una_site 5 0 []
  = Some (flat_map (Unacity.get_projects_on_page una_site) (seq 0 2)).
Proof.
  apply (extraction_stops_at_the_first_empty_page una_site 2 5).
  - split; [reflexivity|].
    intros j Hj. destruct j as [|[|j]]; [discriminate|discriminate|lia].
  - lia.
Defined.

Lemma anchor_without_href_loses_the_page_witness :
  Unacity.get_projects_on_page una_site 2 = [].
Proof.
  apply (anchor_without_href_loses_the_page una_site 2
           "https://una.city?page=2" "Broken"
           [("Pocket Park", Some "/nbs/pocket-park"); ("Broken", None)]).
  - reflexivity.
  - reflexivity.
  - right. left. reflexivity.
Defined.

End UnacityWitnesses.

Section Cloudflare.



End Cloudflare.

(* ===================================================================== *)
(** * Properties of the callers *)

Section MainOfThePipeline.

Local Open Scope list_scope.

Arguments validate_entry : simpl never.

(** [main] without an API key raises [ValueError] before it reads,
    processes or writes anything.  When [main] returns, the combined
    dataset holds the records of the Oppla dataset followed by the
    records of the Una.City dataset, as they are read back from the two
    files at the end of the three runs, and its field dictionary is
    written; when both are empty the combined dataset is not touched. *)
Theorem main_combines_the_datasets (api_key : option string) (E : env)
    (oppla_dir unacity_dir_1 unacity_dir_2 : Callers.directory)
    (d : Callers.disk) :
  (str_truthy api_key = false ->
   Callers.main api_key E oppla_dir unacity_dir_1 unacity_dir_2 d
   = (Raise Callers.missing_key, d))
  /\ (forall d',
        Callers.main api_key E oppla_dir unacity_dir_1 unacity_dir_2 d
        = (Ok tt, d') ->
        match load_existing_data E (Callers.oppla_data d')
              ++ load_existing_data E (Callers.unacity_data d') with
        | [] => Callers.combined_data d' = Callers.combined_data d
        | all_data =>
            Callers.combined_data d' = CsvTable all_data
            /\ Callers.combined_dictionary d' = true
        end).
Proof.
  unfold Callers.main. split.
  - intros ->. reflexivity.
  - intros d'. destruct (str_truthy api_key); cbn [negb]; [|discriminate].
    match goal with
    | |- context [process_directory ?E1 ?p ?t ?s1] =>
        destruct (process_directory E1 p t s1) as [r1 s1'] end.
    cbn [fst snd]. destruct r1 as [df1|e]; [|discriminate].
    match goal with
    | |- context [process_directory ?E1 ?p ?t ?s1] =>
        destruct (process_directory E1 p t s1) as [r2 s2'] end.
    cbn [fst snd]. destruct r2 as [df2|e]; [|discriminate].
    match goal with
    | |- context [process_directory ?E1 ?p ?t ?s1] =>
        destruct (process_directory E1 p t s1) as [r3 s3'] end.
    cbn [fst snd]. destruct r3 as [df3|e]; [|discriminate].
    set (d3 := Callers.after_unacity_2 _ s3').
    assert (Hc : Callers.combined_data d3 = Callers.combined_data d)
      by reflexivity.
    set (oppla_df := load_existing_data E (Callers.oppla_data d3)).
    set (unacity_df := load_existing_data E (Callers.unacity_data d3)).
    destruct (negb (is_empty oppla_df) || negb (is_empty unacity_df)) eqn:Hne.
    + intros H. injection H as Hr <-.
      cbn [Callers.after_combined Callers.oppla_data Callers.unacity_data
           Callers.combined_data Callers.combined_dictionary].
      fold oppla_df unacity_df.
      destruct (save_data_returns _ _ _ _ _ Hr) as [_ [Ho [Hd _]]].
      rewrite Ho, Hd. unfold written. cbn [String.eqb Ascii.eqb Bool.eqb].
      destruct (oppla_df ++ unacity_df) as [|r rs] eqn:Hall; [|now split].
      apply app_eq_nil in Hall. destruct Hall as [-> ->]. discriminate.
    + intros H. injection H as <-. fold oppla_df unacity_df.
      rewrite Hc.
      destruct oppla_df; [|discriminate]. destruct unacity_df; [|discriminate].
      reflexivity.
Qed.

End MainOfThePipeline.

Section FirstTwoHundred.

Local Open Scope list_scope.

Lemma insert_sorted_length (x : string) (l : list string) :
  List.length (First200.insert_sorted x l) = Datatypes.S (List.length l).
Proof.
  induction l as [|y l IH]; simpl; [reflexivity|].
  destruct (String.leb x y); simpl; [reflexivity|now rewrite IH].
Qed.

Lemma py_sorted_length (l : list string) :
  List.length (First200.py_sorted l) = List.length l.
Proof.
  induction l as [|x l IH]; simpl; [reflexivity|].
  now rewrite insert_sorted_length, IH.
Qed.

Lemma insert_sorted_In (x y : string) (l : list string) :
  In y (First200.insert_sorted x l) <-> y = x \/ In y l.
Proof.
  induction l as [|z l IH]; simpl; [intuition|].
  destruct (String.leb x z); simpl; [intuition|]. rewrite IH. intuition.
Qed.

Lemma py_sorted_In (y : string) (l : list string) :
  In y (First200.py_sorted l) <-> In y l.
Proof.
  induction l as [|x l IH]; simpl; [tauto|].
  rewrite insert_sorted_In, IH. intuition.
Qed.

Lemma In_firstn (A : Type) (n : nat) (l : list A) (x : A) :
  In x (firstn n l) -> In x l.
Proof.
  intros H. rewrite <- (firstn_skipn n l). apply in_or_app. now left.
Qed.

Lemma folder_get_remove (d : First200.folder) (n m : string) :
  First200.folder_get (First200.folder_remove d n) m
  = if String.eqb n m then None else First200.folder_get d m.
Proof.
  induction d as [|[k c] d IH]; simpl.
  - now destruct (String.eqb n m).
  - destruct (String.eqb_spec k n) as [->|Hkn].
    + rewrite IH. destruct (String.eqb n m); reflexivity.
    + simpl. rewrite IH.
      destruct (String.eqb_spec k m) as [->|Hkm]; [|reflexivity].
      destruct (String.eqb_spec n m) as [->|_]; [contradiction|reflexivity].
Qed.

Lemma folder_get_app (d : First200.folder) (n m c : string) :
  First200.folder_get (d ++ [(n, c)]) m
  = match First200.folder_get d m with
    | Some x => Some x
    | None => if String.eqb n m then Some c else None
    end.
Proof.
  induction d as [|[k x] d IH]; simpl; [reflexivity|].
  destruct (String.eqb k m); [reflexivity|exact IH].
Qed.

Lemma copy_files_contents (C : First200.copier) (paths : list string) :
  forall target,
  fst (First200.copy_files C paths target) = Ok tt ->
  forall file_name,
  First200.folder_get (snd (First200.copy_files C paths target)) file_name
  = match last_named paths file_name with
    | Some file_path => content_of C file_path
    | None => First200.folder_get target file_name
    end.
Proof.
  induction paths as [|p rest IH]; intros target Hok n; [reflexivity|].
  cbn [First200.copy_files last_named] in *.
  assert (Hstep : forall target1 content,
            First200.folder_get target1 (First200.basename p) = None ->
            (forall m, m <> First200.basename p ->
               First200.folder_get target1 m = First200.folder_get target m) ->
            First200.read_source C p = Ok content ->
            fst (First200.copy_files C rest
                   (target1 ++ [(First200.basename p, content)])) = Ok tt ->
            First200.folder_get
              (snd (First200.copy_files C rest
                      (target1 ++ [(First200.basename p, content)]))) n
            = match last_named rest n with
              | Some q => content_of C q
              | None =>
                  if String.eqb (First200.basename p) n
                  then content_of C p
                  else First200.folder_get target n
              end).
  { intros target1 content Hnone Hother Hread Hrest.
    rewrite (IH _ Hrest n). destruct (last_named rest n); [reflexivity|].
    rewrite folder_get_app.
    destruct (String.eqb_spec (First200.basename p) n) as [<-|Hpn].
    - rewrite Hnone. unfold content_of. now rewrite Hread.
    - rewrite Hother by congruence.
      now destruct (First200.folder_get target n). }
  assert (Hlast : match last_named rest n with
                  | Some q => content_of C q
                  | None =>
                      if String.eqb (First200.basename p) n
                      then content_of C p
                      else First200.folder_get target n
                  end
                  = match match last_named rest n with
                          | Some q => Some q
                          | None =>
                              if String.eqb (First200.basename p) n
                              then Some p else None
                          end with
                    | Some file_path => content_of C file_path
                    | None => First200.folder_get target n
                    end).
  { destruct (last_named rest n); [reflexivity|].
    now destruct (String.eqb (First200.basename p) n). }
  rewrite <- Hlast. clear Hlast.
  destruct (First200.folder_get target (First200.basename p)) as [old|] eqn:Hg.
  - destruct (First200.remove_ok C _); [|discriminate].
    destruct (First200.read_source C p) as [content|e] eqn:Hread;
      [|discriminate].
    apply (Hstep _ content); try assumption; try reflexivity.
    + rewrite folder_get_remove. now rewrite String.eqb_refl.
    + intros m Hm. rewrite folder_get_remove.
      destruct (String.eqb_spec (First200.basename p) m) as [<-|_];
        [contradiction|reflexivity].
  - destruct (First200.read_source C p) as [content|e] eqn:Hread;
      [|discriminate].
    apply (Hstep _ content); try assumption; reflexivity.
Qed.

(** The script for the first 200 files copies at most 200 files, those
    of the second directory only as far as the first has fewer than 200,
    and every one of them comes from one of the two listings.  When the
    copying succeeds, the directory holds, under each base name, the
    content of the last selected file with that base name (so of two
    selected files with the same name only the later one is processed),
    and the files it held under other names are still there and are
    processed with the rest. *)
Theorem first_200_copy (C : First200.copier) (glob_1 glob_2 : list string)
    (target : First200.folder) :
  List.length (First200.first_200_files glob_1 glob_2)
  = Nat.min 200 (List.length glob_1 + List.length glob_2)
  /\ First200.first_200_files glob_1 glob_2
     = firstn 200 (First200.py_sorted glob_1)
       ++ firstn (200 - List.length glob_1) (First200.py_sorted glob_2)
  /\ (forall file_path,
        In file_path (First200.first_200_files glob_1 glob_2) ->
        In file_path glob_1 \/ In file_path glob_2)
  /\ (fst (First200.copy_files C (First200.first_200_files glob_1 glob_2)
                               target) = Ok tt ->
      forall file_name,
      First200.folder_get
        (snd (First200.copy_files C (First200.first_200_files glob_1 glob_2)
                                  target))
        file_name
      = match last_named (First200.first_200_files glob_1 glob_2)
                         file_name with
        | Some file_path => content_of C file_path
        | None => First200.folder_get target file_name
        end).
Proof.
  split; [|split; [|split]].
  - unfold First200.first_200_files.
    rewrite length_firstn, length_app, !py_sorted_length. reflexivity.
  - unfold First200.first_200_files.
    rewrite firstn_app, py_sorted_length. reflexivity.
  - unfold First200.first_200_files.
    intros p Hp. apply In_firstn in Hp. apply in_app_or in Hp.
    destruct Hp as [Hp|Hp]; apply (proj1 (py_sorted_In _ _)) in Hp; tauto.
  - apply copy_files_contents.
Qed.

End FirstTwoHundred.

Section CallerExamples.

Local Open Scope list_scope.

(** In the scenario, the Oppla run and the first Una.City run each add
    the record of the page, the second Una.City run skips the page, and
    the combined dataset has the two records. *)
Example main_scenario :
  fst main_run = Ok tt
  /\ Callers.combined_data (snd main_run)
     = CsvTable (rows_of (Callers.oppla_data (snd main_run))
                 ++ rows_of (Callers.unacity_data (snd main_run)))
  /\ List.length (rows_of (Callers.combined_data (snd main_run))) = 2
  /\ List.length (Callers.prompts (snd main_run)) = 2.
Proof. vm_compute. repeat split; reflexivity. Qed.

(** In the scenario, the two files named [001_a.html] collide: the
    folder ends with the one of the second directory; the stale file
    stays. *)
Example first_200_scenario :
  First200.first_200_files glob_1 glob_2
  = ["Unacity/raw_html_data_1/001_a.html";
     "Unacity/raw_html_data_1/002_b.html";
     "Unacity/raw_html_data_2/001_a.html"]
  /\ First200.copy_files copies (First200.first_200_files glob_1 glob_2)
                         old_folder
     = (Ok tt,
        [("900_z.html", "stale");
         ("002_b.html", "Unacity/raw_html_data_1/002_b.html");
         ("001_a.html", "Unacity/raw_html_data_2/001_a.html")]).
Proof. vm_compute. split; reflexivity. Qed.

End CallerExamples.

Section WithoutMetadata.

Local Open Scope list_scope.

Arguments validate_entry : simpl never.

(** Over a directory without a metadata document (as the directory the
    script for the first 200 files fills, into which only HTML files are
    copied), every record a run adds has the [url_source] ['unknown']. *)
Theorem without_metadata_every_url_is_unknown (E : env)
    (source_type : option string) (existing_urls : list value)
    (html_files : list html_file) (r : dict) :
  truthy (metadata E) = false ->
  In r (new_records E source_type existing_urls html_files) ->
  dict_get r "url_source" = Some (VStr "unknown").
Proof.
  intros Hmeta Hr. unfold new_records in Hr. apply in_flat_map in Hr.
  destruct Hr as [f [_ Hr]].
  destruct (outcome_record_url _ _ _ _ _ Hr) as [url [Hu Hg]].
  unfold resolve_url in Hu. rewrite Hmeta in Hu. injection Hu as <-.
  exact Hg.
Qed.

Lemma without_metadata_every_url_is_unknown_witness :
  dict_get
    (match validate_entry
             [("title", VStr (prompt_of "pages/a.html"));
              ("status", VStr "Completed");
              ("url_source", VStr "unknown");
              ("data_source", VStr "unacity");
              ("source_file", VStr "pages/a.html")] with
     | Ok d => d
     | Raise _ => []
     end) "url_source"
  = Some (VStr "unknown").
Proof.
  apply (without_metadata_every_url_is_unknown no_files
           (Some "unacity"%string) [VStr "unknown"] [file_a]).
  - reflexivity.
  - vm_compute. left. reflexivity.
Defined.

End WithoutMetadata.

Section CallerWitnesses.

Local Open Scope list_scope.

Lemma main_combines_the_datasets_witness :
  Callers.combined_data (snd main_run)
  = CsvTable (load_existing_data one_file (Callers.oppla_data (snd main_run))
              ++ load_existing_data one_file
                   (Callers.unacity_data (snd main_run)))
  /\ Callers.combined_dictionary (snd main_run) = true.
Proof.
  pose proof (proj2 (main_combines_the_datasets (Some "sk-test"%string)
                       one_file oppla_dir unacity_dir_1 unacity_dir_2
                       empty_disk) (snd main_run)) as H.
  assert (Hrun : Callers.main (Some "sk-test"%string) one_file oppla_dir
                   unacity_dir_1 unacity_dir_2 empty_disk
                 = (Ok tt, snd main_run)) by (vm_compute; reflexivity).
  specialize (H Hrun). vm_compute in H. vm_compute. exact H.
Defined.

Lemma first_200_copy_witness :
  List.length (First200.first_200_files glob_1 glob_2)
  = Nat.min 200 (List.length glob_1 + List.length glob_2)
  /\ First200.first_200_files glob_1 glob_2
     = firstn 200 (First200.py_sorted glob_1)
       ++ firstn (200 - List.length glob_1) (First200.py_sorted glob_2)
  /\ (forall file_path,
        In file_path (First200.first_200_files glob_1 glob_2) ->
        In file_path glob_1 \/ In file_path glob_2)
  /\ (fst (First200.copy_files copies (First200.first_200_files glob_1 glob_2)
                               old_folder) = Ok tt ->
      forall file_name,
      First200.folder_get
        (snd (First200.copy_files copies
                (First200.first_200_files glob_1 glob_2) old_folder))
        file_name
      = match last_named (First200.first_200_files glob_1 glob_2)
                         file_name with
        | Some file_path => content_of copies file_path
        | None => First200.folder_get old_folder file_name
        end).
Proof. exact (first_200_copy copies glob_1 glob_2 old_folder). Defined.

End CallerWitnesses.
